(** * super_logger: the Logger registry and its handler life cycle

    A shallow embedding of [src/loggers/utils.py] and [src/loggers/logger.py].

    The Python class [Logger] keeps two class attributes ([_instances] and
    [_run_id]) and hands out shared, mutable instances; it sits on top of
    three collaborators of the Python standard library: [logging] (named
    loggers and handler objects), [os]/[shutil] (the file system) and
    [datetime] (the clock).  The embedding threads one explicit [State]
    through every call: the class attributes, a heap of Logger objects
    addressed by reference, the objects owned by [logging], the file system,
    the clock, and a trace of what was handed to [logging] for emission.
    A Python exception is a [Raise] result; the state reached when it was
    raised is kept, as in Python. *)

From stdpp Require Import base option list gmap strings.
From Stdlib Require Import ZArith Ascii String Lia.

Local Open Scope string_scope.
Local Open Scope list_scope.
Local Open Scope Z_scope.

(** ** Strings and paths *)

Module Path.

(** The path separator of [posixpath]. *)
Definition sep : ascii := "/"%char.

Definition is_sep (c : ascii) : bool := Ascii.eqb c sep.

(** [s.startswith("/")] and [s.endswith("/")]. *)
Definition startswith_sep (s : string) : bool :=
  match s with
  | String c _ => is_sep c
  | EmptyString => false
  end.

Fixpoint endswith_sep (s : string) : bool :=
  match s with
  | EmptyString => false
  | String c EmptyString => is_sep c
  | String _ s' => endswith_sep s'
  end.

(** [os.path.join(a, b)] as [posixpath.join] computes it for two
    arguments: an absolute [b] replaces [a]; otherwise the two are glued
    with exactly one separator, unless [a] is empty or already ends with
    one. *)
Definition join (a b : string) : string :=
  if startswith_sep b then b
  else if bool_decide (a = "") || endswith_sep a then a +:+ b
  else a +:+ "/" +:+ b.

(** [s.split("/")]: the pieces between separators, empty ones included. *)
Fixpoint split (s : string) : list string :=
  match s with
  | EmptyString => [""]
  | String c s' =>
      if is_sep c then "" :: split s'
      else match split s' with
           | x :: xs => String c x :: xs
           | [] => [String c ""]
           end
  end.

Definition nonempty (s : string) : bool :=
  match s with EmptyString => false | String _ _ => true end.

(** How the operating system reads a path string: the sequence of its
    non-empty components (so that ["a//b"] and ["a/b/"] name the same
    entry).  Every path the class builds starts from
    [os.path.abspath(os.curdir)], so paths are read from the root.  The
    components ["."] and [".."] are not interpreted, so [resolve] reads
    what the operating system reads only on paths that hold neither
    ([normalized] below). *)
Definition resolve (s : string) : list string :=
  List.filter nonempty (split s).

(** A string that can serve as one path component. *)
Fixpoint sep_free (s : string) : bool :=
  match s with
  | EmptyString => true
  | String c s' => negb (is_sep c) && sep_free s'
  end.

(** A string that is exactly one path component. *)
Definition component (s : string) : bool := nonempty s && sep_free s.

(** The non-empty prefixes of a component list: the entry itself preceded
    by all the directories above it, outermost first. *)
Fixpoint prefixes (p : list string) : list (list string) :=
  match p with
  | [] => []
  | c :: p' => [c] :: List.map (cons c) (prefixes p')
  end.

(** The directories strictly above an entry. *)
Definition ancestors (p : list string) : list (list string) :=
  prefixes (removelast p).

(** The components ["."] and [".."], which the operating system reads as
    "this directory" and "the directory above" and [resolve] does not. *)
Definition dot (c : string) : bool :=
  bool_decide (c = ".") || bool_decide (c = "..").

(** The string of a component list: ["/c1/c2/.../cn"]. *)
Fixpoint unsplit (p : list string) : string :=
  match p with
  | [] => ""
  | c :: p' => "/" +:+ c +:+ unsplit p'
  end.

(** An absolute path in normal form, as [os.path.abspath] gives it: it
    starts at the root and holds no empty component, no ["."] and no
    [".."].  On such a string [resolve] reads what the operating system
    reads. *)
Definition normalized (s : string) : bool :=
  bool_decide (s = match resolve s with [] => "/" | p => unsplit p end)
  && forallb (fun c => negb (dot c)) (resolve s).

(** The limits of the file system, as Linux has them: a name holds at most
    255 bytes and a path string fewer than 4096. *)
Definition NAME_MAX : Z := 255%Z.
Definition PATH_MAX : Z := 4096%Z.

(** [len(s)]. *)
Definition len (s : string) : Z := Z.of_nat (String.length s).

(** A string with a NUL byte, which no path may hold. *)
Fixpoint has_nul (s : string) : bool :=
  match s with
  | EmptyString => false
  | String c s' => Ascii.eqb c Ascii.zero || has_nul s'
  end.

(** A name that an entry of a file system can have. *)
Definition name_ok (c : string) : bool :=
  component c && negb (dot c) && negb (has_nul c)
  && Z.leb (len c) NAME_MAX.

(** The length of the string of a component list. *)
Definition path_length (p : list string) : Z :=
  fold_right (fun c n => (1 + len c + n)%Z) 0%Z p.


End Path.

(** ** Data model *)

(** References to Logger instances and to handler objects.  Python compares
    them with [is]; here two references are the same object exactly when
    they are equal. *)
Abbreviation ref := nat (only parsing).
Abbreviation href := nat (only parsing).

(** What [datetime.now()] returns, as far as [strftime] looks at it. *)
Record DateTime := mkDateTime {
  year : nat; month : nat; day : nat;
  hour : nat; minute : nat; second : nat
}.

(** The exceptions the modelled code can raise. *)
Inductive exn :=
| KeyError (key : string)
| AttributeError (attr : string)
| FileExistsError
| FileNotFoundError
| NotADirectoryError
| IsADirectoryError
| ValueError
| FileNameTooLong  (* OSError with errno ENAMETOOLONG *)
| DanglingReference.
(* [DanglingReference] is not a Python exception: it is the answer of the
   model to a reference outside the heap, which no run produces. *)

Inductive result (A : Type) :=
| Ok (a : A)
| Raise (e : exn).
Arguments Ok {A} a.
Arguments Raise {A} e.

(** An entry of the file system: a directory, or a regular file with its
    lines. *)
Inductive node :=
| Dir
| File (content : list string).

#[global] Instance node_eq_dec : EqDecision node.
Proof. solve_decision. Defined.

(** Where a handler writes: [logging.StreamHandler()] (standard error) or
    [logging.FileHandler(filename, mode, encoding)]. *)
Inductive Target :=
| Console
| FileTarget (filename mode encoding : string).

(** A handler object of [logging]. *)
Record Handler := mkHandler {
  h_target : Target;
  h_level : Z;                 (* Handler.level *)
  h_formatter : option string; (* the format Handler.formatter was made of *)
  h_open : bool                (* the stream is open: close() was not called *)
}.

(** A [logging.Logger] object, as far as the class uses it. *)
Record PyLogger := mkPyLogger {
  py_level : Z;                (* Logger.level *)
  py_handlers : list href      (* Logger.handlers *)
}.

(** A [Logger] instance.  Python attributes exist only once they were
    assigned: an attribute that was never set is [None] here, and reading it
    raises [AttributeError]. *)
Record LoggerObj := mkLoggerObj {
  logger : option string;                 (* self.logger, by its key in logging *)
  _initialized : option bool;             (* self._initialized *)
  handlers : option (gmap string href);   (* self.handlers *)
  name : option string;                   (* self.name *)
  log_file_defaullt_dir : option string;  (* self.log_file_defaullt_dir *)
  date_dir : option string;               (* self.date_dir *)
  run_dir : option string                 (* self.run_dir *)
}.

(** What reaches [logging]: a call of a logging method on a named logger,
    and the record handed to a handler that accepts its level. *)
Inductive Event :=
| EvLog (lg : string) (levelno : Z) (msg : string)
| EvEmit (h : href) (levelno : Z) (msg : string).

Record State := mkState {
  instances : gmap string ref;        (* Logger._instances *)
  cls_run_id : option string;         (* Logger._run_id, unset at first *)
  heap : gmap ref LoggerObj;          (* the Logger objects *)
  py_loggers : gmap string PyLogger;  (* the loggers logging.getLogger knows *)
  hheap : gmap href Handler;          (* the handler objects *)
  fs : gmap (list string) node;       (* the file system, by resolved path *)
  cwd : string;                       (* os.path.abspath(os.curdir) *)
  clock : nat -> DateTime;            (* the n-th answer of datetime.now() *)
  ticks : nat;                        (* how often the clock was read *)
  trace : list Event
}.

Definition set_instances (v : gmap string ref) (st : State) : State :=
  mkState v (cls_run_id st) (heap st) (py_loggers st) (hheap st) (fs st)
          (cwd st) (clock st) (ticks st) (trace st).
Definition set_cls_run_id (v : option string) (st : State) : State :=
  mkState (instances st) v (heap st) (py_loggers st) (hheap st) (fs st)
          (cwd st) (clock st) (ticks st) (trace st).
Definition set_heap (v : gmap ref LoggerObj) (st : State) : State :=
  mkState (instances st) (cls_run_id st) v (py_loggers st) (hheap st) (fs st)
          (cwd st) (clock st) (ticks st) (trace st).
Definition set_py_loggers (v : gmap string PyLogger) (st : State) : State :=
  mkState (instances st) (cls_run_id st) (heap st) v (hheap st) (fs st)
          (cwd st) (clock st) (ticks st) (trace st).
Definition set_hheap (v : gmap href Handler) (st : State) : State :=
  mkState (instances st) (cls_run_id st) (heap st) (py_loggers st) v (fs st)
          (cwd st) (clock st) (ticks st) (trace st).
Definition set_fs (v : gmap (list string) node) (st : State) : State :=
  mkState (instances st) (cls_run_id st) (heap st) (py_loggers st) (hheap st) v
          (cwd st) (clock st) (ticks st) (trace st).
Definition set_ticks (v : nat) (st : State) : State :=
  mkState (instances st) (cls_run_id st) (heap st) (py_loggers st) (hheap st)
          (fs st) (cwd st) (clock st) v (trace st).
Definition set_trace (v : list Event) (st : State) : State :=
  mkState (instances st) (cls_run_id st) (heap st) (py_loggers st) (hheap st)
          (fs st) (cwd st) (clock st) (ticks st) v.

(** ** The monad of Python calls: state and exceptions *)

Definition M (A : Type) : Type := State -> result A * State.

Definition ret {A} (a : A) : M A := fun st => (Ok a, st).

Definition bind {A B} (m : M A) (k : A -> M B) : M B :=
  fun st =>
    match m st with
    | (Ok a, st') => k a st'
    | (Raise e, st') => (Raise e, st')
    end.

Definition raise {A} (e : exn) : M A := fun st => (Raise e, st).

Definition gets {A} (f : State -> A) : M A := fun st => (Ok (f st), st).

Definition modify (f : State -> State) : M unit := fun st => (Ok tt, f st).

(** Evaluate an option or a result in the monad. *)
Definition lift_opt {A} (e : exn) (o : option A) : M A :=
  match o with
  | Some a => ret a
  | None => raise e
  end.

Declare Scope py_scope.
Delimit Scope py_scope with py.
Notation "x <- c1 ;; c2" := (bind c1 (fun x => c2))
  (at level 100, c1 at next level, right associativity) : py_scope.
Notation "c1 ;; c2" := (bind c1 (fun _ => c2))
  (at level 100, right associativity) : py_scope.
Local Open Scope py_scope.

(** [for x in l: body(x)]. *)
Fixpoint for_each {A} (l : list A) (body : A -> M unit) : M unit :=
  match l with
  | [] => ret tt
  | x :: l' => body x ;; for_each l' body
  end.

(** [if c: body]. *)
Definition when (c : bool) (body : M unit) : M unit :=
  if c then body else ret tt.

(** ** The collaborators: file system, clock, logging *)

(** Pure operations on the file system.  The root (the empty component
    list) is a directory that always exists. *)
Module FS.

Definition entry_exists (m : gmap (list string) node) (p : list string) : bool :=
  match p with
  | [] => true
  | _ => bool_decide (is_Some (m !! p))
  end.

Definition is_dir (m : gmap (list string) node) (p : list string) : bool :=
  match p with
  | [] => true
  | _ => bool_decide (m !! p = Some Dir)
  end.

Definition is_file (m : gmap (list string) node) (p : list string) : bool :=
  match p with
  | [] => false
  | _ => match m !! p with
         | Some (File _) => true
         | _ => false
         end
  end.

(** [os.mkdir] of one directory of the chain, skipped when it is there. *)
Definition mkdir_missing (m : gmap (list string) node) (q : list string)
  : gmap (list string) node :=
  match m !! q with
  | Some _ => m
  | None => <[q := Dir]> m
  end.

(** [os.makedirs(p)] with [exist_ok=False]: the entry must not exist, no
    directory above it may be a regular file, and every missing directory
    of the chain is created, outermost first. *)
Definition makedirs (m : gmap (list string) node) (p : list string)
  : result (gmap (list string) node) :=
  if entry_exists m p then Raise FileExistsError
  else if existsb (is_file m) (Path.ancestors p) then Raise NotADirectoryError
  else Ok (fold_left mkdir_missing (Path.prefixes p) m).

(** [if not os.path.exists(p): os.makedirs(p)], the way the class makes
    its directories. *)
Definition ensure_dir (m : gmap (list string) node) (p : list string)
  : result (gmap (list string) node) :=
  if entry_exists m p then Ok m else makedirs m p.


(** The walk of the operating system through the directories above an
    entry, outermost first: the first one whose name is too long, that is
    missing or that is a regular file decides the error. *)
Fixpoint walk (m : gmap (list string) node) (above : list (list string))
  : result unit :=
  match above with
  | [] => Ok tt
  | q :: rest =>
      if Z.ltb Path.NAME_MAX (Path.len (List.last q "")) then
        Raise FileNameTooLong
      else match m !! q with
           | None => Raise FileNotFoundError
           | Some (File _) => Raise NotADirectoryError
           | Some Dir => walk m rest
           end
  end.

(** [open(p, mode)] for the modes ["a"] and ["w"].  A path with a NUL byte
    is refused by Python ([ValueError]) and one that is too long by the
    operating system; the directories above must be there; a name that is
    too long is refused; a missing file is created empty; ["a"] keeps the
    content of an existing file and ["w"] truncates it. *)
Definition open_ (m : gmap (list string) node) (p : list string) (mode : string)
  : result (gmap (list string) node) :=
  if negb (bool_decide (mode = "a") || bool_decide (mode = "w")) then Raise ValueError
  else if existsb Path.has_nul p then Raise ValueError
  else if Z.leb Path.PATH_MAX (Path.path_length p) then Raise FileNameTooLong
  else match p with
  | [] => Raise IsADirectoryError
  | _ =>
      match walk m (Path.ancestors p) with
      | Raise e => Raise e
      | Ok _ =>
          if Z.ltb Path.NAME_MAX (Path.len (List.last p "")) then
            Raise FileNameTooLong
          else match m !! p with
               | Some Dir => Raise IsADirectoryError
               | Some (File c) =>
                   if bool_decide (mode = "a") then Ok m
                   else Ok (<[p := File []]> m)
               | None => Ok (<[p := File []]> m)
               end
      end
  end.

(** [shutil.rmtree(p)]: the directory and everything below it goes. *)
Definition rmtree (m : gmap (list string) node) (p : list string)
  : result (gmap (list string) node) :=
  match m !! p with
  | Some Dir => Ok (filter (fun kv => ¬ p `prefix_of` kv.1) m)
  | Some (File _) => Raise NotADirectoryError
  | None => Raise FileNotFoundError
  end.

(** The entries directly inside the directory [p], by name. *)
Definition children (m : gmap (list string) node) (p : list string) : list string :=
  (fun k => List.last k "")
    <$> filter (fun k => k ≠ [] ∧ removelast k = p) (elements (dom m)).

(** [os.listdir(p)]: the names in a directory, in no particular order. *)
Definition listdir (m : gmap (list string) node) (p : list string)
  : result (list string) :=
  if is_dir m p then Ok (children m p)
  else if is_file m p then Raise NotADirectoryError
  else Raise FileNotFoundError.

(** [os.remove(p)]: a regular file goes; a directory is refused. *)
Definition remove (m : gmap (list string) node) (p : list string)
  : result (gmap (list string) node) :=
  match m !! p with
  | Some (File _) => Ok (delete p m)
  | Some Dir => Raise IsADirectoryError
  | None => Raise FileNotFoundError
  end.

(** A file system is a tree: every entry is named by path components, and
    everything above an entry is a directory. *)
Definition well_formed (m : gmap (list string) node) : bool :=
  forallb (fun k => forallb Path.component k
                    && forallb (fun q => bool_decide (m !! q = Some Dir))
                               (Path.ancestors k))
          (elements (dom m)).

(** Every entry has a name that a file system can hold: no entry is called
    ["."] or [".."], holds a NUL byte or is longer than [NAME_MAX]. *)
Definition well_named (m : gmap (list string) node) : bool :=
  forallb (forallb Path.name_ok) (elements (dom m)).

End FS.

(** Run a pure file-system operation on the file system of the state. *)
Definition fs_step (op : gmap (list string) node -> result (gmap (list string) node))
  : M unit :=
  fun st =>
    match op (fs st) with
    | Ok m => (Ok tt, set_fs m st)
    | Raise e => (Raise e, st)
    end.

Module os.

(** [os.path.abspath(os.curdir)]. *)
Definition abspath_curdir : M string := gets cwd.

(** [os.path.exists(p)]. *)
Definition path_exists (p : string) : M bool :=
  gets (fun st => FS.entry_exists (fs st) (Path.resolve p)).

(** [os.makedirs(p)]. *)
Definition makedirs (p : string) : M unit :=
  fs_step (fun m => FS.makedirs m (Path.resolve p)).

(** [os.listdir(p)]. *)
Definition listdir (p : string) : M (list string) :=
  fun st =>
    match FS.listdir (fs st) (Path.resolve p) with
    | Ok names => (Ok names, st)
    | Raise e => (Raise e, st)
    end.

(** [os.path.isdir(p)]. *)
Definition path_isdir (p : string) : M bool :=
  gets (fun st => FS.is_dir (fs st) (Path.resolve p)).

(** [os.remove(p)]. *)
Definition remove (p : string) : M unit :=
  fs_step (fun m => FS.remove m (Path.resolve p)).

End os.

Module shutil.

(** [shutil.rmtree(p)]. *)
Definition rmtree (p : string) : M unit :=
  fs_step (fun m => FS.rmtree m (Path.resolve p)).

End shutil.

Module datetime.

(** [datetime.now()]: every call reads the clock once more. *)
Definition now : M DateTime :=
  fun st => (Ok (clock st (ticks st)), set_ticks (S (ticks st)) st).

Definition digit (n : nat) : ascii :=
  match (n mod 10)%nat with
  | 0%nat => "0" | 1%nat => "1" | 2%nat => "2" | 3%nat => "3" | 4%nat => "4"
  | 5%nat => "5" | 6%nat => "6" | 7%nat => "7" | 8%nat => "8" | _ => "9"
  end%char.

(** A field printed with two digits ([%m %d %H %M %S]) and the year
    printed with four ([%Y]); the fields of a [datetime] stay below 100
    and 10000. *)
Definition pad2 (n : nat) : string :=
  String (digit (n / 10)) (String (digit n) "").

Definition pad4 (n : nat) : string :=
  String (digit (n / 1000)) (String (digit (n / 100))
    (String (digit (n / 10)) (String (digit n) ""))).

(** [d.strftime('%Y-%m-%d')]. *)
Definition strftime_Ymd (d : DateTime) : string :=
  pad4 (year d) +:+ "-" +:+ pad2 (month d) +:+ "-" +:+ pad2 (day d).

(** [d.strftime('%H%M%S')]. *)
Definition strftime_HMS (d : DateTime) : string :=
  pad2 (hour d) +:+ pad2 (minute d) +:+ pad2 (second d).

End datetime.

(** The part of Python's [logging] the class drives.  Propagation of a
    record to ancestor loggers and the formatting and writing done inside a
    handler stay with [logging]; the trace records what is handed over. *)
Module logging.

Definition NOTSET : Z := 0.
Definition DEBUG : Z := 10.
Definition INFO : Z := 20.
Definition WARNING : Z := 30.
Definition ERROR : Z := 40.
Definition CRITICAL : Z := 50.

(** [getLogger("")] and [getLogger("root")] both answer the root logger. *)
Definition key_of (name : string) : string :=
  if bool_decide (name = "") then "root" else name.

(** A logger as [logging] makes it on first request: no handlers, level
    [NOTSET] (the root logger starts at [WARNING]). *)
Definition fresh_logger (key : string) : PyLogger :=
  mkPyLogger (if bool_decide (key = "root") then WARNING else NOTSET) [].

(** The logger object behind a key. *)
Definition lookup_logger (st : State) (key : string) : PyLogger :=
  default (fresh_logger key) (py_loggers st !! key).

Definition store_logger (key : string) (l : PyLogger) : M unit :=
  modify (fun st => set_py_loggers (<[key := l]> (py_loggers st)) st).

(** [logging.getLogger(name)]: one object per name, made on first
    request and kept for the life of the process. *)
Definition getLogger (name : string) : M string :=
  l <- gets (fun st => lookup_logger st (key_of name)) ;;
  store_logger (key_of name) l ;;
  ret (key_of name).

(** [lg.setLevel(level)]. *)
Definition setLevel (lg : string) (level : Z) : M unit :=
  l <- gets (fun st => lookup_logger st lg) ;;
  store_logger lg (mkPyLogger level (py_handlers l)).

(** [lg.handlers], and [list(lg.handlers)]. *)
Definition get_handlers (lg : string) : M (list href) :=
  gets (fun st => py_handlers (lookup_logger st lg)).

(** [lg.addHandler(h)]: appended unless already in the list. *)
Definition addHandler (lg : string) (h : href) : M unit :=
  l <- gets (fun st => lookup_logger st lg) ;;
  if bool_decide (h ∈ py_handlers l) then ret tt
  else store_logger lg (mkPyLogger (py_level l) (py_handlers l ++ [h])).

(** [list.remove]: the first occurrence goes. *)
Fixpoint remove_first (h : href) (l : list href) : list href :=
  match l with
  | [] => []
  | x :: l' => if bool_decide (x = h) then l' else x :: remove_first h l'
  end.

(** [lg.removeHandler(h)]: removed if in the list. *)
Definition removeHandler (lg : string) (h : href) : M unit :=
  l <- gets (fun st => lookup_logger st lg) ;;
  if bool_decide (h ∈ py_handlers l)
  then store_logger lg (mkPyLogger (py_level l) (remove_first h (py_handlers l)))
  else ret tt.

(** [lg.handlers.clear()]. *)
Definition handlers_clear (lg : string) : M unit :=
  l <- gets (fun st => lookup_logger st lg) ;;
  store_logger lg (mkPyLogger (py_level l) []).

(** The handlers of a logger that accept a record of level [levelno]. *)
Definition accepting (st : State) (levelno : Z) (hs : list href) : list href :=
  List.filter
    (fun h => match hheap st !! h with
              | Some hd => bool_decide (h_level hd <= levelno)
              | None => false
              end) hs.

(** What a record logged on [lg] causes: when the logger is enabled for
    the level, the record goes to each of its handlers that accepts it.
    The class sets the level of every logger it touches, so the effective
    level is the logger's own. *)
Definition deliveries (st : State) (lg : string) (levelno : Z) (msg : string)
  : list Event :=
  let l := lookup_logger st lg in
  if bool_decide (py_level l <= levelno)
  then List.map (fun h => EvEmit h levelno msg)
                (accepting st levelno (py_handlers l))
  else [].

(** [lg.log(levelno, msg)], the common body of [lg.debug], [lg.info],
    [lg.warning], [lg.error] and [lg.critical]. *)
Definition log (lg : string) (levelno : Z) (msg : string) : M unit :=
  fun st =>
    (Ok tt, set_trace (trace st ++ EvLog lg levelno msg
                                   :: deliveries st lg levelno msg) st).

Definition debug (lg msg : string) : M unit := log lg DEBUG msg.
Definition info (lg msg : string) : M unit := log lg INFO msg.
Definition warning (lg msg : string) : M unit := log lg WARNING msg.
Definition error (lg msg : string) : M unit := log lg ERROR msg.
Definition critical (lg msg : string) : M unit := log lg CRITICAL msg.

(** A new handler object. *)
Definition new_handler (hd : Handler) : M href :=
  fun st =>
    let h := fresh (dom (hheap st)) in
    (Ok h, set_hheap (<[h := hd]> (hheap st)) st).

(** [logging.StreamHandler()]: standard error, level [NOTSET], no
    formatter. *)
Definition StreamHandler : M href :=
  new_handler (mkHandler Console NOTSET None true).

(** [logging.FileHandler(filename, mode, encoding)]: the file is opened
    when the handler is made. *)
Definition FileHandler (filename mode encoding : string) : M href :=
  fs_step (fun m => FS.open_ m (Path.resolve filename) mode) ;;
  new_handler (mkHandler (FileTarget filename mode encoding) NOTSET None true).

Definition update_handler (h : href) (f : Handler -> Handler) : M unit :=
  fun st =>
    match hheap st !! h with
    | Some hd => (Ok tt, set_hheap (<[h := f hd]> (hheap st)) st)
    | None => (Raise DanglingReference, st)
    end.

(** The classes of characters in the pattern by which [logging.Formatter]
    validates a format of the [%] style,
    [%\(\w+\)[#0+ -]*(\*|\d+)?(\.(\*|\d+))?[diouxefgcrsa%]] without regard
    to case, read on ASCII. *)
Definition is_digit (c : ascii) : bool :=
  let n := nat_of_ascii c in Nat.leb 48 n && Nat.leb n 57.

Definition is_word (c : ascii) : bool :=
  let n := nat_of_ascii c in
  is_digit c || (Nat.leb 65 n && Nat.leb n 90) || (Nat.leb 97 n && Nat.leb n 122)
  || Nat.eqb n 95.

Definition is_flag (c : ascii) : bool :=
  existsb (Ascii.eqb c) ["#"; "0"; "+"; " "; "-"]%char.

Definition is_conversion (c : ascii) : bool :=
  existsb (Ascii.eqb c)
    ["d"; "i"; "o"; "u"; "x"; "e"; "f"; "g"; "c"; "r"; "s"; "a"; "%";
     "D"; "I"; "O"; "U"; "X"; "E"; "F"; "G"; "C"; "R"; "S"; "A"]%char.

(** What is left of [s] after its longest start of characters in a class. *)
Fixpoint skip (f : ascii -> bool) (s : string) : string :=
  match s with
  | String c s' => if f c then skip f s' else s
  | EmptyString => s
  end.

(** The optional width, [*] or digits, and the optional precision, a dot
    followed by [*] or digits. *)
Definition skip_width (s : string) : string :=
  match s with
  | String "*" s' => s'
  | _ => skip is_digit s
  end.

Definition skip_precision (s : string) : string :=
  match s with
  | String "." (String "*" s') => s'
  | String "." (String c s') => if is_digit c then skip is_digit s' else s
  | _ => s
  end.

(** The pattern matches at the start of [s]. *)
Definition field_here (s : string) : bool :=
  match s with
  | String "%" (String "(" (String c s1)) =>
      is_word c
      && match skip is_word s1 with
         | String ")" s2 =>
             match skip_precision (skip_width (skip is_flag s2)) with
             | String k _ => is_conversion k
             | EmptyString => false
             end
         | _ => false
         end
  | _ => false
  end.

(** The pattern matches somewhere in [s]. *)
Fixpoint field_somewhere (s : string) : bool :=
  field_here s
  || match s with
     | String _ s' => field_somewhere s'
     | EmptyString => false
     end.

(** [logging.Formatter(fmt)] accepts [fmt]: an empty format stands for
    the default [%(message)s], and any other one must hold a field. *)
Definition valid_format (fmt : string) : bool :=
  match fmt with
  | EmptyString => true
  | _ => field_somewhere fmt
  end.

(** [h.setFormatter(logging.Formatter(fmt))]: the formatter is made first,
    and [logging.Formatter] raises [ValueError] for a format it does not
    accept. *)
Definition setFormatter (h : href) (fmt : string) : M unit :=
  if valid_format fmt then
    update_handler h (fun hd =>
      mkHandler (h_target hd) (h_level hd) (Some fmt) (h_open hd))
  else raise ValueError.

(** [h.close()]: flushes and releases the stream.  The class never calls
    it. *)
Definition close (h : href) : M unit :=
  update_handler h (fun hd =>
    mkHandler (h_target hd) (h_level hd) (h_formatter hd) false).

(** [h.setLevel(level)]. *)
Definition Handler_setLevel (h : href) (level : Z) : M unit :=
  update_handler h (fun hd =>
    mkHandler (h_target hd) level (h_formatter hd) (h_open hd)).

End logging.

(** ** src/loggers/utils.py *)

Module utils.

(** Members of [ELoggingFormats]. *)
Definition ASCTIME : string := "%(asctime)s".
Definition LOG_LEVEL : string := "%(levelname)s".
Definition MESSAGE : string := "%(message)s".
Definition FORMAT_BASIC : string :=
  ASCTIME +:+ " - " +:+ LOG_LEVEL +:+ " - " +:+ MESSAGE.

(** [datetime.now().strftime('%Y-%m-%d')]. *)
Definition create_datestamp : M string :=
  d <- datetime.now ;;
  ret (datetime.strftime_Ymd d).

(** [datetime.now().strftime('%H%M%S')]. *)
Definition create_timestamp : M string :=
  d <- datetime.now ;;
  ret (datetime.strftime_HMS d).

(** [f'{create_datestamp()}_{create_timestamp()}']: the clock is read
    twice, first for the date, then for the time. *)
Definition create_log_datetime_stamp : M string :=
  date <- create_datestamp ;;
  time <- create_timestamp ;;
  ret (date +:+ "_" +:+ time).

(** [f'{time_id}_{run_name}']. *)
Definition compose_global_run_id (run_name : string) : M string :=
  time_id <- create_log_datetime_stamp ;;
  ret (time_id +:+ "_" +:+ run_name).

End utils.

(** ** src/loggers/logger.py *)

(** Reading and writing the attributes of a Logger object. *)
Module Obj.

Definition empty : LoggerObj :=
  mkLoggerObj None None None None None None None.

(** [object.__new__(cls)]: a new object without attributes. *)
Definition new : M ref :=
  fun st =>
    let r := fresh (dom (heap st)) in
    (Ok r, set_heap (<[r := empty]> (heap st)) st).

Definition deref (r : ref) : M LoggerObj :=
  fun st =>
    match heap st !! r with
    | Some o => (Ok o, st)
    | None => (Raise DanglingReference, st)
    end.

(** [self.attr]: [AttributeError] when the attribute was never set. *)
Definition getattr {A} (attr : string) (proj : LoggerObj -> option A) (r : ref)
  : M A :=
  o <- deref r ;;
  lift_opt (AttributeError attr) (proj o).

Definition update (r : ref) (f : LoggerObj -> LoggerObj) : M unit :=
  o <- deref r ;;
  modify (fun st => set_heap (<[r := f o]> (heap st)) st).

Definition set_logger (r : ref) (v : string) : M unit :=
  update r (fun o => mkLoggerObj (Some v) (_initialized o) (handlers o) (name o)
                       (log_file_defaullt_dir o) (date_dir o) (run_dir o)).
Definition set_initialized (r : ref) (v : bool) : M unit :=
  update r (fun o => mkLoggerObj (logger o) (Some v) (handlers o) (name o)
                       (log_file_defaullt_dir o) (date_dir o) (run_dir o)).
Definition set_handlers (r : ref) (v : gmap string href) : M unit :=
  update r (fun o => mkLoggerObj (logger o) (_initialized o) (Some v) (name o)
                       (log_file_defaullt_dir o) (date_dir o) (run_dir o)).
Definition set_name (r : ref) (v : string) : M unit :=
  update r (fun o => mkLoggerObj (logger o) (_initialized o) (handlers o) (Some v)
                       (log_file_defaullt_dir o) (date_dir o) (run_dir o)).
Definition set_log_file_defaullt_dir (r : ref) (v : string) : M unit :=
  update r (fun o => mkLoggerObj (logger o) (_initialized o) (handlers o) (name o)
                       (Some v) (date_dir o) (run_dir o)).
Definition set_date_dir (r : ref) (v : string) : M unit :=
  update r (fun o => mkLoggerObj (logger o) (_initialized o) (handlers o) (name o)
                       (log_file_defaullt_dir o) (Some v) (run_dir o)).
Definition set_run_dir (r : ref) (v : string) : M unit :=
  update r (fun o => mkLoggerObj (logger o) (_initialized o) (handlers o) (name o)
                       (log_file_defaullt_dir o) (date_dir o) (Some v)).

End Obj.

Module Logger.

Definition LOG_FILE_DEFAULT_DIRECTORY : string := "data\logs".

Definition DEBUG : Z := logging.DEBUG.
Definition INFO : Z := logging.INFO.
Definition WARNING : Z := logging.WARNING.
Definition WARN : Z := logging.WARNING.
Definition ERROR : Z := logging.ERROR.
Definition CRITICAL : Z := logging.CRITICAL.

(** [__new__(cls, name, log_file_default_dir)]. *)
Definition __new__ (name : string) (log_file_default_dir : string) : M ref :=
  insts <- gets instances ;;
  match insts !! name with
  | Some r => ret r
  | None =>
      instance <- Obj.new ;;
      lg <- logging.getLogger name ;;
      Obj.set_logger instance lg ;;
      lg' <- Obj.getattr "logger" logger instance ;;
      logging.setLevel lg' logging.DEBUG ;;
      rid <- gets cls_run_id ;;
      match rid with
      | Some _ => ret tt
      | None =>
          stamp <- utils.create_log_datetime_stamp ;;
          modify (set_cls_run_id (Some stamp))
      end ;;
      modify (fun st => set_instances (<[name := instance]> (instances st)) st) ;;
      ret instance
  end.

(** [__init__(self, name, log_file_default_dir)]. *)
Definition __init__ (self : ref) (name : string) (log_file_default_dir : string)
  : M unit :=
  o <- Obj.deref self ;;
  if bool_decide (_initialized o = Some true) then ret tt
  else
    Obj.set_handlers self ∅ ;;
    Obj.set_name self name ;;
    here <- os.abspath_curdir ;;
    Obj.set_log_file_defaullt_dir self (Path.join here log_file_default_dir) ;;
    d <- Obj.getattr "log_file_defaullt_dir" log_file_defaullt_dir self ;;
    e <- os.path_exists d ;;
    when (negb e)
      (d' <- Obj.getattr "log_file_defaullt_dir" log_file_defaullt_dir self ;;
       os.makedirs d') ;;
    Obj.set_initialized self true.

(** [Logger(name, log_file_default_dir)]: [__new__], then [__init__] on
    the object it answered. *)
Definition __call__ (name : string) (log_file_default_dir : string) : M ref :=
  self <- __new__ name log_file_default_dir ;;
  __init__ self name log_file_default_dir ;;
  ret self.

(** [get_logger(cls, name)]. *)
Definition get_logger (name : string) : M ref :=
  insts <- gets instances ;;
  match insts !! name with
  | Some r => ret r
  | None => raise (KeyError ("Logger instance with name '" +:+ name +:+ "' does not exist."))
  end.

(** [set_run_name(cls, run_name)]. *)
Definition set_run_name (run_name : string) : M unit :=
  rid <- utils.compose_global_run_id run_name ;;
  modify (set_cls_run_id (Some rid)).

(** [keys(cls)]: the names in [_instances]. *)
Definition keys : M (gset string) := gets (fun st => dom (instances st)).

(** [_get_instances(cls)]. *)
Definition _get_instances : M (gmap string ref) := gets instances.

(** [_list_logger_names(cls)]. *)
Definition _list_logger_names : M (gset string) :=
  insts <- _get_instances ;;
  ret (dom insts).

(** [_get_run_id(cls)]. *)
Definition _get_run_id : M string :=
  rid <- gets cls_run_id ;;
  lift_opt (AttributeError "_run_id") rid.

(** [_del_logger(cls, name)]. *)
Definition _del_logger (name : string) : M unit :=
  ks <- keys ;;
  if bool_decide (name ∈ ks) then
    insts <- gets instances ;;
    logger_ <- lift_opt (KeyError name) (insts !! name) ;;
    lg <- Obj.getattr "logger" logger logger_ ;;
    hs <- logging.get_handlers lg ;;
    for_each hs (fun handler =>
      lg' <- Obj.getattr "logger" logger logger_ ;;
      logging.removeHandler lg' handler) ;;
    lg'' <- Obj.getattr "logger" logger logger_ ;;
    logging.handlers_clear lg'' ;;
    modify (fun st => set_instances (delete name (instances st)) st)
  else ret tt.

(** The property [run_id]. *)
Definition run_id (self : ref) : M string := _get_run_id.

(** [_list_handlers(self)]: the names in [self.handlers]. *)
Definition _list_handlers (self : ref) : M (gset string) :=
  hs <- Obj.getattr "handlers" handlers self ;;
  ret (dom hs).

(** [_handler_exists(self, handler_name)]. *)
Definition _handler_exists (self : ref) (handler_name : string) : M bool :=
  names <- _list_handlers self ;;
  ret (bool_decide (handler_name ∈ names)).

(** [self.handlers[key] = h]. *)
Definition handlers_setitem (self : ref) (key : string) (h : href) : M unit :=
  hs <- Obj.getattr "handlers" handlers self ;;
  Obj.set_handlers self (<[key := h]> hs).

(** [self.handlers[key]]. *)
Definition handlers_getitem (self : ref) (key : string) : M href :=
  hs <- Obj.getattr "handlers" handlers self ;;
  lift_opt (KeyError key) (hs !! key).

(** [del self.handlers[key]]. *)
Definition handlers_delitem (self : ref) (key : string) : M unit :=
  hs <- Obj.getattr "handlers" handlers self ;;
  match hs !! key with
  | Some _ => Obj.set_handlers self (delete key hs)
  | None => raise (KeyError key)
  end.

(** [self.logger.warning(msg)], and likewise for the other levels: the
    attribute [logger] is read before the message is built. *)
Definition logger_log (self : ref) (levelno : Z) (msg : M string) : M unit :=
  lg <- Obj.getattr "logger" logger self ;;
  text <- msg ;;
  logging.log lg levelno text.

(** [debug], [info], [warn], [warning], [error], [critical]. *)
Definition debug (self : ref) (message : string) : M unit :=
  logger_log self logging.DEBUG (ret message).
Definition info (self : ref) (message : string) : M unit :=
  logger_log self logging.INFO (ret message).
Definition warn (self : ref) (message : string) : M unit :=
  logger_log self logging.WARNING (ret message).
Definition warning (self : ref) (message : string) : M unit :=
  logger_log self logging.WARNING (ret message).
Definition error (self : ref) (message : string) : M unit :=
  logger_log self logging.ERROR (ret message).
Definition critical (self : ref) (message : string) : M unit :=
  logger_log self logging.CRITICAL (ret message).

(** [_create_todays_log_dir(self)]. *)
Definition _create_todays_log_dir (self : ref) : M string :=
  date_stamp <- utils.create_datestamp ;;
  base <- Obj.getattr "log_file_defaullt_dir" log_file_defaullt_dir self ;;
  Obj.set_date_dir self (Path.join base date_stamp) ;;
  d <- Obj.getattr "date_dir" date_dir self ;;
  e <- os.path_exists d ;;
  when (negb e)
    (d' <- Obj.getattr "date_dir" date_dir self ;;
     os.makedirs d') ;;
  Obj.getattr "date_dir" date_dir self.

(** [_create_run_id_dir(self)]. *)
Definition _create_run_id_dir (self : ref) : M string :=
  date_path <- _create_todays_log_dir self ;;
  rid <- run_id self ;;
  Obj.set_run_dir self (Path.join date_path rid) ;;
  d <- Obj.getattr "run_dir" run_dir self ;;
  e <- os.path_exists d ;;
  when (negb e)
    (d' <- Obj.getattr "run_dir" run_dir self ;;
     os.makedirs d') ;;
  Obj.getattr "run_dir" run_dir self.

(** [add_console_handler(self, name, level, format)]. *)
Definition add_console_handler (self : ref) (name_ : string) (level : Z)
    (format : string) : M unit :=
  e <- _handler_exists self name_ ;;
  if e then
    logger_log self logging.WARNING
      (nm <- Obj.getattr "name" name self ;;
       ret ("Handler with name " +:+ name_ +:+ " already exists in logger " +:+ nm))
  else
    console_handler <- logging.StreamHandler ;;
    logging.setFormatter console_handler format ;;
    logging.Handler_setLevel console_handler level ;;
    handlers_setitem self name_ console_handler ;;
    lg <- Obj.getattr "logger" logger self ;;
    logging.addHandler lg console_handler.

(** [add_file_handler(self, handler_name, level, format)]. *)
Definition add_file_handler (self : ref) (handler_name : string) (level : Z)
    (format : string) : M unit :=
  e <- _handler_exists self handler_name ;;
  if e then
    logger_log self logging.WARNING
      (nm <- Obj.getattr "name" name self ;;
       ret ("Handler with name " +:+ handler_name
            +:+ " already exists in logger " +:+ nm))
  else
    rid <- run_id self ;;
    let full_filename := rid +:+ "_" +:+ handler_name +:+ ".log" in
    run_id_dir <- _create_run_id_dir self ;;
    let file_path := Path.join run_id_dir full_filename in
    file_handler <- logging.FileHandler file_path "a" "utf-8" ;;
    logging.setFormatter file_handler format ;;
    logging.Handler_setLevel file_handler level ;;
    handlers_setitem self handler_name file_handler ;;
    lg <- Obj.getattr "logger" logger self ;;
    logging.addHandler lg file_handler ;;
    nm <- Obj.getattr "name" name self ;;
    debug self ("File handler " +:+ handler_name +:+ " added to logger " +:+ nm
                +:+ " with path: " +:+ file_path).

(** [join_handler(self, logger_name, handler_name)]. *)
Definition join_handler (self : ref) (logger_name handler_name : string) : M unit :=
  insts <- _get_instances ;;
  logger_instance <- lift_opt (KeyError logger_name) (insts !! logger_name) ;;
  handler <- handlers_getitem logger_instance handler_name ;;
  handlers_setitem self handler_name handler ;;
  lg <- Obj.getattr "logger" logger self ;;
  logging.addHandler lg handler.

(** [remove_handler(self, handler_name)]. *)
Definition remove_handler (self : ref) (handler_name : string) : M unit :=
  e <- _handler_exists self handler_name ;;
  if e then
    lg <- Obj.getattr "logger" logger self ;;
    h <- handlers_getitem self handler_name ;;
    logging.removeHandler lg h ;;
    handlers_delitem self handler_name
  else
    logger_log self logging.WARNING
      (nm <- Obj.getattr "name" name self ;;
       ret ("Logger.remove_handler() -> Handler " +:+ handler_name
            +:+ " does not exist in logger " +:+ nm)).

(** [set_handler_level(self, handler_name, level)]. *)
Definition set_handler_level (self : ref) (handler_name : string) (level : Z)
  : M unit :=
  e <- _handler_exists self handler_name ;;
  if e then
    h <- handlers_getitem self handler_name ;;
    logging.Handler_setLevel h level
  else
    logger_log self logging.WARNING
      (nm <- Obj.getattr "name" name self ;;
       ret ("Logger.set_handler_level() -> Handler " +:+ handler_name
            +:+ " does not exist in logger " +:+ nm)).

(** [clear_todays_logs(self)]. *)
Definition clear_todays_logs (self : ref) : M unit :=
  d <- Obj.getattr "date_dir" date_dir self ;;
  e <- os.path_exists d ;;
  when e
    (d' <- Obj.getattr "date_dir" date_dir self ;;
     shutil.rmtree d').

(** [clear_all_logs(self)]. *)
Definition clear_all_logs (self : ref) : M unit :=
  base <- Obj.getattr "log_file_defaullt_dir" log_file_defaullt_dir self ;;
  e <- os.path_exists base ;;
  when e
    (base' <- Obj.getattr "log_file_defaullt_dir" log_file_defaullt_dir self ;;
     names <- os.listdir base' ;;
     for_each names (fun directory =>
       base'' <- Obj.getattr "log_file_defaullt_dir" log_file_defaullt_dir self ;;
       let directory_path := Path.join base'' directory in
       isdir <- os.path_isdir directory_path ;;
       if isdir then shutil.rmtree directory_path
       else os.remove directory_path)).

End Logger.

(** The paths [add_file_handler] composes for a Logger whose base
    directory is [base], on the day [date], under the run identifier [rid]:
    [self.date_dir], [self.run_dir] and the file of the handler named [h]. *)
Definition layout_date_dir (base date : string) : string :=
  Path.join base date.

Definition layout_run_dir (base date rid : string) : string :=
  Path.join (layout_date_dir base date) rid.

Definition layout_file (base date rid h : string) : string :=
  Path.join (layout_run_dir base date rid) (rid +:+ "_" +:+ h +:+ ".log").

(** The handler mapping and the date directory of the Logger at [r], when
    the object and the attribute exist. *)
Definition handlers_of (st : State) (r : ref) : option (gmap string href) :=
  heap st !! r ≫= handlers.

Definition date_dir_of (st : State) (r : ref) : option string :=
  heap st !! r ≫= date_dir.

(** The identifier the class holds after a Logger was made. *)
Definition run_id_after_new (st : State) : string :=
  match cls_run_id st with
  | Some rid => rid
  | None =>
      datetime.strftime_Ymd (clock st (ticks st)) +:+ "_"
      +:+ datetime.strftime_HMS (clock st (S (ticks st)))
  end.


(** What the loop of [clear_all_logs] over the directory [b] has left of
    the file system [m0] once it is through with the names in [seen]. *)
Definition cleared (m0 : gmap (list string) node) (b : list string)
    (seen : list string) (m : gmap (list string) node) : Prop :=
  ∀ q, m !! q
       = if bool_decide (Exists (λ c, (b ++ [c]) `prefix_of` q) seen)
         then None else m0 !! q.

(** ** Calls of the class, one after the other *)

(** A call of a method of the class, the private ones included. *)
Inductive Call :=
| CLogger (name log_file_default_dir : string)
| CGetLogger (name : string)
| CSetRunName (run_name : string)
| CKeys
| CDelLogger (name : string)
| CRunId (self : ref)
| CAddConsoleHandler (self : ref) (name : string) (level : Z) (format : string)
| CAddFileHandler (self : ref) (handler_name : string) (level : Z)
    (format : string)
| CJoinHandler (self : ref) (logger_name handler_name : string)
| CRemoveHandler (self : ref) (handler_name : string)
| CSetHandlerLevel (self : ref) (handler_name : string) (level : Z)
| CClearTodaysLogs (self : ref)
| CClearAllLogs (self : ref)
| CDebug (self : ref) (message : string)
| CInfo (self : ref) (message : string)
| CWarn (self : ref) (message : string)
| CWarning (self : ref) (message : string)
| CError (self : ref) (message : string)
| CCritical (self : ref) (message : string)
| CGetInstances
| CListLoggerNames
| CGetRunId
| CCreateTodaysLogDir (self : ref)
| CCreateRunIdDir (self : ref)
| CHandlerExists (self : ref) (handler_name : string)
| CListHandlers (self : ref).

(** The state a call leaves behind, whether it returns or raises. *)
Definition after_call (c : Call) (s : State) : State :=
  match c with
  | CLogger n d => snd (Logger.__call__ n d s)
  | CGetLogger n => snd (Logger.get_logger n s)
  | CSetRunName rn => snd (Logger.set_run_name rn s)
  | CKeys => snd (Logger.keys s)
  | CDelLogger n => snd (Logger._del_logger n s)
  | CRunId self => snd (Logger.run_id self s)
  | CAddConsoleHandler self n level format =>
      snd (Logger.add_console_handler self n level format s)
  | CAddFileHandler self n level format =>
      snd (Logger.add_file_handler self n level format s)
  | CJoinHandler self ln hn => snd (Logger.join_handler self ln hn s)
  | CRemoveHandler self hn => snd (Logger.remove_handler self hn s)
  | CSetHandlerLevel self hn level =>
      snd (Logger.set_handler_level self hn level s)
  | CClearTodaysLogs self => snd (Logger.clear_todays_logs self s)
  | CClearAllLogs self => snd (Logger.clear_all_logs self s)
  | CDebug self msg => snd (Logger.debug self msg s)
  | CInfo self msg => snd (Logger.info self msg s)
  | CWarn self msg => snd (Logger.warn self msg s)
  | CWarning self msg => snd (Logger.warning self msg s)
  | CError self msg => snd (Logger.error self msg s)
  | CCritical self msg => snd (Logger.critical self msg s)
  | CGetInstances => snd (Logger._get_instances s)
  | CListLoggerNames => snd (Logger._list_logger_names s)
  | CGetRunId => snd (Logger._get_run_id s)
  | CCreateTodaysLogDir self => snd (Logger._create_todays_log_dir self s)
  | CCreateRunIdDir self => snd (Logger._create_run_id_dir self s)
  | CHandlerExists self hn => snd (Logger._handler_exists self hn s)
  | CListHandlers self => snd (Logger._list_handlers self s)
  end.

Definition after_calls (cs : list Call) (s : State) : State :=
  fold_left (fun s c => after_call c s) cs s.

(** The two calls that delete from the file system. *)
Definition clears (c : Call) : bool :=
  match c with
  | CClearTodaysLogs _ | CClearAllLogs _ => true
  | _ => false
  end.

(** A call that, whatever it answers, takes every state to one related to
    it by [R]. *)
Definition respects (R : State → State → Prop) {A} (m : M A) : Prop :=
  ∀ s, R s (snd (m s)).

(** How a method of the class may change the state of the process: the
    Logger objects stay and keep the logger they have, the handler objects
    stay, keep their target and stay as open as they were, the current
    directory stays, the trace only grows, a run identifier that is set
    stays set, a name that is registered afterwards either was
    registered to the same object before or names an object made in
    between, whose logger is the one of that name, and once an object was
    made the run identifier is set. *)
Definition evolves (s s' : State) : Prop :=
  (∀ r o, heap s !! r = Some o →
     ∃ o', heap s' !! r = Some o'
           ∧ ∀ lg, logger o = Some lg → logger o' = Some lg)
  ∧ (∀ h hd, hheap s !! h = Some hd →
       ∃ hd', hheap s' !! h = Some hd'
              ∧ h_target hd' = h_target hd ∧ h_open hd' = h_open hd)
  ∧ cwd s' = cwd s
  ∧ trace s `prefix_of` trace s'
  ∧ (is_Some (cls_run_id s) → is_Some (cls_run_id s'))
  ∧ (∀ n r, instances s' !! n = Some r →
       instances s !! n = Some r
       ∨ (heap s !! r = None
          ∧ ∃ o', heap s' !! r = Some o'
                  ∧ logger o' = Some (logging.key_of n)))
  ∧ (∀ r, heap s !! r = None → is_Some (heap s' !! r) →
          is_Some (cls_run_id s')).

(** Every entry of the file system is still there, with its content. *)
Definition files_kept (s s' : State) : Prop := fs s ⊆ fs s'.

(** The registry is sound: every registered name refers to a Logger
    object, and the logger of that object is the one [logging] keeps under
    the name. *)
Definition registry_ok (s : State) : Prop :=
  ∀ n r, instances s !! n = Some r →
    ∃ o, heap s !! r = Some o ∧ logger o = Some (logging.key_of n).

(** A file system that is a tree stays one. *)
Definition tree_kept (s s' : State) : Prop :=
  FS.well_formed (fs s) = true → FS.well_formed (fs s') = true.

(** The state after [lg.warning(msg)]. *)
Definition warned (st : State) (lg msg : string) : State :=
  set_trace (trace st ++ EvLog lg logging.WARNING msg
               :: logging.deliveries st lg logging.WARNING msg) st.

(** The calls of [warning] in a trace. *)
Definition is_warning_call (e : Event) : bool :=
  match e with
  | EvLog _ levelno _ => bool_decide (levelno = logging.WARNING)
  | EvEmit _ _ _ => false
  end.

Definition warnings (t : list Event) : nat :=
  List.length (List.filter is_warning_call t).

(** ** Concrete runs

    A process started in [/srv] on 2026-11-03 at 10:15, whose clock advances
    by one second at every reading. *)
Module Demo.

Definition clock (n : nat) : DateTime :=
  mkDateTime 2026 11 3 10 15 (n mod 60).

Definition boot : State :=
  mkState ∅ None ∅ ∅ ∅ {[ ["srv"] := Dir ]} "/srv" clock 0 [].

(** The state a call leaves behind. *)
Definition after {A} (m : M A) (st : State) : State := snd (m st).

(** [a = Logger("a", "logs")]. *)
Definition one_logger : State := after (Logger.__call__ "a" "logs") boot.

(** [a.add_console_handler("con", INFO, FORMAT_BASIC)]. *)
Definition with_console : State :=
  after (Logger.add_console_handler 0 "con" Logger.INFO utils.FORMAT_BASIC)
        one_logger.

(** [a.add_file_handler("main", DEBUG, FORMAT_BASIC)]. *)
Definition with_file : State :=
  after (Logger.add_file_handler 0 "main" Logger.DEBUG utils.FORMAT_BASIC)
        one_logger.

(** [a = Logger("a", "logs"); b = Logger("b", "logs")], each with a
    console handler of its own under the name ["main"]. *)
Definition two_loggers : State :=
  after (a <- Logger.__call__ "a" "logs" ;;
         b <- Logger.__call__ "b" "logs" ;;
         Logger.add_console_handler a "main" Logger.INFO utils.FORMAT_BASIC ;;
         Logger.add_console_handler b "main" Logger.ERROR utils.FORMAT_BASIC)
        boot.

(** The Logger object of [one_logger]. *)
Definition logger_a : LoggerObj :=
  mkLoggerObj (Some "a") (Some true) (Some ∅) (Some "a") (Some "/srv/logs")
              None None.

(** The Logger object and the handler of [with_console]. *)
Definition logger_a_console : LoggerObj :=
  mkLoggerObj (Some "a") (Some true) (Some {[ "con" := 0%nat ]}) (Some "a")
              (Some "/srv/logs") None None.

Definition console_handler : Handler :=
  mkHandler Console Logger.INFO (Some utils.FORMAT_BASIC) true.

(** [Logger.set_run_name("nightly")] after [a] was made, and then
    [a.add_file_handler("main", DEBUG, FORMAT_BASIC)]. *)
Definition renamed : State := after (Logger.set_run_name "nightly") one_logger.

Definition renamed_with_file : State :=
  after (Logger.add_file_handler 0 "main" Logger.DEBUG utils.FORMAT_BASIC)
        renamed.


(** [b.join_handler("a", "main")] in [two_loggers]. *)
Definition joined : State :=
  after (Logger.join_handler 1 "a" "main") two_loggers.

(** [r = Logger("root", "logs"); e = Logger("", "logs")]: two Logger
    objects on the root logger.  [r] has the console handler ["main"],
    which [e] joins. *)
Definition on_root : State :=
  after (r <- Logger.__call__ "root" "logs" ;;
         e <- Logger.__call__ "" "logs" ;;
         Logger.add_console_handler r "main" Logger.INFO utils.FORMAT_BASIC ;;
         Logger.join_handler e "root" "main")
        boot.

(** The Logger objects of [on_root]. *)
Definition logger_root : LoggerObj :=
  mkLoggerObj (Some "root") (Some true) (Some {[ "main" := 0%nat ]})
              (Some "root") (Some "/srv/logs") None None.

Definition logger_empty : LoggerObj :=
  mkLoggerObj (Some "root") (Some true) (Some {[ "main" := 0%nat ]})
              (Some "") (Some "/srv/logs") None None.

(** [Logger._del_logger("a")] in [with_file]. *)
Definition deleted : State := after (Logger._del_logger "a") with_file.

(** The Logger objects of [two_loggers]. *)
Definition logger_a_main : LoggerObj :=
  mkLoggerObj (Some "a") (Some true) (Some {[ "main" := 0%nat ]}) (Some "a")
              (Some "/srv/logs") None None.

Definition logger_b_main : LoggerObj :=
  mkLoggerObj (Some "b") (Some true) (Some {[ "main" := 1%nat ]}) (Some "b")
              (Some "/srv/logs") None None.

(** The Logger object of [b] in [joined]. *)
Definition logger_b_joined : LoggerObj :=
  mkLoggerObj (Some "b") (Some true) (Some {[ "main" := 0%nat ]}) (Some "b")
              (Some "/srv/logs") None None.

(** The Logger object of [with_file]. *)
Definition logger_a_file : LoggerObj :=
  mkLoggerObj (Some "a") (Some true) (Some {[ "main" := 0%nat ]}) (Some "a")
              (Some "/srv/logs") (Some "/srv/logs/2026-11-03")
              (Some "/srv/logs/2026-11-03/2026-11-03_101501").





End Demo.

(* THEOREMS *)

(** ** Facts about paths *)

Section PathFacts.

Lemma append_cons c (a b : string) : String c a +:+ b = String c (a +:+ b).
Proof. reflexivity. Qed.

Lemma append_assoc (a b c : string) : (a +:+ b) +:+ c = a +:+ (b +:+ c).
Proof. induction a as [|x a IH]; [done|]. by rewrite !append_cons, IH. Qed.

Lemma append_empty_r (a : string) : a +:+ "" = a.
Proof. induction a as [|x a IH]; [done|]. by rewrite append_cons, IH. Qed.

Lemma split_not_nil s : Path.split s ≠ [].
Proof.
  destruct s as [|c s]; simpl; [done|].
  destruct (Path.is_sep c); [done|]. by destruct (Path.split s).
Qed.

(** Splitting distributes over a separator. *)
Lemma split_app_sep a b :
  Path.split (a +:+ String Path.sep b) = Path.split a ++ Path.split b.
Proof.
  induction a as [|c a IH]; [done|].
  rewrite append_cons. simpl. destruct (Path.is_sep c).
  - by rewrite IH.
  - rewrite IH. pose proof (split_not_nil a).
    by destruct (Path.split a).
Qed.

Lemma split_sep_free s : Path.sep_free s = true → Path.split s = [s].
Proof.
  induction s as [|c s IH]; [done|]. simpl.
  destruct (Path.is_sep c); [done|]. simpl. intros H. by rewrite IH.
Qed.

Lemma resolve_component s : Path.component s = true → Path.resolve s = [s].
Proof.
  unfold Path.component, Path.resolve.
  intros [Hne Hfree]%andb_true_iff. rewrite split_sep_free by done.
  simpl. by rewrite Hne.
Qed.

Lemma resolve_app_sep a b :
  Path.resolve (a +:+ "/" +:+ b) = Path.resolve a ++ Path.resolve b.
Proof.
  unfold Path.resolve. change ("/" +:+ b) with (String Path.sep b).
  by rewrite split_app_sep, List.filter_app.
Qed.

Lemma endswith_sep_inv a :
  Path.endswith_sep a = true → ∃ a', a = a' +:+ "/".
Proof.
  induction a as [|c a IH]; [done|]. simpl. destruct a as [|c' a].
  - unfold Path.is_sep. intros ->%Ascii.eqb_eq. by exists "".
  - intros [a' ->]%IH. by exists (String c a').
Qed.

Lemma sep_free_not_absolute s :
  Path.sep_free s = true → Path.startswith_sep s = false.
Proof. destruct s as [|c s]; [done|]. simpl. by destruct (Path.is_sep c). Qed.


(** Joining a relative path appends its components. *)
Lemma resolve_join a b :
  Path.startswith_sep b = false →
  Path.resolve (Path.join a b) = Path.resolve a ++ Path.resolve b.
Proof.
  intros Hb. unfold Path.join. rewrite Hb.
  case_bool_decide as Ha; simpl.
  { by subst a. }
  destruct (Path.endswith_sep a) eqn:He.
  - apply endswith_sep_inv in He as [a' ->].
    rewrite append_assoc, resolve_app_sep.
    change (a' +:+ "/") with (a' +:+ "/" +:+ "").
    rewrite resolve_app_sep. simpl. by rewrite app_nil_r.
  - apply resolve_app_sep.
Qed.

Lemma resolve_join_component a b :
  Path.component b = true →
  Path.resolve (Path.join a b) = Path.resolve a ++ [b].
Proof.
  intros Hb.
  assert (Path.sep_free b = true) as Hfree.
  { unfold Path.component in Hb. by apply andb_true_iff in Hb as [_ ?]. }
  rewrite resolve_join by by apply sep_free_not_absolute.
  by rewrite (resolve_component b Hb).
Qed.

Lemma digit_not_sep n : Path.is_sep (datetime.digit n) = false.
Proof.
  unfold datetime.digit.
  generalize (n mod 10)%nat. intros k.
  do 9 (destruct k as [|k]; [reflexivity|]). reflexivity.
Qed.


Lemma datestamp_length d : String.length (datetime.strftime_Ymd d) = 10%nat.
Proof. reflexivity. Qed.

Lemma timestamp_length d : String.length (datetime.strftime_HMS d) = 6%nat.
Proof. reflexivity. Qed.


(** The identifier the class generates by itself, a date stamp, an
    underscore and a time stamp, is one path component. *)
Lemma datetime_stamp_component d t :
  Path.component (datetime.strftime_Ymd d +:+ "_" +:+ datetime.strftime_HMS t)
  = true.
Proof.
  unfold datetime.strftime_Ymd, datetime.strftime_HMS, datetime.pad4,
    datetime.pad2, Path.component.
  rewrite !append_cons. simpl. by rewrite !digit_not_sep.
Qed.



Lemma elem_of_prefixes q p :
  q ∈ Path.prefixes p ↔ q ≠ [] ∧ q `prefix_of` p.
Proof.
  revert q. induction p as [|c p IH]; intros q; simpl.
  - split; [by intros ?%elem_of_nil|].
    intros [Hq Hp]. by apply prefix_nil_inv in Hp.
  - rewrite elem_of_cons, list_elem_of_fmap. split.
    + intros [->|(q' & -> & Hq')].
      * split; [done|]. by apply prefix_cons, prefix_nil.
      * apply IH in Hq' as [_ Hq']. split; [done|]. by apply prefix_cons.
    + intros [Hq Hp]. destruct q as [|x q]; [done|].
      pose proof (prefix_cons_inv_1 _ _ _ _ Hp) as ->.
      apply prefix_cons_inv_2 in Hp.
      destruct q as [|y q]; [by left|]. right.
      exists (y :: q). split; [done|]. by apply IH.
Qed.

End PathFacts.

(** ** Facts about the file system *)

Section FSFacts.

Implicit Types (m : gmap (list string) node) (p q : list string).


Lemma ancestors_prefixes p q : q ∈ Path.ancestors p → q ∈ Path.prefixes p.
Proof.
  unfold Path.ancestors. rewrite !elem_of_prefixes. intros [Hq Hp].
  split; [done|]. etrans; [done|].
  destruct (decide (p = [])) as [->|Hne]; [done|].
  rewrite (app_removelast_last "" Hne) at 2. by apply prefix_app_r.
Qed.


(** What [os.makedirs] leaves behind: the entries that were there, and a
    directory at every missing place of the chain. *)
Lemma fold_mkdir_lookup l m q :
  fold_left FS.mkdir_missing l m !! q =
  match m !! q with
  | Some n => Some n
  | None => if bool_decide (q ∈ l) then Some Dir else None
  end.
Proof.
  revert m. induction l as [|x l IH]; intros m; simpl.
  { by destruct (m !! q). }
  rewrite IH. unfold FS.mkdir_missing.
  destruct (decide (x = q)) as [->|Hne].
  - destruct (m !! q) as [n|] eqn:Hq.
    + by rewrite Hq.
    + rewrite lookup_insert_eq. rewrite bool_decide_eq_true_2; [done|].
      by left.
  - assert (bool_decide (q ∈ x :: l) = bool_decide (q ∈ l)) as ->.
    { apply bool_decide_ext. rewrite elem_of_cons.
      split; [intros [?|?]; [congruence|done]|by right]. }
    destruct (m !! x) eqn:Hx; [done|].
    by rewrite lookup_insert_ne by done.
Qed.




Lemma walk_inv m (l : list (list string)) :
  FS.walk m l = Ok tt → ∀ q, q ∈ l → m !! q = Some Dir.
Proof.
  induction l as [|q l IH]; simpl; intros H q' Hq'.
  { by apply elem_of_nil in Hq'. }
  destruct (Z.ltb _ _); [done|].
  destruct (m !! q) as [[|c]|] eqn:Hq; [|done|done].
  apply elem_of_cons in Hq' as [->|Hq']; [done|]. by apply IH.
Qed.

(** What a successful [open] for appending has found and done. *)
Lemma open_append_inv m m' p :
  FS.open_ m p "a" = Ok m' →
  p ≠ []
  ∧ FS.walk m (Path.ancestors p) = Ok tt
  ∧ ((m' = m ∧ ∃ c, m !! p = Some (File c))
     ∨ (m !! p = None ∧ m' = <[p := File []]> m)).
Proof.
  unfold FS.open_. rewrite (bool_decide_eq_true_2 ("a" = "a")) by done.
  cbn [negb orb].
  destruct (existsb Path.has_nul p); [done|].
  destruct (Z.leb _ _); [done|].
  destruct p as [|x p]; [done|].
  destruct (FS.walk m _) as [[]|e] eqn:Hwalk; [|done].
  destruct (Z.ltb _ _); [done|].
  destruct (m !! (x :: p)) as [[|c]|] eqn:Hp; [done| |].
  - intros [= <-]. split; [done|]. split; [done|]. left. eauto.
  - intros [= <-]. split; [done|]. split; [done|]. by right.
Qed.


(** Removing a tree removes exactly the entries at or below it. *)
Lemma rmtree_spec m p :
  m !! p = Some Dir →
  ∃ m', FS.rmtree m p = Ok m'
        ∧ ∀ q, m' !! q = if bool_decide (p `prefix_of` q) then None else m !! q.
Proof.
  intros Hp. unfold FS.rmtree. rewrite Hp. eexists. split; [done|].
  intros q. case_bool_decide as Hq.
  - apply map_lookup_filter_None. right. intros n _. simpl. tauto.
  - destruct (m !! q) as [n|] eqn:Hn.
    + by apply map_lookup_filter_Some.
    + apply map_lookup_filter_None. by left.
Qed.

End FSFacts.

(** ** The file system as a tree *)

Section Trees.

Implicit Types (m : gmap (list string) node) (p q b : list string).

Lemma proper_prefix_removelast p q :
  p `prefix_of` q → p ≠ q → p `prefix_of` removelast q.
Proof.
  intros [k ->] Hne. destruct (decide (k = [])) as [->|Hk].
  { by rewrite app_nil_r in Hne. }
  rewrite (app_removelast_last "" Hk), app_assoc, removelast_last.
  by apply prefix_app_r.
Qed.

(** In a tree every entry is named by components and stands below
    directories only. *)
Lemma well_formed_entry m k n :
  FS.well_formed m = true → m !! k = Some n →
  forallb Path.component k = true
  ∧ ∀ q, q ≠ [] → q `prefix_of` k → q ≠ k → m !! q = Some Dir.
Proof.
  intros Hwf Hk. unfold FS.well_formed in Hwf.
  rewrite forallb_forall in Hwf.
  assert (In k (elements (dom m))) as Hin.
  { apply list_elem_of_In, elem_of_elements, elem_of_dom. eauto. }
  apply Hwf in Hin. apply andb_true_iff in Hin as [Hc Ha].
  split; [done|].
  intros q Hq Hpre Hne. rewrite forallb_forall in Ha.
  specialize (Ha q). rewrite bool_decide_eq_true in Ha. apply Ha.
  apply list_elem_of_In. unfold Path.ancestors. apply elem_of_prefixes.
  split; [done|]. by apply proper_prefix_removelast.
Qed.

(** The names [os.listdir] gives are the entries directly inside the
    directory, each once. *)
Lemma elem_of_children m b (c : string) :
  c ∈ FS.children m b ↔ is_Some (m !! (b ++ [c])).
Proof.
  unfold FS.children. rewrite list_elem_of_fmap. split.
  - intros (k & -> & Hk). apply list_elem_of_filter in Hk as [[Hne <-] Hk].
    rewrite <- (app_removelast_last "" Hne).
    by apply elem_of_elements, elem_of_dom in Hk.
  - intros Hs. exists (b ++ [c]). split; [by rewrite last_last|].
    apply list_elem_of_filter. split.
    + split; [by destruct b|by rewrite removelast_last].
    + by apply elem_of_elements, elem_of_dom.
Qed.

Lemma NoDup_children m b : NoDup (FS.children m b).
Proof.
  unfold FS.children. apply NoDup_fmap_2_strong.
  - intros k1 k2 [[H1 E1] _]%list_elem_of_filter
      [[H2 E2] _]%list_elem_of_filter Hl.
    rewrite (app_removelast_last "" H1), (app_removelast_last "" H2).
    congruence.
  - apply NoDup_filter, NoDup_elements.
Qed.

Lemma child_prefix_inv b (c c' : string) :
  (b ++ [c']) `prefix_of` (b ++ [c]) → c' = c.
Proof.
  intros H. apply prefix_app_inv in H.
  destruct H as [k Hk]. by injection Hk.
Qed.

Lemma below_child b (c : string) q :
  (b ++ [c]) `prefix_of` q → b `prefix_of` q ∧ q ≠ b.
Proof.
  intros [k ->]. split.
  - rewrite <- app_assoc. by apply prefix_app_r.
  - intros H. apply (f_equal List.length) in H.
    rewrite !length_app in H. simpl in H. lia.
Qed.

Lemma strictly_below_inv b q :
  b `prefix_of` q → q ≠ b → ∃ (c : string) rest, q = (b ++ [c]) ++ rest.
Proof.
  intros [k ->] Hne. destruct k as [|c rest].
  { by rewrite app_nil_r in Hne. }
  exists c, rest. by rewrite <- app_assoc.
Qed.

Lemma set_fs_twice m m' (s : State) : set_fs m (set_fs m' s) = set_fs m s.
Proof. reflexivity. Qed.

End Trees.

Section TreeFacts.

Implicit Types (m : gmap (list string) node) (p q k : list string).

Lemma split_pieces_sep_free (s : string) :
  Forall (λ x, Path.sep_free x = true) (Path.split s).
Proof.
  induction s as [|c s IH]; simpl.
  - by repeat constructor.
  - destruct (Path.is_sep c) eqn:Hc.
    + by constructor.
    + destruct (Path.split s) as [|x xs]; simpl.
      * repeat constructor. simpl. by rewrite Hc.
      * apply Forall_cons in IH as [Hx Hxs]. constructor; [|done].
        simpl. by rewrite Hc.
Qed.

(** The components a path string resolves to are path components. *)
Lemma resolve_components (s : string) :
  forallb Path.component (Path.resolve s) = true.
Proof.
  apply forallb_forall. intros x Hx. unfold Path.resolve in Hx.
  apply filter_In in Hx as [Hin Hne].
  pose proof (split_pieces_sep_free s) as Hfree. rewrite Forall_forall in Hfree.
  apply list_elem_of_In, Hfree in Hin.
  unfold Path.component. by rewrite Hne, Hin.
Qed.

Lemma elem_of_ancestors q k :
  q ∈ Path.ancestors k ↔ q ≠ [] ∧ q `prefix_of` k ∧ q ≠ k.
Proof.
  unfold Path.ancestors. rewrite elem_of_prefixes. split.
  - intros [Hq Hpre]. split; [done|].
    destruct (decide (k = [])) as [->|Hk].
    { by apply prefix_nil_inv in Hpre. }
    assert (k = removelast k ++ [List.last k ""]) as Hsplit
      by by apply app_removelast_last.
    split.
    + rewrite Hsplit. by apply prefix_app_r.
    + intros ->. apply prefix_length in Hpre.
      apply (f_equal List.length) in Hsplit. rewrite length_app in Hsplit.
      simpl in Hsplit. lia.
  - intros (Hq & Hpre & Hne). split; [done|].
    by apply proper_prefix_removelast.
Qed.

Lemma well_formed_iff m :
  FS.well_formed m = true
  ↔ ∀ k n, m !! k = Some n →
      forallb Path.component k = true
      ∧ ∀ q, q ∈ Path.ancestors k → m !! q = Some Dir.
Proof.
  unfold FS.well_formed. rewrite forallb_forall. split.
  - intros H k n Hk.
    assert (In k (elements (dom m))) as Hin.
    { apply list_elem_of_In, elem_of_elements, elem_of_dom. eauto. }
    apply H, andb_true_iff in Hin as [Hc Ha]. split; [done|].
    intros q Hq. rewrite forallb_forall in Ha.
    apply list_elem_of_In, Ha in Hq. by apply bool_decide_eq_true in Hq.
  - intros H k Hin.
    apply list_elem_of_In, elem_of_elements, elem_of_dom in Hin as [n Hn].
    destruct (H k n Hn) as [Hc Ha]. apply andb_true_iff. split; [done|].
    apply forallb_forall. intros q Hq.
    apply bool_decide_eq_true, Ha. by apply list_elem_of_In.
Qed.

Lemma forallb_prefix (f : string → bool) q p :
  q `prefix_of` p → forallb f p = true → forallb f q = true.
Proof.
  intros [k ->]. rewrite forallb_app. by intros [? _]%andb_true_iff.
Qed.

(** [os.makedirs] of a path of components keeps a tree a tree. *)
Lemma makedirs_well_formed m m' p :
  forallb Path.component p = true →
  FS.makedirs m p = Ok m' →
  FS.well_formed m = true → FS.well_formed m' = true.
Proof.
  intros Hp Hmk Hwf. unfold FS.makedirs in Hmk.
  destruct (FS.entry_exists m p); [done|].
  destruct (existsb _ _) eqn:Hfiles; [done|]. injection Hmk as <-.
  rewrite well_formed_iff in Hwf. apply well_formed_iff.
  assert (∀ q, q ∈ Path.ancestors p →
            fold_left FS.mkdir_missing (Path.prefixes p) m !! q = Some Dir)
    as Hchain.
  { intros q Hq. rewrite fold_mkdir_lookup.
    destruct (m !! q) as [[|c]|] eqn:Hmq; [done| |].
    - exfalso. apply not_true_iff_false in Hfiles. apply Hfiles.
      apply existsb_exists. exists q. split; [by apply list_elem_of_In|].
      unfold FS.is_file. apply elem_of_ancestors in Hq as [Hne _].
      destruct q; [done|]. by rewrite Hmq.
    - rewrite bool_decide_eq_true_2; [done|].
      by apply ancestors_prefixes. }
  intros k n. rewrite fold_mkdir_lookup.
  destruct (m !! k) as [n'|] eqn:Hk.
  - intros [= <-]. destruct (Hwf k n' Hk) as [Hc Ha]. split; [done|].
    intros q Hq. rewrite fold_mkdir_lookup. by rewrite (Ha q Hq).
  - case_bool_decide as Hin; [|done]. intros [= <-].
    apply elem_of_prefixes in Hin as [Hne Hpre]. split.
    + by eapply forallb_prefix.
    + intros q Hq. apply Hchain.
      apply elem_of_ancestors in Hq as (Hq & Hqk & Hneq).
      apply elem_of_ancestors. split; [done|]. split; [by etrans|].
      intros ->. apply Hneq.
      apply prefix_length_eq; [done|by apply prefix_length].
Qed.

(** Opening a file of a path of components keeps a tree a tree. *)
Lemma open_well_formed m m' p :
  forallb Path.component p = true →
  FS.open_ m p "a" = Ok m' →
  FS.well_formed m = true → FS.well_formed m' = true.
Proof.
  intros Hp Hopen Hwf.
  apply open_append_inv in Hopen as (Hne & Hwalk & [[-> _]|[Hnone ->]]);
    [done|].
  rewrite well_formed_iff in Hwf. apply well_formed_iff.
  intros k n Hk. destruct (decide (k = p)) as [->|Hkp].
  - split; [done|]. intros q Hq.
    assert (q ≠ p) as Hqp.
    { by apply elem_of_ancestors in Hq as (_ & _ & ?). }
    rewrite lookup_insert_ne by done. by apply (walk_inv _ _ Hwalk).
  - rewrite lookup_insert_ne in Hk by done.
    destruct (Hwf k n Hk) as [Hc Ha]. split; [done|].
    intros q Hq. rewrite lookup_insert_ne; [by apply Ha|].
    intros <-. rewrite (Ha _ Hq) in Hnone. done.
Qed.


(** [shutil.rmtree] keeps a tree a tree. *)
Lemma rmtree_well_formed m m' p :
  FS.rmtree m p = Ok m' →
  FS.well_formed m = true → FS.well_formed m' = true.
Proof.
  intros Hrm Hwf. unfold FS.rmtree in Hrm.
  destruct (m !! p) as [[|c]|]; [|done|done]. injection Hrm as <-.
  rewrite well_formed_iff in Hwf. apply well_formed_iff.
  intros k n [Hk Hnot]%map_lookup_filter_Some. simpl in Hnot.
  destruct (Hwf k n Hk) as [Hc Ha]. split; [done|].
  intros q Hq. apply map_lookup_filter_Some. split; [by apply Ha|].
  simpl. intros Hpq. apply Hnot. etrans; [done|].
  by apply elem_of_ancestors in Hq as (_ & ? & _).
Qed.

(** [os.remove] keeps a tree a tree. *)
Lemma remove_well_formed m m' p :
  FS.remove m p = Ok m' →
  FS.well_formed m = true → FS.well_formed m' = true.
Proof.
  intros Hrm Hwf. unfold FS.remove in Hrm.
  destruct (m !! p) as [[|c]|] eqn:Hp; [done| |done]. injection Hrm as <-.
  rewrite well_formed_iff in Hwf. apply well_formed_iff.
  intros k n [Hne Hk]%lookup_delete_Some.
  destruct (Hwf k n Hk) as [Hc Ha]. split; [done|].
  intros q Hq. rewrite lookup_delete_ne; [by apply Ha|].
  intros <-. rewrite (Ha _ Hq) in Hp. done.
Qed.

End TreeFacts.

(** ** Running calls step by step *)

Section Stepping.

Lemma bind_Ok {A B} (m : M A) (k : A → M B) st a st' :
  m st = (Ok a, st') → bind m k st = k a st'.
Proof. unfold bind. by intros ->. Qed.

Lemma bind_Raise {A B} (m : M A) (k : A → M B) st e st' :
  m st = (Raise e, st') → bind m k st = (Raise e, st').
Proof. unfold bind. by intros ->. Qed.

Lemma bind_inv_Ok {A B} (m : M A) (k : A → M B) st b st2 :
  bind m k st = (Ok b, st2) →
  ∃ a st1, m st = (Ok a, st1) ∧ k a st1 = (Ok b, st2).
Proof.
  unfold bind. destruct (m st) as [[a|e] st1]; [eauto|done].
Qed.

Lemma deref_Ok r st o :
  heap st !! r = Some o → Obj.deref r st = (Ok o, st).
Proof. unfold Obj.deref. by intros ->. Qed.

Lemma getattr_Ok {A} attr (proj : LoggerObj → option A) r st o v :
  heap st !! r = Some o → proj o = Some v →
  Obj.getattr attr proj r st = (Ok v, st).
Proof.
  intros H1 H2. unfold Obj.getattr, Obj.deref, bind. by rewrite H1, H2.
Qed.

Lemma getattr_unset {A} attr (proj : LoggerObj → option A) r st o :
  heap st !! r = Some o → proj o = None →
  Obj.getattr attr proj r st = (Raise (AttributeError attr), st).
Proof.
  intros H1 H2. unfold Obj.getattr, Obj.deref, bind. by rewrite H1, H2.
Qed.

Lemma update_Ok r f st o :
  heap st !! r = Some o →
  Obj.update r f st = (Ok tt, set_heap (<[r := f o]> (heap st)) st).
Proof. intros H. unfold Obj.update, Obj.deref, bind. by rewrite H. Qed.

Lemma handler_exists_Ok st self o hs h :
  heap st !! self = Some o → handlers o = Some hs →
  Logger._handler_exists self h st
  = (Ok (bool_decide (is_Some (hs !! h))), st).
Proof.
  intros H1 H2. unfold Logger._handler_exists, Logger._list_handlers.
  erewrite bind_Ok;
    [|erewrite bind_Ok; [|by eapply getattr_Ok]; reflexivity].
  unfold ret. do 2 f_equal. apply bool_decide_ext, elem_of_dom.
Qed.

Lemma logger_log_Ok st self o lg levelno (msg : M string) text :
  heap st !! self = Some o → logger o = Some lg →
  msg st = (Ok text, st) →
  Logger.logger_log self levelno msg st = logging.log lg levelno text st.
Proof.
  intros H1 H2 H3. unfold Logger.logger_log.
  erewrite bind_Ok; [|by eapply getattr_Ok].
  by erewrite bind_Ok.
Qed.

End Stepping.

(** One step of a call whose first action is known to return. *)
Ltac step_with lem := erewrite bind_Ok; [|lem].
Ltac step_getattr := erewrite bind_Ok; [|by eapply getattr_Ok].

(** ** The registry *)

(** C6. [get_logger] answers the registered instance and leaves the state
    as it is; for a name that is not registered it raises [KeyError] (the
    NotFoundError of the specification), again without touching the state.
    So an exception reaches the caller exactly for the unregistered names. *)
Theorem C6_get_logger_lookup (st : State) (n : string) :
  Logger.get_logger n st =
    match instances st !! n with
    | Some r => (Ok r, st)
    | None =>
        (Raise (KeyError ("Logger instance with name '" +:+ n
                          +:+ "' does not exist.")), st)
    end
  ∧ ((∃ e, fst (Logger.get_logger n st) = Raise e) ↔ n ∉ dom (instances st))
  ∧ snd (Logger.get_logger n st) = st.
Proof.
  assert (Logger.get_logger n st =
    match instances st !! n with
    | Some r => (Ok r, st)
    | None => (Raise (KeyError ("Logger instance with name '" +:+ n
                          +:+ "' does not exist.")), st)
    end) as Heq.
  { unfold Logger.get_logger, bind, gets. by destruct (instances st !! n). }
  split; [done|]. rewrite Heq, not_elem_of_dom.
  destruct (instances st !! n) as [r|]; simpl.
  - split; [|done]. split; [by intros [e ?]|done].
  - split; [|done]. split; [done|eauto].
Qed.

(** C7. [set_run_name run_name] always returns, and the class-wide run
    identifier becomes [<YYYY-MM-DD>_<HHMMSS>_<run_name>]: ten characters of
    date from the first clock reading of the call, an underscore, six
    characters of time from its second reading, an underscore and the run
    name.  Nothing else moves: the handler objects (with the file names
    they were opened on), the file system, the Logger objects and the
    registry are as before, so no open file is renamed. *)
Theorem C7_set_run_name_regenerates_run_id (st : State) (run_name : string) :
  let date := datetime.strftime_Ymd (clock st (ticks st)) in
  let time := datetime.strftime_HMS (clock st (S (ticks st))) in
  let rid := date +:+ "_" +:+ time +:+ "_" +:+ run_name in
  let st' := set_cls_run_id (Some rid) (set_ticks (S (S (ticks st))) st) in
  Logger.set_run_name run_name st = (Ok tt, st')
  ∧ cls_run_id st' = Some rid
  ∧ String.length date = 10%nat ∧ String.length time = 6%nat
  ∧ hheap st' = hheap st ∧ fs st' = fs st ∧ heap st' = heap st
  ∧ instances st' = instances st ∧ py_loggers st' = py_loggers st
  ∧ trace st' = trace st.
Proof. by split_and!. Qed.

(** ** Handlers of one Logger *)

Section LoggingFacts.

Lemma warnings_app t1 t2 : warnings (t1 ++ t2) = (warnings t1 + warnings t2)%nat.
Proof. unfold warnings. by rewrite List.filter_app, List.length_app. Qed.

Lemma warnings_deliveries st lg levelno msg :
  warnings (logging.deliveries st lg levelno msg) = 0%nat.
Proof.
  unfold logging.deliveries. case_bool_decide; [|done].
  induction (logging.accepting st levelno _) as [|h l IH]; [done|].
  exact IH.
Qed.

(** One call of [warning] adds exactly one warning to the trace. *)
Lemma warnings_after_warning st lg msg :
  warnings (trace st ++ EvLog lg logging.WARNING msg
                        :: logging.deliveries st lg logging.WARNING msg)
  = S (warnings (trace st)).
Proof.
  rewrite warnings_app.
  change (EvLog lg logging.WARNING msg :: ?l)
    with ([EvLog lg logging.WARNING msg] ++ l).
  rewrite warnings_app, warnings_deliveries. simpl. lia.
Qed.

Lemma remove_first_absent h l : h ∉ l → logging.remove_first h l = l.
Proof.
  induction l as [|x l IH]; [done|]. simpl.
  intros [Hx Hl]%not_elem_of_cons. rewrite bool_decide_eq_false_2 by done.
  by rewrite IH.
Qed.

Lemma remove_first_NoDup h l : NoDup l → h ∉ logging.remove_first h l.
Proof.
  induction 1 as [|x l Hx Hl IH]; simpl; [by intros ?%elem_of_nil|].
  case_bool_decide as Hxh; [by subst|].
  intros [->|?]%elem_of_cons; [done|]. by apply IH.
Qed.

Lemma lookup_logger_store st lg l :
  logging.lookup_logger (set_py_loggers (<[lg := l]> (py_loggers st)) st) lg = l.
Proof. unfold logging.lookup_logger. simpl. by rewrite lookup_insert_eq. Qed.

(** [removeHandler] in one equation, whether the handler was attached
    or not. *)
Lemma removeHandler_eval lg h st :
  let l := logging.lookup_logger st lg in
  ∃ st', logging.removeHandler lg h st = (Ok tt, st')
    ∧ py_handlers (logging.lookup_logger st' lg)
      = logging.remove_first h (py_handlers l)
    ∧ py_level (logging.lookup_logger st' lg) = py_level l
    ∧ (∀ lg', lg' ≠ lg →
         logging.lookup_logger st' lg' = logging.lookup_logger st lg')
    ∧ heap st' = heap st ∧ hheap st' = hheap st ∧ fs st' = fs st
    ∧ instances st' = instances st ∧ trace st' = trace st
    ∧ cls_run_id st' = cls_run_id st.
Proof.
  intros l. unfold logging.removeHandler, bind, gets. fold l.
  case_bool_decide as Hin.
  - eexists. split; [reflexivity|]. rewrite lookup_logger_store.
    split_and!; try done.
    intros lg' Hne. unfold logging.lookup_logger. simpl.
    by rewrite lookup_insert_ne.
  - exists st. split; [done|]. fold l.
    by rewrite remove_first_absent.
Qed.

End LoggingFacts.

Section OnLogger.

(** A Logger object [o] at [self], with its logger, its name and its
    handler mapping in place. *)
Context (st : State) (self : ref) (o : LoggerObj).
Context (lg nm : string) (hs : gmap string href).
Hypothesis Hself : heap st !! self = Some o.
Hypothesis Hlogger : logger o = Some lg.
Hypothesis Hname : name o = Some nm.
Hypothesis Hhandlers : handlers o = Some hs.

Lemma warn_with_name_Ok (f : string → string) :
  Logger.logger_log self logging.WARNING
    (n <- Obj.getattr "name" name self ;; ret (f n)) st
  = (Ok tt, warned st lg (f nm)).
Proof.
  erewrite logger_log_Ok; [reflexivity|done..|].
  by step_getattr.
Qed.

(** C4. When the handler name is already on the Logger, both
    [add_console_handler] and [add_file_handler] return normally and
    change nothing but the trace: the Logger objects (so the mapping still
    holds the same handler object), the handler objects (so level and
    format are the original ones), the loggers of [logging], the file
    system and the registry are as before, no handler object is made,
    and the trace grows by one call of [warning] on the Logger's own
    logger, followed by what [logging] delivers for it. *)
Theorem C4_duplicate_add_leaves_handler_and_warns_once
    (h : string) (existing : href) (level : Z) (format : string) :
  hs !! h = Some existing →
  let msg := "Handler with name " +:+ h +:+ " already exists in logger " +:+ nm in
  Logger.add_console_handler self h level format st = (Ok tt, warned st lg msg)
  ∧ Logger.add_file_handler self h level format st = (Ok tt, warned st lg msg)
  ∧ heap (warned st lg msg) = heap st
  ∧ hheap (warned st lg msg) = hheap st
  ∧ py_loggers (warned st lg msg) = py_loggers st
  ∧ fs (warned st lg msg) = fs st
  ∧ instances (warned st lg msg) = instances st
  ∧ trace (warned st lg msg)
    = trace st ++ EvLog lg logging.WARNING msg
                  :: logging.deliveries st lg logging.WARNING msg
  ∧ warnings (trace (warned st lg msg)) = S (warnings (trace st)).
Proof.
  intros Hh msg. split_and!; try done.
  - unfold Logger.add_console_handler.
    step_with ltac:(by eapply handler_exists_Ok).
    rewrite Hh, bool_decide_eq_true_2 by eauto.
    apply (warn_with_name_Ok (fun n => _ +:+ _ +:+ _ +:+ n)).
  - unfold Logger.add_file_handler.
    step_with ltac:(by eapply handler_exists_Ok).
    rewrite Hh, bool_decide_eq_true_2 by eauto.
    apply (warn_with_name_Ok (fun n => _ +:+ _ +:+ _ +:+ n)).
  - apply warnings_after_warning.
Qed.




End OnLogger.

(** ** Requesting a Logger by name *)

Section Construction.

(** [__new__] always returns, and the object it answers is the one the
    registry then holds under the name. *)
Lemma new_registers (n d : string) (st : State) :
  ∃ r s0, Logger.__new__ n d st = (Ok r, s0)
    ∧ instances s0 !! n = Some r
    ∧ (∀ r', instances st !! n = Some r' → r = r' ∧ s0 = st)
    ∧ (instances st !! n = None →
         heap st !! r = None
         ∧ heap s0 = <[r := mkLoggerObj (Some (logging.key_of n)) None None
                              None None None None]> (heap st)
         ∧ hheap s0 = hheap st ∧ fs s0 = fs st ∧ cwd s0 = cwd st).
Proof.
  unfold Logger.__new__. unfold bind at 1. unfold gets at 1.
  destruct (instances st !! n) as [r|] eqn:Hn.
  - exists r, st. split_and!; [done|done| |done].
    intros r' [= <-]. done.
  - set (r := fresh (dom (heap st))).
    assert (heap st !! r = None) as Hfresh.
    { apply not_elem_of_dom, is_fresh. }
    step_with ltac:(reflexivity). fold r.
    step_with ltac:(reflexivity).
    unfold Obj.set_logger.
    step_with ltac:(apply update_Ok; simpl; apply lookup_insert_eq).
    erewrite bind_Ok;
      [|eapply getattr_Ok; [simpl; apply lookup_insert_eq|reflexivity]].
    step_with ltac:(reflexivity).
    step_with ltac:(reflexivity). simpl.
    destruct (cls_run_id st) as [rid|].
    + step_with ltac:(reflexivity). step_with ltac:(reflexivity).
      eexists _, _. split; [reflexivity|]. simpl.
      rewrite lookup_insert_eq. split_and!; [done|done|].
      intros _. by rewrite insert_insert_eq.
    + step_with ltac:(reflexivity). step_with ltac:(reflexivity).
      eexists _, _. split; [reflexivity|]. simpl.
      rewrite lookup_insert_eq. split_and!; [done|done|].
      intros _. by rewrite insert_insert_eq.
Qed.

(** A call of [__init__] that returns leaves the object initialized and the
    registry as it was. *)
Lemma init_returns_initialized (self : ref) (n d : string) (st st' : State) :
  Logger.__init__ self n d st = (Ok tt, st') →
  instances st' = instances st
  ∧ ∃ o, heap st' !! self = Some o ∧ _initialized o = Some true.
Proof.
  unfold Logger.__init__. intros H.
  apply bind_inv_Ok in H as (o0 & s & Hderef & H).
  unfold Obj.deref in Hderef.
  destruct (heap st !! self) as [o|] eqn:Hself; [|done].
  injection Hderef as <- <-.
  case_bool_decide as Hinit.
  { injection H as <-. eauto. }
  unfold Obj.set_handlers, Obj.set_name, Obj.set_log_file_defaullt_dir,
    Obj.set_initialized in H.
  erewrite bind_Ok in H; [|by apply update_Ok].
  erewrite bind_Ok in H; [|apply update_Ok; simpl; apply lookup_insert_eq].
  erewrite bind_Ok in H; [|reflexivity].
  erewrite bind_Ok in H; [|apply update_Ok; simpl; apply lookup_insert_eq].
  erewrite bind_Ok in H;
    [|eapply getattr_Ok; [simpl; apply lookup_insert_eq|reflexivity]].
  erewrite bind_Ok in H; [|reflexivity].
  simpl in H.
  match type of H with
  | context [when (negb ?e) _] => destruct e
  end; simpl in H.
  - erewrite bind_Ok in H; [|reflexivity].
    erewrite update_Ok in H by (simpl; apply lookup_insert_eq).
    injection H as <-. simpl. split; [done|].
    eexists. rewrite lookup_insert_eq. by split.
  - apply bind_inv_Ok in H as ([] & s & Hmk & H).
    erewrite bind_Ok in Hmk;
      [|eapply getattr_Ok; [simpl; apply lookup_insert_eq|reflexivity]].
    unfold os.makedirs, fs_step in Hmk. simpl in Hmk.
    destruct (FS.makedirs _ _) as [m|e]; [|done].
    injection Hmk as <-.
    erewrite update_Ok in H by (simpl; apply lookup_insert_eq).
    injection H as <-. simpl. split; [done|].
    eexists. rewrite lookup_insert_eq. by split.
Qed.

(** A registered, initialized Logger is answered as it is: the request
    makes no object and changes no state. *)
Lemma call_registered (n d : string) (st : State) (r : ref) (o : LoggerObj) :
  instances st !! n = Some r →
  heap st !! r = Some o →
  _initialized o = Some true →
  Logger.__call__ n d st = (Ok r, st).
Proof.
  intros Hn Hr Hinit. unfold Logger.__call__.
  erewrite bind_Ok; [|unfold Logger.__new__, bind, gets; by rewrite Hn].
  erewrite bind_Ok; [reflexivity|].
  unfold Logger.__init__. step_with ltac:(by apply deref_Ok).
  by rewrite bool_decide_eq_true_2.
Qed.

(** C1. Once a request [Logger(n, _)] has returned an instance, the
    registry holds that instance under [n], and every further request for
    [n] (whatever directory it passes) returns the very same reference and
    leaves the whole state untouched: nothing is made, nothing is
    re-initialized. *)
Theorem C1_second_request_returns_same_instance
    (n d1 d2 : string) (st st1 : State) (r : ref) :
  Logger.__call__ n d1 st = (Ok r, st1) →
  instances st1 !! n = Some r
  ∧ Logger.__call__ n d2 st1 = (Ok r, st1).
Proof.
  intros H. unfold Logger.__call__ in H.
  destruct (new_registers n d1 st) as (r0 & s0 & Hnew & Hreg & _).
  erewrite bind_Ok in H by exact Hnew.
  apply bind_inv_Ok in H as ([] & s1 & Hinit & H).
  injection H as -> ->.
  apply init_returns_initialized in Hinit as (Hinst & o & Ho & Hdone).
  assert (instances st1 !! n = Some r) as Hn by by rewrite Hinst.
  split; [done|]. by eapply call_registered.
Qed.

End Construction.

(** ** File handlers *)

Section MakingDirectories.

Lemma set_fs_same (s : State) : set_fs (fs s) s = s.
Proof. by destruct s. Qed.

(** [if not os.path.exists(d): os.makedirs(d)], followed by the rest of
    the method. *)
Lemma ensure_dir_step {B} (s : State) (r : ref) (o : LoggerObj) (d attr : string)
    (proj : LoggerObj → option string) (k : M B) :
  heap s !! r = Some o → proj o = Some d →
  (e <- os.path_exists d ;;
   when (negb e) (d' <- Obj.getattr attr proj r ;; os.makedirs d') ;;
   k) s
  = match FS.ensure_dir (fs s) (Path.resolve d) with
    | Ok m => k (set_fs m s)
    | Raise e => (Raise e, s)
    end.
Proof.
  intros Hr Hd. step_with ltac:(reflexivity).
  unfold FS.ensure_dir.
  destruct (FS.entry_exists (fs s) (Path.resolve d)); simpl.
  - step_with ltac:(reflexivity). by rewrite set_fs_same.
  - unfold bind at 1. erewrite bind_Ok; [|by eapply getattr_Ok].
    unfold os.makedirs, fs_step.
    by destruct (FS.makedirs (fs s) (Path.resolve d)).
Qed.

(** The first request for a name returns whenever the base directory
    exists or can be made, with a new, initialized object without handlers. *)
Lemma call_new_name_returns (n d : string) (st : State)
    (m : gmap (list string) node) :
  instances st !! n = None →
  FS.ensure_dir (fs st) (Path.resolve (Path.join (cwd st) d)) = Ok m →
  ∃ r st1, Logger.__call__ n d st = (Ok r, st1)
    ∧ heap st !! r = None
    ∧ instances st1 !! n = Some r
    ∧ fs st1 = m
    ∧ heap st1 !! r
      = Some (mkLoggerObj (Some (logging.key_of n)) (Some true) (Some ∅)
                          (Some n) (Some (Path.join (cwd st) d)) None None).
Proof.
  intros Hn Hdir. unfold Logger.__call__.
  destruct (new_registers n d st) as (r & s0 & Hnew & Hreg & _ & Hfresh).
  destruct (Hfresh Hn) as (Hnone & Hheap0 & _ & Hfs0 & Hcwd0).
  step_with ltac:(exact Hnew).
  assert (heap s0 !! r = Some (mkLoggerObj (Some (logging.key_of n)) None None
                                 None None None None)) as Hr.
  { by rewrite Hheap0, lookup_insert_eq. }
  unfold Logger.__init__.
  assert (∃ s1, (o <- Obj.deref r ;;
                 if bool_decide (_initialized o = Some true) then ret tt
                 else
                   Obj.set_handlers r ∅ ;;
                   Obj.set_name r n ;;
                   here <- os.abspath_curdir ;;
                   Obj.set_log_file_defaullt_dir r (Path.join here d) ;;
                   d0 <- Obj.getattr "log_file_defaullt_dir"
                           log_file_defaullt_dir r ;;
                   e <- os.path_exists d0 ;;
                   when (negb e)
                     (d' <- Obj.getattr "log_file_defaullt_dir"
                              log_file_defaullt_dir r ;;
                      os.makedirs d') ;;
                   Obj.set_initialized r true) s0 = (Ok tt, s1)
          ∧ instances s1 = instances s0 ∧ fs s1 = m
          ∧ heap s1 !! r
            = Some (mkLoggerObj (Some (logging.key_of n)) (Some true) (Some ∅)
                      (Some n) (Some (Path.join (cwd st) d)) None None))
    as (s1 & Hinit & Hinst & Hfs & Hobj).
  { step_with ltac:(by apply deref_Ok).
    rewrite bool_decide_eq_false_2 by done.
    unfold Obj.set_handlers, Obj.set_name, Obj.set_log_file_defaullt_dir,
      Obj.set_initialized.
    step_with ltac:(by apply update_Ok).
    step_with ltac:(apply update_Ok; simpl; apply lookup_insert_eq).
    step_with ltac:(reflexivity).
    step_with ltac:(apply update_Ok; simpl; apply lookup_insert_eq).
    erewrite bind_Ok;
      [|eapply getattr_Ok; [simpl; apply lookup_insert_eq|reflexivity]].
    erewrite ensure_dir_step; [|simpl; apply lookup_insert_eq|reflexivity].
    simpl. rewrite Hfs0, Hcwd0, Hdir.
    erewrite update_Ok by (simpl; apply lookup_insert_eq).
    eexists. split; [reflexivity|]. simpl.
    by rewrite lookup_insert_eq. }
  step_with ltac:(exact Hinit).
  exists r, s1. by rewrite Hinst.
Qed.

End MakingDirectories.

Ltac heap_lookup := simpl; first [eassumption | apply lookup_insert_eq].
Ltac step_attr := erewrite bind_Ok; [|eapply getattr_Ok; [heap_lookup|first [eassumption|reflexivity]]].
Ltac step_update := erewrite bind_Ok; [|apply update_Ok; heap_lookup].

Section Directories.

Context (self : ref) (base : string).

Lemma create_todays_log_dir_eval (s : State) (o : LoggerObj) :
  heap s !! self = Some o →
  log_file_defaullt_dir o = Some base →
  let ddir := layout_date_dir base (datetime.strftime_Ymd (clock s (ticks s))) in
  let s1 := set_heap (<[self := mkLoggerObj (logger o) (_initialized o) (handlers o)
                                  (name o) (log_file_defaullt_dir o) (Some ddir)
                                  (run_dir o)]> (heap s))
                     (set_ticks (S (ticks s)) s) in
  Logger._create_todays_log_dir self s
  = match FS.ensure_dir (fs s) (Path.resolve ddir) with
    | Ok m => (Ok ddir, set_fs m s1)
    | Raise e => (Raise e, s1)
    end.
Proof.
  intros Hself Hbase. cbv zeta. unfold layout_date_dir.
  unfold Logger._create_todays_log_dir.
  step_with ltac:(reflexivity).
  step_attr. unfold Obj.set_date_dir. step_update. step_attr.
  erewrite ensure_dir_step; [|heap_lookup|reflexivity].
  simpl. destruct (FS.ensure_dir _ _); [|done].
  eapply getattr_Ok; [heap_lookup|reflexivity].
Qed.

Lemma create_run_id_dir_eval (s : State) (o : LoggerObj) (rid : string) :
  heap s !! self = Some o →
  log_file_defaullt_dir o = Some base →
  cls_run_id s = Some rid →
  let date := datetime.strftime_Ymd (clock s (ticks s)) in
  let ddir := layout_date_dir base date in
  let rdir := layout_run_dir base date rid in
  let s1 := set_heap (<[self := mkLoggerObj (logger o) (_initialized o) (handlers o)
                                  (name o) (log_file_defaullt_dir o) (Some ddir)
                                  (run_dir o)]> (heap s))
                     (set_ticks (S (ticks s)) s) in
  let s2 := set_heap (<[self := mkLoggerObj (logger o) (_initialized o) (handlers o)
                                  (name o) (log_file_defaullt_dir o) (Some ddir)
                                  (Some rdir)]> (heap s))
                     (set_ticks (S (ticks s)) s) in
  Logger._create_run_id_dir self s
  = match FS.ensure_dir (fs s) (Path.resolve ddir) with
    | Raise e => (Raise e, s1)
    | Ok m1 =>
        match FS.ensure_dir m1 (Path.resolve rdir) with
        | Ok m2 => (Ok rdir, set_fs m2 s2)
        | Raise e => (Raise e, set_fs m1 s2)
        end
    end.
Proof.
  intros Hself Hbase Hrid. cbv zeta. unfold Logger._create_run_id_dir.
  unfold bind at 1. rewrite (create_todays_log_dir_eval s o Hself Hbase).
  cbv zeta. unfold layout_run_dir.
  destruct (FS.ensure_dir (fs s) _) as [m1|e]; [|done].
  step_with ltac:(unfold Logger.run_id, Logger._get_run_id, bind, gets; simpl;
                  rewrite Hrid; reflexivity).
  unfold Obj.set_run_dir. step_update. step_attr.
  erewrite ensure_dir_step; [|heap_lookup|reflexivity].
  simpl. rewrite insert_insert_eq.
  destruct (FS.ensure_dir m1 _) as [m2|e]; [|done].
  eapply getattr_Ok; [heap_lookup|reflexivity].
Qed.

Lemma create_run_id_dir_then {B} (k : string → M B) (s : State) (o : LoggerObj)
    (rid : string) :
  heap s !! self = Some o →
  log_file_defaullt_dir o = Some base →
  cls_run_id s = Some rid →
  let date := datetime.strftime_Ymd (clock s (ticks s)) in
  let ddir := layout_date_dir base date in
  let rdir := layout_run_dir base date rid in
  let s1 := set_heap (<[self := mkLoggerObj (logger o) (_initialized o) (handlers o)
                                  (name o) (log_file_defaullt_dir o) (Some ddir)
                                  (run_dir o)]> (heap s))
                     (set_ticks (S (ticks s)) s) in
  let s2 := set_heap (<[self := mkLoggerObj (logger o) (_initialized o) (handlers o)
                                  (name o) (log_file_defaullt_dir o) (Some ddir)
                                  (Some rdir)]> (heap s))
                     (set_ticks (S (ticks s)) s) in
  (run_id_dir <- Logger._create_run_id_dir self ;; k run_id_dir) s
  = match FS.ensure_dir (fs s) (Path.resolve ddir) with
    | Raise e => (Raise e, s1)
    | Ok m1 =>
        match FS.ensure_dir m1 (Path.resolve rdir) with
        | Ok m2 => k rdir (set_fs m2 s2)
        | Raise e => (Raise e, set_fs m1 s2)
        end
    end.
Proof.
  intros Hself Hbase Hrid. cbv zeta. unfold bind at 1.
  rewrite (create_run_id_dir_eval s o rid Hself Hbase Hrid). cbv zeta.
  destruct (FS.ensure_dir (fs s) _) as [m1|e]; [|reflexivity].
  by destruct (FS.ensure_dir m1 _) as [m2|e].
Qed.

End Directories.

Section LoggingSteps.

Lemma FileHandler_eval (f mode enc : string) (s : State) :
  logging.FileHandler f mode enc s
  = match FS.open_ (fs s) (Path.resolve f) mode with
    | Ok m =>
        (Ok (fresh (dom (hheap s))),
         set_hheap (<[fresh (dom (hheap s)) :=
                        mkHandler (FileTarget f mode enc) logging.NOTSET None true]>
                      (hheap s)) (set_fs m s))
    | Raise e => (Raise e, s)
    end.
Proof.
  unfold logging.FileHandler, bind, fs_step.
  by destruct (FS.open_ (fs s) (Path.resolve f) mode).
Qed.

Lemma update_handler_Ok (h : href) (f : Handler → Handler) (s : State) (hd : Handler) :
  hheap s !! h = Some hd →
  logging.update_handler h f s = (Ok tt, set_hheap (<[h := f hd]> (hheap s)) s).
Proof. unfold logging.update_handler. by intros ->. Qed.

Lemma addHandler_eval (lg : string) (h : href) (s : State) :
  ∃ s', logging.addHandler lg h s = (Ok tt, s')
    ∧ h ∈ py_handlers (logging.lookup_logger s' lg)
    ∧ (∀ h', h' ∈ py_handlers (logging.lookup_logger s lg) →
             h' ∈ py_handlers (logging.lookup_logger s' lg))
    ∧ py_level (logging.lookup_logger s' lg) = py_level (logging.lookup_logger s lg)
    ∧ heap s' = heap s ∧ hheap s' = hheap s ∧ fs s' = fs s
    ∧ instances s' = instances s ∧ trace s' = trace s
    ∧ cls_run_id s' = cls_run_id s.
Proof.
  unfold logging.addHandler, bind, gets.
  case_bool_decide as Hin.
  - exists s. by split_and!.
  - eexists. split; [reflexivity|]. rewrite lookup_logger_store. simpl.
    split_and!; try done.
    + apply elem_of_app. right. by left.
    + intros h' ?. apply elem_of_app. by left.
Qed.

End LoggingSteps.

Section FileHandlers.

Context (st : State) (self : ref) (o : LoggerObj).
Context (lg nm base rid : string) (hs : gmap string href).
Hypothesis Hself : heap st !! self = Some o.
Hypothesis Hlogger : logger o = Some lg.
Hypothesis Hname : name o = Some nm.
Hypothesis Hhandlers : handlers o = Some hs.
Hypothesis Hbase : log_file_defaullt_dir o = Some base.
Hypothesis Hrid : cls_run_id st = Some rid.

Lemma add_file_handler_fresh_eval (h : string) (level : Z) (format : string) :
  hs !! h = None →
  let date := datetime.strftime_Ymd (clock st (ticks st)) in
  let ddir := layout_date_dir base date in
  let rdir := layout_run_dir base date rid in
  let path := layout_file base date rid h in
  let hnew := fresh (dom (hheap st)) in
  match FS.ensure_dir (fs st) (Path.resolve ddir) with
  | Raise e => ∃ st', Logger.add_file_handler self h level format st = (Raise e, st')
  | Ok m1 =>
    match FS.ensure_dir m1 (Path.resolve rdir) with
    | Raise e => ∃ st', Logger.add_file_handler self h level format st = (Raise e, st')
    | Ok m2 =>
      match FS.open_ m2 (Path.resolve path) "a" with
      | Raise e =>
          ∃ st', Logger.add_file_handler self h level format st = (Raise e, st')
                 ∧ hheap st' = hheap st
      | Ok m3 =>
        if logging.valid_format format then
        ∃ st', Logger.add_file_handler self h level format st = (Ok tt, st')
          ∧ fs st' = m3
          ∧ heap st' = <[self := mkLoggerObj (logger o) (_initialized o)
                           (Some (<[h := hnew]> hs)) (name o)
                           (log_file_defaullt_dir o) (Some ddir) (Some rdir)]> (heap st)
          ∧ hheap st' = <[hnew := mkHandler (FileTarget path "a" "utf-8") level
                                    (Some format) true]> (hheap st)
          ∧ hnew ∈ py_handlers (logging.lookup_logger st' lg)
          ∧ instances st' = instances st
          ∧ cls_run_id st' = cls_run_id st
          ∧ ∃ evs, trace st' = trace st ++
              EvLog lg logging.DEBUG
                ("File handler " +:+ h +:+ " added to logger " +:+ nm
                 +:+ " with path: " +:+ path) :: evs
        else
        ∃ st', Logger.add_file_handler self h level format st
               = (Raise ValueError, st')
      end
    end
  end.
Proof.
  intros Hh. cbv zeta.
  unfold Logger.add_file_handler.
  step_with ltac:(by eapply handler_exists_Ok).
  rewrite Hh, bool_decide_eq_false_2 by by intros [??].
  step_with ltac:(unfold Logger.run_id, Logger._get_run_id, bind, gets;
                  rewrite Hrid; reflexivity).
  rewrite (create_run_id_dir_then self base _ st o rid Hself Hbase Hrid).
  cbv zeta.
  destruct (FS.ensure_dir (fs st) _) as [m1|e]; [|by eexists].
  destruct (FS.ensure_dir m1 _) as [m2|e]; [|by eexists].
  unfold layout_file.
  destruct (FS.open_ m2 _ "a") as [m3|e] eqn:Hopen;
    [destruct (logging.valid_format format) eqn:Hvalid|];
    unfold bind at 1; rewrite FileHandler_eval; simpl; rewrite Hopen;
    [|unfold logging.setFormatter; rewrite Hvalid; eexists; reflexivity
     |eexists; split; [reflexivity|done]].
  unfold logging.setFormatter, logging.Handler_setLevel. rewrite Hvalid.
  step_with ltac:(apply update_handler_Ok; simpl; apply lookup_insert_eq).
  step_with ltac:(apply update_handler_Ok; simpl; apply lookup_insert_eq).
  unfold Logger.handlers_setitem.
  step_with ltac:(step_attr; unfold Obj.set_handlers; apply update_Ok; heap_lookup).
  step_attr.
  match goal with
  | |- context [bind (logging.addHandler ?l ?x) _ ?s] =>
      destruct (addHandler_eval l x s)
        as (s' & Hadd & Hin & _ & _ & Hheap & Hhheap & Hfs & Hinst & Htrace & Hcls)
  end.
  step_with ltac:(exact Hadd).
  erewrite bind_Ok; [|eapply getattr_Ok; [rewrite Hheap; heap_lookup|exact Hname]].
  unfold Logger.debug.
  erewrite logger_log_Ok; [| rewrite Hheap; heap_lookup | exact Hlogger | reflexivity].
  eexists. split; [reflexivity|]. simpl.
  rewrite Hfs, Hheap, Hhheap, Hinst, Hcls, Htrace. simpl.
  rewrite !insert_insert_eq.
  split_and!; try done. by eexists.
Qed.

Lemma is_dir_of_lookup (m : gmap (list string) node) (p : list string) :
  m !! p = Some Dir → FS.is_dir m p = true.
Proof.
  intros Hp. destruct p; [done|]. simpl. by apply bool_decide_eq_true.
Qed.











End FileHandlers.

(** C10. The run identifier is one value of the class.  After
    [set_run_name], the property [run_id] of any instance, also one made
    before the call, answers the new identifier, and a file handler that
    the instance adds from then on is opened on the layout path composed
    from the new identifier; the run directory the instance records is the
    new one too.  Whatever identifier the class held when the instance was
    made plays no part. *)
Theorem C10_run_id_is_read_at_add_time
    (st st2 : State) (self : ref) (o : LoggerObj) (lg nm base : string)
    (hs : gmap string href) (run_name h : string) (level : Z) (format : string) :
  heap st !! self = Some o →
  logger o = Some lg →
  name o = Some nm →
  handlers o = Some hs →
  log_file_defaullt_dir o = Some base →
  hs !! h = None →
  let st1 := snd (Logger.set_run_name run_name st) in
  let rid := datetime.strftime_Ymd (clock st (ticks st)) +:+ "_"
             +:+ datetime.strftime_HMS (clock st (S (ticks st))) +:+ "_"
             +:+ run_name in
  let date := datetime.strftime_Ymd (clock st (S (S (ticks st)))) in
  Logger.add_file_handler self h level format st1 = (Ok tt, st2) →
  cls_run_id st1 = Some rid
  ∧ Logger.run_id self st1 = (Ok rid, st1)
  ∧ ∃ hnew o2,
      heap st2 !! self = Some o2
      ∧ handlers o2 = Some (<[h := hnew]> hs)
      ∧ run_dir o2 = Some (layout_run_dir base date rid)
      ∧ hheap st2 !! hnew
        = Some (mkHandler (FileTarget (layout_file base date rid h) "a" "utf-8")
                          level (Some format) true).
Proof.
  intros Hself Hlogger Hname Hhandlers Hbase Hh st1 rid date Hadd.
  assert (cls_run_id st1 = Some rid) as Hrid by reflexivity.
  split; [done|]. split; [reflexivity|].
  pose proof (add_file_handler_fresh_eval st1 self o lg nm base rid hs
                Hself Hlogger Hname Hhandlers Hbase Hrid h level format Hh)
    as Heval.
  cbv zeta in Heval.
  destruct (FS.ensure_dir (fs st1) _) as [m1|e];
    [|destruct Heval as [st' Hbad]; congruence].
  destruct (FS.ensure_dir m1 _) as [m2|e];
    [|destruct Heval as [st' Hbad]; congruence].
  destruct (FS.open_ m2 _ "a") as [m3|e];
    [|destruct Heval as (st' & Hbad & _); congruence].
  destruct (logging.valid_format format);
    [|destruct Heval as [st' Hbad]; congruence].
  destruct Heval as (st' & Hrun & _ & Hheap & Hhheap & _).
  rewrite Hadd in Hrun. injection Hrun as <-.
  eexists _, _. rewrite Hheap, Hhheap, !lookup_insert_eq.
  by split_and!.
Qed.

(** ** Sharing, deleting, clearing *)

Section Sharing.

Context (st : State) (self : ref) (o : LoggerObj).
Context (lg : string) (hs : gmap string href).
Hypothesis Hself : heap st !! self = Some o.
Hypothesis Hlogger : logger o = Some lg.
Hypothesis Hhandlers : handlers o = Some hs.

(** [join_handler] has no guard: whatever the Logger held under the name,
    the mapping afterwards holds the other Logger's handler, no warning is
    logged, and the handlers that were attached before stay attached. *)
Lemma join_handler_replaces
    (other k : string) (r' : ref) (o' : LoggerObj) (hs' : gmap string href)
    (h' : href) :
  instances st !! other = Some r' →
  heap st !! r' = Some o' →
  handlers o' = Some hs' →
  hs' !! k = Some h' →
  ∃ st', Logger.join_handler self other k st = (Ok tt, st')
    ∧ handlers_of st' self = Some (<[k := h']> hs)
    ∧ h' ∈ py_handlers (logging.lookup_logger st' lg)
    ∧ (∀ h0, h0 ∈ py_handlers (logging.lookup_logger st lg) →
             h0 ∈ py_handlers (logging.lookup_logger st' lg))
    ∧ hheap st' = hheap st
    ∧ trace st' = trace st.
Proof.
  intros Hother Hr' Hhs' Hk. unfold Logger.join_handler.
  step_with ltac:(reflexivity). rewrite Hother.
  step_with ltac:(reflexivity).
  step_with ltac:(unfold Logger.handlers_getitem; step_attr; rewrite Hk;
                  reflexivity).
  unfold Logger.handlers_setitem.
  step_with ltac:(step_attr; unfold Obj.set_handlers; apply update_Ok;
                  heap_lookup).
  step_attr.
  match goal with
  | |- context [logging.addHandler ?l ?x ?s] =>
      destruct (addHandler_eval l x s)
        as (s' & Hadd & Hin & Hkeep & _ & Hheap & Hhheap & _ & _ & Htrace & _)
  end.
  exists s'. split; [exact Hadd|].
  unfold handlers_of. rewrite Hheap, Hhheap, Htrace. simpl.
  rewrite lookup_insert_eq. by split_and!.
Qed.

End Sharing.

Section Deleting.

(** The loop of [_del_logger] detaches and touches nothing else. *)
Lemma detach_all (r : ref) (o : LoggerObj) (lg : string) (l : list href)
    (st : State) :
  heap st !! r = Some o → logger o = Some lg →
  ∃ st', for_each l (fun handler =>
                       lg' <- Obj.getattr "logger" logger r ;;
                       logging.removeHandler lg' handler) st = (Ok tt, st')
    ∧ heap st' = heap st ∧ hheap st' = hheap st ∧ fs st' = fs st
    ∧ instances st' = instances st ∧ trace st' = trace st
    ∧ cls_run_id st' = cls_run_id st.
Proof.
  intros Hr Hlg. revert st Hr.
  induction l as [|h l IH]; intros st Hr; simpl.
  { by exists st. }
  destruct (removeHandler_eval lg h st)
    as (s1 & Hrun & _ & _ & _ & Hheap & Hhheap & Hfs & Hinst & Htrace & Hcls).
  destruct (IH s1) as (s2 & Hrest & Hheap2 & Hhheap2 & Hfs2 & Hinst2 & Htrace2 & Hcls2).
  { by rewrite Hheap. }
  exists s2. split.
  - step_with ltac:(step_attr; exact Hrun). exact Hrest.
  - split_and!; congruence.
Qed.

(** [_del_logger] on a name that is not registered does nothing at all. *)
Lemma del_logger_unregistered (n : string) (st : State) :
  instances st !! n = None → Logger._del_logger n st = (Ok tt, st).
Proof.
  intros Hn. unfold Logger._del_logger.
  step_with ltac:(reflexivity).
  rewrite bool_decide_eq_false_2; [done|]. by apply not_elem_of_dom.
Qed.

(** [_del_logger] on a registered name: the name leaves the registry and
    the Logger's own logger ends without handlers; the Logger objects (with
    their handler mappings) and the handler objects are as before. *)
Lemma del_logger_registered (n : string) (st : State) (r : ref) (o : LoggerObj)
    (lg : string) :
  instances st !! n = Some r →
  heap st !! r = Some o →
  logger o = Some lg →
  ∃ st', Logger._del_logger n st = (Ok tt, st')
    ∧ instances st' = delete n (instances st)
    ∧ py_handlers (logging.lookup_logger st' lg) = []
    ∧ heap st' = heap st
    ∧ hheap st' = hheap st
    ∧ fs st' = fs st
    ∧ trace st' = trace st.
Proof.
  intros Hn Hr Hlg. unfold Logger._del_logger.
  step_with ltac:(reflexivity).
  rewrite bool_decide_eq_true_2 by (apply elem_of_dom; eauto).
  step_with ltac:(reflexivity). rewrite Hn.
  step_with ltac:(reflexivity). step_attr.
  step_with ltac:(reflexivity).
  destruct (detach_all r o lg (py_handlers (logging.lookup_logger st lg)) st Hr Hlg)
    as (s1 & Hloop & Hheap & Hhheap & Hfs & Hinst & Htrace & _).
  step_with ltac:(exact Hloop).
  erewrite bind_Ok; [|eapply getattr_Ok; [by rewrite Hheap|exact Hlg]].
  step_with ltac:(reflexivity).
  eexists. split; [reflexivity|].
  unfold logging.lookup_logger. simpl. rewrite lookup_insert_eq. simpl.
  rewrite Hinst, Hheap, Hhheap, Hfs, Htrace. by split_and!.
Qed.

End Deleting.

Section Clearing.

Context (st : State) (self : ref) (o : LoggerObj).
Hypothesis Hself : heap st !! self = Some o.

(** Without [self.date_dir], [clear_todays_logs] raises before it looks at
    the file system. *)
Lemma clear_todays_logs_without_date_dir :
  date_dir o = None →
  Logger.clear_todays_logs self st = (Raise (AttributeError "date_dir"), st).
Proof.
  intros Hd. unfold Logger.clear_todays_logs.
  erewrite bind_Raise; [done|]. by eapply getattr_unset.
Qed.

(** With [self.date_dir] set: a directory there goes with everything below
    it, and a missing one leaves the state as it is. *)
Lemma clear_todays_logs_with_date_dir (d : string) :
  date_dir o = Some d →
  Path.resolve d ≠ [] →
  match fs st !! Path.resolve d with
  | None => Logger.clear_todays_logs self st = (Ok tt, st)
  | Some Dir =>
      ∃ m, Logger.clear_todays_logs self st = (Ok tt, set_fs m st)
           ∧ ∀ q, m !! q = if bool_decide (Path.resolve d `prefix_of` q)
                           then None else fs st !! q
  | Some (File _) =>
      Logger.clear_todays_logs self st = (Raise NotADirectoryError, st)
  end.
Proof.
  intros Hd Hne. unfold Logger.clear_todays_logs.
  step_attr. step_with ltac:(reflexivity).
  assert (FS.entry_exists (fs st) (Path.resolve d)
          = bool_decide (is_Some (fs st !! Path.resolve d))) as ->.
  { by destruct (Path.resolve d). }
  destruct (fs st !! Path.resolve d) as [[|c]|] eqn:Hlook.
  - destruct (rmtree_spec _ _ Hlook) as (m & Hrm & Hm).
    exists m. split; [|done].
    rewrite bool_decide_eq_true_2 by eauto. simpl.
    step_attr. unfold shutil.rmtree, fs_step. by rewrite Hrm.
  - rewrite bool_decide_eq_true_2 by eauto. simpl.
    step_attr. unfold shutil.rmtree, fs_step, FS.rmtree. by rewrite Hlook.
  - rewrite bool_decide_eq_false_2 by by intros [??]. done.
Qed.

End Clearing.

(** A Logger that was just made has no [date_dir]: [clear_todays_logs]
    raises on it. *)
Lemma clear_todays_logs_on_new_logger (n d : string) (st st1 : State) (r : ref) :
  instances st !! n = None →
  Logger.__call__ n d st = (Ok r, st1) →
  Logger.clear_todays_logs r st1 = (Raise (AttributeError "date_dir"), st1).
Proof.
  intros Hn H. unfold Logger.__call__ in H.
  destruct (new_registers n d st) as (r0 & s0 & Hnew & _ & _ & Hfresh).
  destruct (Hfresh Hn) as (_ & Hheap0 & _).
  erewrite bind_Ok in H by exact Hnew.
  apply bind_inv_Ok in H as ([] & s1 & Hinit & H).
  injection H as -> ->.
  assert (heap s0 !! r = Some (mkLoggerObj (Some (logging.key_of n)) None None
                                 None None None None)) as Hr.
  { by rewrite Hheap0, lookup_insert_eq. }
  unfold Logger.__init__ in Hinit.
  erewrite bind_Ok in Hinit by by apply deref_Ok.
  rewrite bool_decide_eq_false_2 in Hinit by done.
  unfold Obj.set_handlers, Obj.set_name, Obj.set_log_file_defaullt_dir,
    Obj.set_initialized in Hinit.
  erewrite bind_Ok in Hinit; [|by apply update_Ok].
  erewrite bind_Ok in Hinit; [|apply update_Ok; simpl; apply lookup_insert_eq].
  erewrite bind_Ok in Hinit; [|reflexivity].
  erewrite bind_Ok in Hinit; [|apply update_Ok; simpl; apply lookup_insert_eq].
  erewrite bind_Ok in Hinit;
    [|eapply getattr_Ok; [simpl; apply lookup_insert_eq|reflexivity]].
  erewrite bind_Ok in Hinit; [|reflexivity].
  simpl in Hinit.
  match type of Hinit with
  | context [when (negb ?e) _] => destruct e
  end; simpl in Hinit.
  - erewrite bind_Ok in Hinit; [|reflexivity].
    erewrite update_Ok in Hinit by (simpl; apply lookup_insert_eq).
    injection Hinit as <-.
    eapply clear_todays_logs_without_date_dir;
      [simpl; apply lookup_insert_eq|reflexivity].
  - apply bind_inv_Ok in Hinit as ([] & s & Hmk & Hinit).
    erewrite bind_Ok in Hmk;
      [|eapply getattr_Ok; [simpl; apply lookup_insert_eq|reflexivity]].
    unfold os.makedirs, fs_step in Hmk. simpl in Hmk.
    destruct (FS.makedirs _ _) as [m|e]; [|done].
    injection Hmk as <-.
    erewrite update_Ok in Hinit by (simpl; apply lookup_insert_eq).
    injection Hinit as <-.
    eapply clear_todays_logs_without_date_dir;
      [simpl; apply lookup_insert_eq|reflexivity].
Qed.

(** ** The properties at concrete runs *)

(** C1 at a run: [Logger("a", "logs")] in the starting process, then
    [Logger("a", "elsewhere")]. *)
Lemma C1_witness_same_instance :
  instances Demo.one_logger !! "a" = Some 0%nat
  ∧ Logger.__call__ "a" "elsewhere" Demo.one_logger = (Ok 0%nat, Demo.one_logger).
Proof.
  apply (C1_second_request_returns_same_instance "a" "logs" "elsewhere" Demo.boot).
  vm_compute. reflexivity.
Defined.

(** C2 fails on the code.  Logger [b] holds its own console handler (object
    1, level ERROR) under ["main"]; [b.join_handler("a", "main")] returns
    normally, the slot ["main"] of [b] then holds the handler of [a]
    (object 0), the former handler is still attached to the logger of [b]
    although no name of [b] reaches it any more, and no warning was logged. *)
Theorem C2_join_handler_overwrites_attached_slot :
  handlers_of Demo.two_loggers 1 = Some {[ "main" := 1%nat ]}
  ∧ handlers_of Demo.two_loggers 0 = Some {[ "main" := 0%nat ]}
  ∧ Logger.join_handler 1 "a" "main" Demo.two_loggers = (Ok tt, Demo.joined)
  ∧ handlers_of Demo.joined 1 = Some {[ "main" := 0%nat ]}
  ∧ py_handlers (logging.lookup_logger Demo.joined "b") = [1%nat; 0%nat]
  ∧ trace Demo.joined = trace Demo.two_loggers
  ∧ warnings (trace Demo.joined) = 0%nat.
Proof. split_and!; vm_compute; reflexivity. Qed.

(** C3 fails on the code.  Logger [a] has the file handler ["main"]
    (object 0).  [_del_logger("a")] returns normally, takes the name out of
    the registry and detaches the handler from the logger of [a]; but the
    handler object is exactly as before, its stream still open, and the
    handler mapping of the Logger object still holds ["main"]. *)
Theorem C3_del_logger_neither_closes_nor_clears :
  handlers_of Demo.with_file 0 = Some {[ "main" := 0%nat ]}
  ∧ Logger._del_logger "a" Demo.with_file = (Ok tt, Demo.deleted)
  ∧ instances Demo.deleted !! "a" = None
  ∧ py_handlers (logging.lookup_logger Demo.deleted "a") = []
  ∧ hheap Demo.deleted = hheap Demo.with_file
  ∧ h_open <$> hheap Demo.deleted !! 0%nat = Some true
  ∧ handlers_of Demo.deleted 0 = Some {[ "main" := 0%nat ]}.
Proof. split_and!; vm_compute; reflexivity. Qed.


(** C9 fails on the code.  On the Logger [a], made a moment ago and
    without any file handler, the attribute [date_dir] does not exist, and
    [a.clear_todays_logs()] raises [AttributeError] instead of completing. *)
Theorem C9_clear_todays_logs_raises_without_file_handler :
  instances Demo.one_logger !! "a" = Some 0%nat
  ∧ handlers_of Demo.one_logger 0 = Some ∅
  ∧ date_dir_of Demo.one_logger 0 = None
  ∧ Logger.clear_todays_logs 0 Demo.one_logger
    = (Raise (AttributeError "date_dir"), Demo.one_logger).
Proof. split_and!; vm_compute; reflexivity. Qed.

(** C4 at a run: Logger [a] already has the console handler ["con"]
    (object 0, level INFO); adding ["con"] again, as a console or as a file
    handler, only logs one warning, which that handler receives. *)
Lemma C4_witness_duplicate_name :
  let msg := "Handler with name con already exists in logger a" in
  let st' := warned Demo.with_console "a" msg in
  Logger.add_console_handler 0 "con" Logger.DEBUG utils.FORMAT_BASIC
    Demo.with_console = (Ok tt, st')
  ∧ Logger.add_file_handler 0 "con" Logger.DEBUG utils.FORMAT_BASIC
      Demo.with_console = (Ok tt, st')
  ∧ heap st' = heap Demo.with_console
  ∧ hheap st' = hheap Demo.with_console
  ∧ py_loggers st' = py_loggers Demo.with_console
  ∧ fs st' = fs Demo.with_console
  ∧ instances st' = instances Demo.with_console
  ∧ trace st' = trace Demo.with_console
                ++ [EvLog "a" logging.WARNING msg; EvEmit 0 logging.WARNING msg]
  ∧ warnings (trace st') = S (warnings (trace Demo.with_console)).
Proof.
  assert (heap Demo.with_console !! 0%nat = Some Demo.logger_a_console) as H1
    by (vm_compute; reflexivity).
  pose proof (C4_duplicate_add_leaves_handler_and_warns_once
                Demo.with_console 0%nat Demo.logger_a_console "a" "a"
                {[ "con" := 0%nat ]} H1 eq_refl eq_refl eq_refl
                "con" 0%nat Logger.DEBUG utils.FORMAT_BASIC eq_refl) as W.
  vm_compute in W. vm_compute. exact W.
Defined.



(** C10 at a run: Logger [a] is made under the identifier
    [2026-11-03_101501]; after [set_run_name("nightly")] its file handler
    ["main"] lands under the new identifier. *)
Lemma C10_witness_renamed_run :
  let rid := "2026-11-03_101503_nightly" in
  cls_run_id Demo.one_logger = Some "2026-11-03_101501"
  ∧ cls_run_id Demo.renamed = Some rid
  ∧ Logger.run_id 0%nat Demo.renamed = (Ok rid, Demo.renamed)
  ∧ ∃ hnew o2,
      heap Demo.renamed_with_file !! 0%nat = Some o2
      ∧ handlers o2 = Some (<[ "main" := hnew ]> ∅)
      ∧ run_dir o2 = Some "/srv/logs/2026-11-03/2026-11-03_101503_nightly"
      ∧ hheap Demo.renamed_with_file !! hnew
        = Some (mkHandler
                  (FileTarget
                     "/srv/logs/2026-11-03/2026-11-03_101503_nightly/2026-11-03_101503_nightly_main.log"
                     "a" "utf-8")
                  Logger.DEBUG (Some utils.FORMAT_BASIC) true).
Proof.
  assert (heap Demo.one_logger !! 0%nat = Some Demo.logger_a) as H1
    by (vm_compute; reflexivity).
  assert (Logger.add_file_handler 0%nat "main" Logger.DEBUG utils.FORMAT_BASIC
            (snd (Logger.set_run_name "nightly" Demo.one_logger))
          = (Ok tt, Demo.renamed_with_file)) as H2
    by (vm_compute; reflexivity).
  pose proof (C10_run_id_is_read_at_add_time Demo.one_logger
                Demo.renamed_with_file 0%nat Demo.logger_a "a" "a" "/srv/logs"
                ∅ "nightly" "main" Logger.DEBUG utils.FORMAT_BASIC
                H1 eq_refl eq_refl eq_refl eq_refl eq_refl H2) as W.
  split; [vm_compute; reflexivity|].
  vm_compute in W. vm_compute. exact W.
Defined.


(** ** More on handlers *)

Section HandlerSteps.

(** [addHandler] in one equation: the handler goes to the end of the list
    unless it is in it, and only that logger changes. *)
Lemma addHandler_appends (lg : string) (h : href) (s : State) :
  ∃ s', logging.addHandler lg h s = (Ok tt, s')
    ∧ py_handlers (logging.lookup_logger s' lg)
      = (if bool_decide (h ∈ py_handlers (logging.lookup_logger s lg))
         then py_handlers (logging.lookup_logger s lg)
         else py_handlers (logging.lookup_logger s lg) ++ [h])
    ∧ py_level (logging.lookup_logger s' lg)
      = py_level (logging.lookup_logger s lg)
    ∧ (∀ lg', lg' ≠ lg →
         logging.lookup_logger s' lg' = logging.lookup_logger s lg')
    ∧ heap s' = heap s ∧ hheap s' = hheap s ∧ fs s' = fs s
    ∧ instances s' = instances s ∧ trace s' = trace s
    ∧ cls_run_id s' = cls_run_id s.
Proof.
  unfold logging.addHandler, bind, gets.
  case_bool_decide as Hin.
  - exists s. by split_and!.
  - eexists. split; [reflexivity|]. rewrite lookup_logger_store. simpl.
    split_and!; try done.
    intros lg' Hne. unfold logging.lookup_logger. simpl.
    by rewrite lookup_insert_ne.
Qed.

Lemma remove_first_snoc (h : href) (l : list href) :
  h ∉ l → logging.remove_first h (l ++ [h]) = l.
Proof.
  induction l as [|x l IH]; simpl.
  { intros _. by rewrite bool_decide_eq_true_2. }
  intros [Hx Hl]%not_elem_of_cons.
  rewrite bool_decide_eq_false_2 by done. by rewrite IH.
Qed.

(** The fresh-name path of [add_console_handler], step by step. *)
Lemma add_console_handler_fresh_eval (st : State) (self : ref) (o : LoggerObj)
    (lg : string) (hs : gmap string href) (h : string) (level : Z)
    (format : string) :
  heap st !! self = Some o →
  logger o = Some lg →
  handlers o = Some hs →
  hs !! h = None →
  logging.valid_format format = true →
  let hnew := fresh (dom (hheap st)) in
  ∃ st', Logger.add_console_handler self h level format st = (Ok tt, st')
    ∧ heap st' = <[self := mkLoggerObj (logger o) (_initialized o)
                     (Some (<[h := hnew]> hs)) (name o)
                     (log_file_defaullt_dir o) (date_dir o) (run_dir o)]> (heap st)
    ∧ hheap st' = <[hnew := mkHandler Console level (Some format) true]> (hheap st)
    ∧ py_handlers (logging.lookup_logger st' lg)
      = (if bool_decide (hnew ∈ py_handlers (logging.lookup_logger st lg))
         then py_handlers (logging.lookup_logger st lg)
         else py_handlers (logging.lookup_logger st lg) ++ [hnew])
    ∧ py_level (logging.lookup_logger st' lg)
      = py_level (logging.lookup_logger st lg)
    ∧ (∀ lg', lg' ≠ lg →
         logging.lookup_logger st' lg' = logging.lookup_logger st lg')
    ∧ fs st' = fs st ∧ instances st' = instances st ∧ trace st' = trace st
    ∧ cls_run_id st' = cls_run_id st.
Proof.
  intros Hself Hlogger Hhandlers Hh Hvalid. cbv zeta.
  unfold Logger.add_console_handler.
  step_with ltac:(by eapply handler_exists_Ok).
  rewrite Hh, bool_decide_eq_false_2 by by intros [??].
  step_with ltac:(reflexivity).
  unfold logging.setFormatter, logging.Handler_setLevel. rewrite Hvalid.
  step_with ltac:(apply update_handler_Ok; simpl; apply lookup_insert_eq).
  step_with ltac:(apply update_handler_Ok; simpl; apply lookup_insert_eq).
  unfold Logger.handlers_setitem.
  step_with ltac:(step_attr; unfold Obj.set_handlers; apply update_Ok; heap_lookup).
  erewrite bind_Ok; [|eapply getattr_Ok; [heap_lookup|exact Hlogger]].
  match goal with
  | |- context [logging.addHandler ?l ?x ?s] =>
      destruct (addHandler_appends l x s)
        as (s' & Hadd & Hlist & Hlvl & Hother & Hheap & Hhheap & Hfs & Hinst
            & Htrace & Hcls)
  end.
  exists s'. split; [exact Hadd|].
  rewrite Hheap, Hhheap, Hfs, Hinst, Htrace, Hcls, Hlist, Hlvl. simpl.
  rewrite !insert_insert_eq. split_and!; try done.
Qed.

(** The present-name path of [remove_handler], with what it leaves alone. *)
Lemma remove_handler_present_eval (st : State) (self : ref) (o : LoggerObj)
    (lg : string) (hs : gmap string href) (k : string) (h : href) :
  heap st !! self = Some o →
  logger o = Some lg →
  handlers o = Some hs →
  hs !! k = Some h →
  ∃ st', Logger.remove_handler self k st = (Ok tt, st')
    ∧ heap st' = <[self := mkLoggerObj (logger o) (_initialized o)
                     (Some (delete k hs)) (name o) (log_file_defaullt_dir o)
                     (date_dir o) (run_dir o)]> (heap st)
    ∧ py_handlers (logging.lookup_logger st' lg)
      = logging.remove_first h (py_handlers (logging.lookup_logger st lg))
    ∧ py_level (logging.lookup_logger st' lg)
      = py_level (logging.lookup_logger st lg)
    ∧ (∀ lg', lg' ≠ lg →
         logging.lookup_logger st' lg' = logging.lookup_logger st lg')
    ∧ hheap st' = hheap st ∧ trace st' = trace st ∧ fs st' = fs st
    ∧ instances st' = instances st ∧ cls_run_id st' = cls_run_id st.
Proof.
  intros Hself Hlogger Hhandlers Hk. unfold Logger.remove_handler.
  step_with ltac:(by eapply handler_exists_Ok).
  rewrite Hk, bool_decide_eq_true_2 by eauto.
  step_attr.
  step_with ltac:(unfold Logger.handlers_getitem; step_attr; rewrite Hk;
                  reflexivity).
  destruct (removeHandler_eval lg h st)
    as (st1 & Hrun & Hhs & Hlvl & Hother & Hheap & Hhheap & Hfs & Hinst
        & Htrace & Hcls).
  step_with ltac:(exact Hrun).
  unfold Logger.handlers_delitem.
  erewrite bind_Ok; [|eapply getattr_Ok; [by rewrite Hheap|done]].
  rewrite Hk. unfold Obj.set_handlers.
  erewrite update_Ok by by rewrite Hheap.
  eexists. split; [reflexivity|]. simpl.
  rewrite Hheap. by split_and!.
Qed.

Lemma PyLogger_eq (a b : PyLogger) :
  py_level a = py_level b → py_handlers a = py_handlers b → a = b.
Proof. destruct a, b. simpl. by intros -> ->. Qed.

Lemma LoggerObj_eta (o : LoggerObj) :
  mkLoggerObj (logger o) (_initialized o) (handlers o) (name o)
              (log_file_defaullt_dir o) (date_dir o) (run_dir o) = o.
Proof. by destruct o. Qed.

End HandlerSteps.

Section ConsoleHandlers.

Context (st : State) (self : ref) (o : LoggerObj).
Context (lg : string) (hs : gmap string href).
Hypothesis Hself : heap st !! self = Some o.
Hypothesis Hlogger : logger o = Some lg.
Hypothesis Hhandlers : handlers o = Some hs.
(** The handlers attached to the Logger's logger are handler objects. *)
Hypothesis Hlive :
  Forall (fun x => is_Some (hheap st !! x))
         (py_handlers (logging.lookup_logger st lg)).

Lemma fresh_handler_not_attached :
  fresh (dom (hheap st)) ∉ py_handlers (logging.lookup_logger st lg).
Proof.
  intros Hin. rewrite Forall_forall in Hlive. apply Hlive in Hin.
  apply elem_of_dom in Hin. by apply is_fresh in Hin.
Qed.

(** X1. [add_console_handler] under a name the Logger does not hold, with
    a format that [logging.Formatter] accepts, makes one new console
    handler object with the given level and format, stores it under that
    name and attaches it behind the handlers the Logger's logger already
    has.  The other Logger objects, the other loggers, the existing handler
    objects, the file system, the registry and the trace are as before:
    nothing is logged. *)
Theorem X1_add_console_handler_registers_new_handler
    (h : string) (level : Z) (format : string) :
  hs !! h = None →
  logging.valid_format format = true →
  ∃ st' hnew,
    Logger.add_console_handler self h level format st = (Ok tt, st')
    ∧ hheap st !! hnew = None
    ∧ hheap st' = <[hnew := mkHandler Console level (Some format) true]> (hheap st)
    ∧ handlers_of st' self = Some (<[h := hnew]> hs)
    ∧ py_handlers (logging.lookup_logger st' lg)
      = py_handlers (logging.lookup_logger st lg) ++ [hnew]
    ∧ (∀ lg', lg' ≠ lg →
         logging.lookup_logger st' lg' = logging.lookup_logger st lg')
    ∧ (∀ r, r ≠ self → heap st' !! r = heap st !! r)
    ∧ fs st' = fs st ∧ instances st' = instances st ∧ trace st' = trace st.
Proof.
  intros Hh Hvalid.
  destruct (add_console_handler_fresh_eval st self o lg hs h level format
              Hself Hlogger Hhandlers Hh Hvalid)
    as (st' & Hrun & Hheap & Hhheap & Hlist & _ & Hother & Hfs & Hinst
        & Htrace & _).
  exists st', (fresh (dom (hheap st))). split; [done|].
  rewrite bool_decide_eq_false_2 in Hlist by apply fresh_handler_not_attached.
  split_and!; try done.
  - apply not_elem_of_dom, is_fresh.
  - unfold handlers_of. by rewrite Hheap, lookup_insert_eq.
  - intros r Hr. by rewrite Hheap, lookup_insert_ne.
Qed.

(** X2. Adding a console handler under a fresh name, with a format that
    [logging.Formatter] accepts, and removing it again by that name
    restores the Logger: the Logger objects, the handler list and level of
    every logger, the file system, the registry and the trace are exactly
    as before the two calls.  What stays behind is the handler object
    itself, still open: [remove_handler] does not close it. *)
Theorem X2_add_then_remove_console_handler_restores_logger
    (h : string) (level : Z) (format : string) :
  hs !! h = None →
  logging.valid_format format = true →
  ∃ st1 st2 hnew,
    Logger.add_console_handler self h level format st = (Ok tt, st1)
    ∧ Logger.remove_handler self h st1 = (Ok tt, st2)
    ∧ heap st2 = heap st
    ∧ (∀ lg', logging.lookup_logger st2 lg' = logging.lookup_logger st lg')
    ∧ fs st2 = fs st ∧ instances st2 = instances st ∧ trace st2 = trace st
    ∧ hheap st !! hnew = None
    ∧ hheap st2 = <[hnew := mkHandler Console level (Some format) true]> (hheap st).
Proof.
  intros Hh Hvalid.
  destruct (add_console_handler_fresh_eval st self o lg hs h level format
              Hself Hlogger Hhandlers Hh Hvalid)
    as (st1 & Hrun1 & Hheap1 & Hhheap1 & Hlist1 & Hlvl1 & Hother1 & Hfs1
        & Hinst1 & Htrace1 & _).
  rewrite bool_decide_eq_false_2 in Hlist1 by apply fresh_handler_not_attached.
  pose proof fresh_handler_not_attached as Hnot.
  set (hnew := fresh (dom (hheap st))) in *.
  edestruct (remove_handler_present_eval st1 self
               (mkLoggerObj (logger o) (_initialized o) (Some (<[h := hnew]> hs))
                  (name o) (log_file_defaullt_dir o) (date_dir o) (run_dir o))
               lg (<[h := hnew]> hs) h hnew)
    as (st2 & Hrun2 & Hheap2 & Hlist2 & Hlvl2 & Hother2 & Hhheap2 & Htrace2
        & Hfs2 & Hinst2 & _);
    [by rewrite Hheap1, lookup_insert_eq|exact Hlogger|reflexivity
    |apply lookup_insert_eq|].
  exists st1, st2, hnew. split; [done|]. split; [done|].
  split_and!.
  - rewrite Hheap2, Hheap1, insert_insert_eq. simpl.
    rewrite delete_insert_id by done. rewrite <- Hhandlers, LoggerObj_eta.
    by apply insert_id.
  - intros lg'. destruct (decide (lg' = lg)) as [->|Hne].
    + apply PyLogger_eq; [congruence|].
      rewrite Hlist2, Hlist1. by apply remove_first_snoc.
    + by rewrite Hother2, Hother1.
  - congruence.
  - congruence.
  - congruence.
  - apply not_elem_of_dom, is_fresh.
  - congruence.
Qed.

End ConsoleHandlers.


(** ** Handlers shared between Loggers *)

Section SharedHandlers.

Context (st : State) (self : ref) (o : LoggerObj).
Context (lg : string) (hs : gmap string href).
Hypothesis Hself : heap st !! self = Some o.
Hypothesis Hlogger : logger o = Some lg.
Hypothesis Hhandlers : handlers o = Some hs.

(** [join_handler] when both lookups succeed, step by step. *)
Lemma join_handler_eval
    (other k : string) (r' : ref) (o' : LoggerObj) (hs' : gmap string href)
    (h' : href) :
  instances st !! other = Some r' →
  heap st !! r' = Some o' →
  handlers o' = Some hs' →
  hs' !! k = Some h' →
  ∃ st', Logger.join_handler self other k st = (Ok tt, st')
    ∧ heap st' = <[self := mkLoggerObj (logger o) (_initialized o)
                     (Some (<[k := h']> hs)) (name o) (log_file_defaullt_dir o)
                     (date_dir o) (run_dir o)]> (heap st)
    ∧ h' ∈ py_handlers (logging.lookup_logger st' lg)
    ∧ hheap st' = hheap st ∧ trace st' = trace st ∧ fs st' = fs st
    ∧ instances st' = instances st.
Proof.
  intros Hother Hr' Hhs' Hk. unfold Logger.join_handler.
  step_with ltac:(reflexivity). rewrite Hother.
  step_with ltac:(reflexivity).
  step_with ltac:(unfold Logger.handlers_getitem; step_attr; rewrite Hk;
                  reflexivity).
  unfold Logger.handlers_setitem.
  step_with ltac:(step_attr; unfold Obj.set_handlers; apply update_Ok;
                  heap_lookup).
  step_attr.
  match goal with
  | |- context [logging.addHandler ?l ?x ?s] =>
      destruct (addHandler_eval l x s)
        as (s' & Hadd & Hin & _ & _ & Hheap & Hhheap & Hfs & Hinst & Htrace & _)
  end.
  exists s'. split; [exact Hadd|].
  rewrite Hheap, Hhheap, Htrace, Hfs, Hinst. by split_and!.
Qed.

(** X3. [join_handler] shares the handler object itself, not a copy.  After
    [self.join_handler(other, k)] the mapping of [self] holds under [k] the
    very object the other Logger holds under [k], the other Logger's
    mapping is untouched, and no handler object was made.  So a
    [set_handler_level] through [self] changes the level of the one object
    both Loggers write to. *)
Theorem X3_joined_handler_is_one_shared_object
    (other k : string) (r' : ref) (o' : LoggerObj) (hs' : gmap string href)
    (h' : href) (hd : Handler) (level : Z) :
  instances st !! other = Some r' →
  heap st !! r' = Some o' →
  handlers o' = Some hs' →
  hs' !! k = Some h' →
  hheap st !! h' = Some hd →
  self ≠ r' →
  ∃ st1 st2,
    Logger.join_handler self other k st = (Ok tt, st1)
    ∧ hheap st1 = hheap st
    ∧ handlers_of st1 self = Some (<[k := h']> hs)
    ∧ handlers_of st1 r' = Some hs'
    ∧ h' ∈ py_handlers (logging.lookup_logger st1 lg)
    ∧ Logger.set_handler_level self k level st1 = (Ok tt, st2)
    ∧ handlers_of st2 self ≫= (.!! k) = Some h'
    ∧ handlers_of st2 r' ≫= (.!! k) = Some h'
    ∧ hheap st2 = <[h' := mkHandler (h_target hd) level (h_formatter hd)
                                    (h_open hd)]> (hheap st).
Proof.
  intros Hother Hr' Hhs' Hk Hhd Hne.
  destruct (join_handler_eval other k r' o' hs' h' Hother Hr' Hhs' Hk)
    as (st1 & Hrun1 & Hheap1 & Hin1 & Hhheap1 & _).
  assert (handlers_of st1 self = Some (<[k := h']> hs)) as Hs1.
  { unfold handlers_of. by rewrite Hheap1, lookup_insert_eq. }
  assert (handlers_of st1 r' = Some hs') as Hr1.
  { unfold handlers_of. rewrite Hheap1, lookup_insert_ne by done.
    by rewrite Hr'. }
  assert (Logger.set_handler_level self k level st1
          = (Ok tt, set_hheap (<[h' := mkHandler (h_target hd) level
                                         (h_formatter hd) (h_open hd)]>
                                 (hheap st1)) st1)) as Hrun2.
  { assert (heap st1 !! self
            = Some (mkLoggerObj (logger o) (_initialized o)
                      (Some (<[k := h']> hs)) (name o) (log_file_defaullt_dir o)
                      (date_dir o) (run_dir o))) as Hself1.
    { by rewrite Hheap1, lookup_insert_eq. }
    unfold Logger.set_handler_level.
    erewrite bind_Ok; [|exact (handler_exists_Ok _ _ _ _ k Hself1 eq_refl)].
    rewrite lookup_insert_eq, bool_decide_eq_true_2 by eauto.
    erewrite bind_Ok;
      [|unfold Logger.handlers_getitem;
        erewrite bind_Ok; [|exact (getattr_Ok _ _ _ _ _ _ Hself1 eq_refl)];
        rewrite lookup_insert_eq; reflexivity].
    unfold logging.Handler_setLevel, logging.update_handler.
    by rewrite Hhheap1, Hhd. }
  eexists st1, _. split; [done|]. split; [done|]. split; [done|].
  split; [done|]. split; [done|]. split; [exact Hrun2|].
  unfold handlers_of in *. simpl. split_and!.
  - rewrite Hheap1, lookup_insert_eq. simpl. apply lookup_insert_eq.
  - rewrite Hheap1, lookup_insert_ne by done. rewrite Hr'. simpl.
    by rewrite Hhs'.
  - by rewrite Hhheap1.
Qed.

(** X11. Removing a handler that another Logger holds too.  Let the
    handler that [self] holds under [k] also be held by another Logger
    object, under whatever name, and be attached to that Logger's logger;
    let the logger of [self] hold no handler twice, as [addHandler] keeps
    it.  Then [remove_handler] takes [k] out of the mapping of [self] and
    detaches the handler from the logger of [self]; the handler object and
    every other Logger object are untouched, so the other Logger still
    holds the handler under its name.  The other Logger's logger keeps the
    handler attached exactly when it is a different logger, and is then
    unchanged altogether; two Loggers on one logger, as those of the names
    [""] and ["root"], lose it together. *)
Theorem X11_remove_handler_leaves_other_logger_attached
    (k k' : string) (h : href) (r' : ref) (o' : LoggerObj) (lg' : string)
    (hs' : gmap string href) :
  hs !! k = Some h →
  r' ≠ self →
  heap st !! r' = Some o' →
  logger o' = Some lg' →
  handlers o' = Some hs' →
  hs' !! k' = Some h →
  h ∈ py_handlers (logging.lookup_logger st lg') →
  NoDup (py_handlers (logging.lookup_logger st lg)) →
  ∃ st', Logger.remove_handler self k st = (Ok tt, st')
    ∧ handlers_of st' self = Some (delete k hs)
    ∧ handlers_of st' r' ≫= (.!! k') = Some h
    ∧ (h ∉ py_handlers (logging.lookup_logger st' lg))
    ∧ (h ∈ py_handlers (logging.lookup_logger st' lg') ↔ lg' ≠ lg)
    ∧ (lg' ≠ lg → logging.lookup_logger st' lg' = logging.lookup_logger st lg')
    ∧ hheap st' = hheap st
    ∧ (∀ r, r ≠ self → heap st' !! r = heap st !! r).
Proof.
  intros Hk Hne Hr' _ Hhs' Hk' Hin Hnd.
  destruct (remove_handler_present_eval st self o lg hs k h
              Hself Hlogger Hhandlers Hk)
    as (st' & Hrun & Hheap & Hlist & _ & Hother & Hhheap & _).
  assert (h ∉ py_handlers (logging.lookup_logger st' lg)) as Hgone.
  { rewrite Hlist. by apply remove_first_NoDup. }
  exists st'. split; [done|]. split; [|split; [|split; [done|split]]].
  - unfold handlers_of. by rewrite Hheap, lookup_insert_eq.
  - unfold handlers_of. rewrite Hheap, lookup_insert_ne by done.
    rewrite Hr'. simpl. by rewrite Hhs'.
  - split.
    + intros Hin' ->. by apply Hgone.
    + intros Hlg. by rewrite Hother.
  - split; [exact (Hother lg')|]. split; [done|].
    intros r Hr. by rewrite Hheap, lookup_insert_ne.
Qed.

End SharedHandlers.



(** ** Making, deleting and making again *)

Section ConstructionSteps.

(** [__init__] on an object that is not marked initialized, in one
    equation: the attributes are set before the directory is made, the
    mark only after. *)
Lemma init_eval (self : ref) (n d : string) (s : State) (o : LoggerObj) :
  heap s !! self = Some o →
  _initialized o ≠ Some true →
  let base := Path.join (cwd s) d in
  Logger.__init__ self n d s
  = match FS.ensure_dir (fs s) (Path.resolve base) with
    | Ok m =>
        (Ok tt,
         set_heap (<[self := mkLoggerObj (logger o) (Some true) (Some ∅)
                               (Some n) (Some base) (date_dir o) (run_dir o)]>
                     (heap s)) (set_fs m s))
    | Raise e =>
        (Raise e,
         set_heap (<[self := mkLoggerObj (logger o) (_initialized o) (Some ∅)
                               (Some n) (Some base) (date_dir o) (run_dir o)]>
                     (heap s)) s)
    end.
Proof.
  intros Hself Hinit. cbv zeta. unfold Logger.__init__.
  step_with ltac:(by apply deref_Ok).
  rewrite bool_decide_eq_false_2 by done.
  unfold Obj.set_handlers, Obj.set_name, Obj.set_log_file_defaullt_dir,
    Obj.set_initialized.
  step_with ltac:(by apply update_Ok).
  step_with ltac:(apply update_Ok; simpl; apply lookup_insert_eq).
  step_with ltac:(reflexivity).
  step_with ltac:(apply update_Ok; simpl; apply lookup_insert_eq).
  erewrite bind_Ok;
    [|eapply getattr_Ok; [simpl; apply lookup_insert_eq|reflexivity]].
  erewrite ensure_dir_step; [|simpl; apply lookup_insert_eq|reflexivity].
  simpl. rewrite !insert_insert_eq.
  destruct (FS.ensure_dir (fs s) _) as [m|e]; [|done].
  erewrite update_Ok by (simpl; apply lookup_insert_eq).
  simpl. by rewrite insert_insert_eq.
Qed.



(** [__new__] for a name that is not registered, field by field. *)
Lemma new_fresh_eval (n d : string) (st : State) :
  instances st !! n = None →
  let r := fresh (dom (heap st)) in
  let key := logging.key_of n in
  ∃ s0, Logger.__new__ n d st = (Ok r, s0)
    ∧ heap s0 = <[r := mkLoggerObj (Some key) None None None None None None]>
                  (heap st)
    ∧ instances s0 = <[n := r]> (instances st)
    ∧ cls_run_id s0 = Some (run_id_after_new st)
    ∧ logging.lookup_logger s0 key
      = mkPyLogger logging.DEBUG (py_handlers (logging.lookup_logger st key))
    ∧ (∀ lg', lg' ≠ key →
         logging.lookup_logger s0 lg' = logging.lookup_logger st lg')
    ∧ hheap s0 = hheap st ∧ fs s0 = fs st ∧ cwd s0 = cwd st
    ∧ trace s0 = trace st.
Proof.
  intros Hn. cbv zeta. unfold Logger.__new__.
  step_with ltac:(reflexivity). rewrite Hn.
  step_with ltac:(reflexivity).
  step_with ltac:(reflexivity).
  unfold Obj.set_logger.
  step_with ltac:(apply update_Ok; simpl; apply lookup_insert_eq).
  erewrite bind_Ok;
    [|eapply getattr_Ok; [simpl; apply lookup_insert_eq|reflexivity]].
  step_with ltac:(reflexivity).
  step_with ltac:(reflexivity). simpl.
  unfold run_id_after_new.
  destruct (cls_run_id st) as [rid|] eqn:Hrid.
  - step_with ltac:(reflexivity). step_with ltac:(reflexivity).
    eexists. split; [reflexivity|].
    unfold logging.lookup_logger. simpl.
    rewrite insert_insert_eq, !lookup_insert_eq. simpl.
    split_and!; try done.
    intros lg' Hne. by rewrite !lookup_insert_ne.
  - step_with ltac:(reflexivity). step_with ltac:(reflexivity).
    eexists. split; [reflexivity|].
    unfold logging.lookup_logger. simpl.
    rewrite insert_insert_eq, !lookup_insert_eq. simpl.
    split_and!; try done.
    intros lg' Hne. by rewrite !lookup_insert_ne.
Qed.

End ConstructionSteps.

Section MakingLoggers.

Context (n d : string) (st : State).
Hypothesis Hnew_name : instances st !! n = None.

(** [Logger(n, d)] for a new name, in both outcomes of making the base
    directory. *)
Lemma call_new_eval :
  let r := fresh (dom (heap st)) in
  let key := logging.key_of n in
  let base := Path.join (cwd st) d in
  ∃ st1,
    Logger.__call__ n d st
    = (match FS.ensure_dir (fs st) (Path.resolve base) with
       | Ok _ => Ok r
       | Raise e => Raise e
       end, st1)
    ∧ heap st1
      = <[r := mkLoggerObj (Some key)
                 (match FS.ensure_dir (fs st) (Path.resolve base) with
                  | Ok _ => Some true
                  | Raise _ => None
                  end)
                 (Some ∅) (Some n) (Some base) None None]> (heap st)
    ∧ fs st1 = match FS.ensure_dir (fs st) (Path.resolve base) with
               | Ok m => m
               | Raise _ => fs st
               end
    ∧ instances st1 = <[n := r]> (instances st)
    ∧ cls_run_id st1 = Some (run_id_after_new st)
    ∧ logging.lookup_logger st1 key
      = mkPyLogger logging.DEBUG (py_handlers (logging.lookup_logger st key))
    ∧ (∀ lg', lg' ≠ key →
         logging.lookup_logger st1 lg' = logging.lookup_logger st lg')
    ∧ hheap st1 = hheap st ∧ cwd st1 = cwd st ∧ trace st1 = trace st.
Proof.
  cbv zeta.
  destruct (new_fresh_eval n d st Hnew_name)
    as (s0 & Hnew & Hheap0 & Hinst0 & Hrid0 & Hlg0 & Hother0 & Hhheap0 & Hfs0
        & Hcwd0 & Htrace0).
  unfold Logger.__call__. step_with ltac:(exact Hnew).
  unfold bind at 1.
  erewrite init_eval; [|by rewrite Hheap0, lookup_insert_eq|done].
  cbv zeta. rewrite Hfs0, Hcwd0, Hheap0.
  destruct (FS.ensure_dir (fs st) _) as [m|e].
  - eexists. split; [reflexivity|]. simpl.
    rewrite insert_insert_eq. by split_and!.
  - eexists. split; [reflexivity|]. simpl.
    rewrite insert_insert_eq. by split_and!.
Qed.

(** X5. The class generates its run identifier once.  A request for a new
    name leaves an identifier that is already set as it is, whether the
    request returns or raises; only when none is set does it generate one,
    from two readings of the clock, and that identifier is one path
    component of 17 characters, [YYYY-MM-DD_HHMMSS]. *)
Theorem X5_run_id_is_generated_once :
  cls_run_id (snd (Logger.__call__ n d st)) = Some (run_id_after_new st)
  ∧ (∀ rid, cls_run_id st = Some rid →
            cls_run_id (snd (Logger.__call__ n d st)) = Some rid)
  ∧ (cls_run_id st = None →
       run_id_after_new st
       = datetime.strftime_Ymd (clock st (ticks st)) +:+ "_"
         +:+ datetime.strftime_HMS (clock st (S (ticks st)))
       ∧ Path.component (run_id_after_new st) = true
       ∧ String.length (run_id_after_new st) = 17%nat).
Proof.
  destruct call_new_eval as (st1 & Hrun & _ & _ & _ & Hrid & _).
  rewrite Hrun. simpl. split; [done|]. split.
  - intros rid Hset. rewrite Hrid. unfold run_id_after_new. by rewrite Hset.
  - intros Hunset. unfold run_id_after_new. rewrite Hunset.
    split; [done|]. split; [apply datetime_stamp_component|reflexivity].
Qed.



End MakingLoggers.

Section CurrentDirectory.





End CurrentDirectory.



(** ** Clearing the log directories *)


Section ClearingAll.

Context (st : State) (self : ref) (o : LoggerObj) (base : string).
Hypothesis Hself : heap st !! self = Some o.
Hypothesis Hbase : log_file_defaullt_dir o = Some base.
Hypothesis Hwf : FS.well_formed (fs st) = true.

(** The loop of [clear_all_logs] over names of entries of the directory,
    each once and in any order. *)
Lemma clear_all_logs_loop (todo : list string) :
  ∀ (seen : list string) (m : gmap (list string) node),
    cleared (fs st) (Path.resolve base) seen m →
    NoDup (seen ++ todo) →
    (∀ c, c ∈ todo → is_Some (fs st !! (Path.resolve base ++ [c]))) →
    ∃ m',
      for_each todo (fun directory =>
        base'' <- Obj.getattr "log_file_defaullt_dir" log_file_defaullt_dir self ;;
        let directory_path := Path.join base'' directory in
        isdir <- os.path_isdir directory_path ;;
        if isdir then shutil.rmtree directory_path
        else os.remove directory_path) (set_fs m st)
      = (Ok tt, set_fs m' st)
      ∧ cleared (fs st) (Path.resolve base) (seen ++ todo) m'.
Proof.
  unfold cleared.
  induction todo as [|c todo IH]; intros seen m Hm Hnd Hin.
  { exists m. split; [done|]. by rewrite app_nil_r. }
  set (b := Path.resolve base) in *.
  destruct (Hin c) as [n Hn]; [by left|].
  assert (Path.component c = true) as Hc.
  { destruct (well_formed_entry _ _ _ Hwf Hn) as [Hall _].
    rewrite forallb_app in Hall. apply andb_true_iff in Hall as [_ Hall].
    simpl in Hall. by rewrite andb_true_r in Hall. }
  assert (Path.resolve (Path.join base c) = b ++ [c]) as Hres.
  { by apply resolve_join_component. }
  assert (c ∉ seen) as Hfresh.
  { intros Hs. apply NoDup_app in Hnd as (_ & Hnd & _).
    apply (Hnd c Hs). by left. }
  assert (m !! (b ++ [c]) = Some n) as Hmc.
  { rewrite Hm, bool_decide_eq_false_2; [done|].
    intros (c' & Hc' & Hpre)%Exists_exists.
    apply child_prefix_inv in Hpre. by subst c'. }
  assert (∃ m1, (base'' <- Obj.getattr "log_file_defaullt_dir"
                              log_file_defaullt_dir self ;;
                 let directory_path := Path.join base'' c in
                 isdir <- os.path_isdir directory_path ;;
                 if isdir then shutil.rmtree directory_path
                 else os.remove directory_path) (set_fs m st)
                = (Ok tt, set_fs m1 st)
                ∧ cleared (fs st) b (seen ++ [c]) m1) as (m1 & Hrun & Hm1).
  { step_attr. cbv zeta. step_with ltac:(reflexivity).
    change (fs (set_fs m st)) with m. rewrite Hres.
    assert (FS.is_dir m (b ++ [c]) = bool_decide (n = Dir)) as ->.
    { unfold FS.is_dir. destruct (b ++ [c]) eqn:E; [by destruct b|].
      rewrite Hmc. apply bool_decide_ext. split; congruence. }
    destruct n as [|content].
    - rewrite bool_decide_eq_true_2 by done.
      destruct (rmtree_spec _ _ Hmc) as (m1 & Hrm & Hlook).
      exists m1. split.
      { unfold shutil.rmtree, fs_step. change (fs (set_fs m st)) with m.
        by rewrite Hres, Hrm. }
      intros q. rewrite Hlook, Hm.
      destruct (decide ((b ++ [c]) `prefix_of` q)) as [Hq|Hq].
      + rewrite bool_decide_eq_true_2 by done.
        rewrite bool_decide_eq_true_2; [done|].
        apply Exists_app. right. by apply Exists_cons_hd.
      + rewrite (bool_decide_eq_false_2 _ Hq).
        apply (f_equal (λ x : bool, if x then None else fs st !! q)).
        apply bool_decide_ext. rewrite Exists_app, Exists_cons, Exists_nil.
        tauto.
    - rewrite bool_decide_eq_false_2 by done.
      exists (delete (b ++ [c]) m). split.
      { unfold os.remove, fs_step, FS.remove.
        change (fs (set_fs m st)) with m. by rewrite Hres, Hmc. }
      intros q. destruct (decide (q = b ++ [c])) as [->|Hq].
      + rewrite lookup_delete_eq, bool_decide_eq_true_2; [done|].
        apply Exists_app. right. by apply Exists_cons_hd.
      + rewrite lookup_delete_ne by done. rewrite Hm.
        destruct (decide ((b ++ [c]) `prefix_of` q)) as [Hpre|Hpre].
        * rewrite (bool_decide_eq_true_2 (Exists _ (seen ++ [c])));
            [|apply Exists_app; right; by apply Exists_cons_hd].
          case_bool_decide; [done|].
          destruct (fs st !! q) as [n'|] eqn:Hn'; [|done].
          destruct (well_formed_entry _ _ _ Hwf Hn') as [_ Habove].
          rewrite Habove in Hn; [done|by destruct b|done|done].
        * apply (f_equal (λ x : bool, if x then None else fs st !! q)).
          apply bool_decide_ext. rewrite Exists_app, Exists_cons, Exists_nil.
          tauto. }
  destruct (IH (seen ++ [c]) m1 Hm1) as (m' & Hloop & Hm').
  { by rewrite <- app_assoc. }
  { intros c' Hc'. apply Hin. by right. }
  exists m'. split.
  - simpl. erewrite bind_Ok; [|exact Hrun]. exact Hloop.
  - by rewrite <- app_assoc in Hm'.
Qed.

(** X10. [clear_all_logs] on a file system that is a tree of names a file
    system can hold, for a base directory that is an absolute path in
    normal form (no ["."], no [".."], no doubled separator) and short
    enough for the path of each of its entries to stay below [PATH_MAX].
    When the Logger's base directory is a directory, every entry below it
    is removed (directories with all they hold, regular files one by
    one), the base directory itself stays, and nothing else changes: no
    entry elsewhere, no Logger object, no handler object, no logger; the
    handlers that were writing below the directory stay registered and
    attached.  When the base path names a regular file the call raises
    [NotADirectoryError], and when it names nothing the call does
    nothing. *)
Theorem X10_clear_all_logs_empties_base_directory :
  Path.normalized base = true →
  Path.len base + 1 + Path.NAME_MAX < Path.PATH_MAX →
  FS.well_named (fs st) = true →
  if FS.is_dir (fs st) (Path.resolve base)
  then ∃ m, Logger.clear_all_logs self st = (Ok tt, set_fs m st)
            ∧ ∀ q, m !! q
                   = if bool_decide (Path.resolve base `prefix_of` q
                                     ∧ q ≠ Path.resolve base)
                     then None else fs st !! q
  else if FS.entry_exists (fs st) (Path.resolve base)
  then Logger.clear_all_logs self st = (Raise NotADirectoryError, st)
  else Logger.clear_all_logs self st = (Ok tt, st).
Proof.
  intros _ _ _. set (b := Path.resolve base).
  destruct (FS.is_dir (fs st) b) eqn:Hdir.
  - assert (FS.entry_exists (fs st) b = true) as Hex.
    { unfold FS.is_dir, FS.entry_exists in *. destruct b; [done|].
      apply bool_decide_eq_true in Hdir. apply bool_decide_eq_true. eauto. }
    destruct (clear_all_logs_loop (FS.children (fs st) b) [] (fs st))
      as (m & Hloop & Hm).
    { intros q. by rewrite bool_decide_eq_false_2 by by intros ?%Exists_nil. }
    { apply NoDup_children. }
    { intros c Hc. by apply elem_of_children. }
    unfold cleared in Hm. exists m. split.
    + unfold Logger.clear_all_logs.
      step_attr. step_with ltac:(reflexivity). fold b. rewrite Hex. simpl.
      step_attr.
      erewrite bind_Ok;
        [|unfold os.listdir, FS.listdir; fold b; rewrite Hdir; reflexivity].
      by rewrite set_fs_same in Hloop.
    + intros q. rewrite Hm. simpl.
      destruct (decide (b `prefix_of` q ∧ q ≠ b)) as [[Hpre Hne]|Hq].
      * rewrite (bool_decide_eq_true_2 (_ ∧ _)) by done.
        case_bool_decide as Hex'; [done|].
        destruct (fs st !! q) as [n|] eqn:Hn; [|done].
        destruct (strictly_below_inv _ _ Hpre Hne) as (c & rest & ->).
        exfalso. apply Hex'. apply Exists_exists. exists c.
        split; [|by apply prefix_app_r].
        apply elem_of_children.
        destruct (decide (rest = [])) as [->|Hrest].
        { rewrite app_nil_r in Hn. eauto. }
        destruct (well_formed_entry _ _ _ Hwf Hn) as [_ Habove].
        rewrite Habove; [eauto|by destruct b|by apply prefix_app_r|].
        intros H. apply (f_equal List.length) in H.
        rewrite !length_app in H. destruct rest; [done|]. simpl in H. lia.
      * rewrite (bool_decide_eq_false_2 (_ ∧ _)) by done.
        rewrite bool_decide_eq_false_2; [done|].
        intros (c & _ & Hpre)%Exists_exists. by apply below_child in Hpre.
  - destruct (FS.entry_exists (fs st) b) eqn:Hex.
    + unfold Logger.clear_all_logs.
      step_attr. step_with ltac:(reflexivity). fold b. rewrite Hex. simpl.
      step_attr.
      erewrite bind_Raise; [done|].
      unfold os.listdir, FS.listdir. fold b. rewrite Hdir.
      unfold FS.is_dir, FS.entry_exists, FS.is_file in *.
      destruct b as [|x b']; [done|].
      apply bool_decide_eq_true in Hex as [n Hn].
      apply bool_decide_eq_false in Hdir. rewrite Hn.
      destruct n; [done|reflexivity].
    + unfold Logger.clear_all_logs.
      step_attr. step_with ltac:(reflexivity). fold b. by rewrite Hex.
Qed.

End ClearingAll.

(** X9. [clear_todays_logs] on a Logger whose date directory is recorded
    as an absolute path in normal form (no ["."], no [".."], no doubled
    separator) that is shorter than [PATH_MAX], on a file system whose
    entries have names a file system can hold.  When that path is a
    directory it goes with everything below it, every other entry stays as
    it was, and the Logger objects, the handler objects and the loggers
    are untouched, so file handlers that write below the directory stay
    registered, attached and open.  A regular file at the path makes the
    call raise [NotADirectoryError]; a path that names nothing makes it do
    nothing. *)
Theorem X9_clear_todays_logs_removes_date_directory
    (st : State) (self : ref) (o : LoggerObj) (d : string) :
  heap st !! self = Some o →
  date_dir o = Some d →
  Path.normalized d = true →
  Path.len d < Path.PATH_MAX →
  FS.well_named (fs st) = true →
  match fs st !! Path.resolve d with
  | Some Dir =>
      ∃ st', Logger.clear_todays_logs self st = (Ok tt, st')
             ∧ (∀ q, fs st' !! q
                     = if bool_decide (Path.resolve d `prefix_of` q)
                       then None else fs st !! q)
             ∧ heap st' = heap st ∧ hheap st' = hheap st
             ∧ py_loggers st' = py_loggers st ∧ instances st' = instances st
             ∧ trace st' = trace st
  | Some (File _) =>
      Logger.clear_todays_logs self st = (Raise NotADirectoryError, st)
  | None =>
      Path.resolve d ≠ [] → Logger.clear_todays_logs self st = (Ok tt, st)
  end.
Proof.
  intros Hself Hd _ _ _. unfold Logger.clear_todays_logs.
  step_attr. step_with ltac:(reflexivity).
  destruct (fs st !! Path.resolve d) as [[|c]|] eqn:Hlook.
  - assert (FS.entry_exists (fs st) (Path.resolve d) = true) as ->.
    { unfold FS.entry_exists. destruct (Path.resolve d); [done|].
      apply bool_decide_eq_true. eauto. }
    destruct (rmtree_spec _ _ Hlook) as (m & Hrm & Hm).
    exists (set_fs m st). split; [|by split_and!].
    simpl. step_attr. unfold shutil.rmtree, fs_step. by rewrite Hrm.
  - assert (FS.entry_exists (fs st) (Path.resolve d) = true) as ->.
    { unfold FS.entry_exists. destruct (Path.resolve d); [done|].
      apply bool_decide_eq_true. eauto. }
    simpl. step_attr. unfold shutil.rmtree, fs_step, FS.rmtree.
    by rewrite Hlook.
  - intros Hne.
    assert (FS.entry_exists (fs st) (Path.resolve d) = false) as ->; [|done].
    unfold FS.entry_exists. destruct (Path.resolve d); [done|].
    apply bool_decide_eq_false. rewrite Hlook. by intros [??].
Qed.


(** ** Levels of handlers and of records *)

Section Levels.

Context (st : State) (self : ref) (o : LoggerObj).
Context (lg : string) (hs : gmap string href).
Hypothesis Hself : heap st !! self = Some o.
Hypothesis Hlogger : logger o = Some lg.
Hypothesis Hhandlers : handlers o = Some hs.

(** A record reaches a handler of the logger when the logger and the
    handler both let its level through. *)
Lemma emit_in_deliveries (s : State) (h : href) (levelno : Z) (msg : string) :
  EvEmit h levelno msg ∈ logging.deliveries s lg levelno msg
  ↔ py_level (logging.lookup_logger s lg) <= levelno
    ∧ h ∈ py_handlers (logging.lookup_logger s lg)
    ∧ ∃ hd, hheap s !! h = Some hd ∧ h_level hd <= levelno.
Proof.
  unfold logging.deliveries, logging.accepting.
  case_bool_decide as Hlv.
  - rewrite list_elem_of_In, in_map_iff. split.
    + intros (h' & [= ->] & Hin). apply filter_In in Hin as [Hin Hacc].
      apply list_elem_of_In in Hin. split; [done|]. split; [done|].
      destruct (hheap s !! h) as [hd|]; [|done].
      apply bool_decide_eq_true in Hacc. eauto.
    + intros (_ & Hin & hd & Hhd & Hle). exists h. split; [done|].
      apply filter_In. split; [by apply list_elem_of_In|].
      rewrite Hhd. by apply bool_decide_eq_true.
  - split; [by intros ?%elem_of_nil|]. by intros [? _].
Qed.

(** The methods of the class that log forward to the logger at their
    level. *)
Lemma log_method_eval (s : State) (levelno : Z) (msg : string) :
  heap s !! self = Some o →
  Logger.logger_log self levelno (ret msg) s
  = (Ok tt, set_trace (trace s ++ EvLog lg levelno msg
                         :: logging.deliveries s lg levelno msg) s).
Proof.
  intros Hs. by erewrite logger_log_Ok.
Qed.

(** X12. The level set with [set_handler_level] decides what the handler
    gets.  After [self.set_handler_level(k, level)] each of [debug],
    [info], [warn], [warning], [error] and [critical] hands one record of
    its own level to the logger, and the record reaches the handler under
    [k] exactly when both the logger's level and the new handler level let
    it through.  What any other handler gets is as before the call. *)
Theorem X12_handler_level_decides_delivery
    (k : string) (h : href) (hd : Handler) (level : Z) (msg : string) :
  hs !! k = Some h →
  hheap st !! h = Some hd →
  h ∈ py_handlers (logging.lookup_logger st lg) →
  ∃ st1,
    Logger.set_handler_level self k level st = (Ok tt, st1)
    ∧ Forall (λ '(method, levelno),
         method self msg st1
         = (Ok tt, set_trace (trace st1 ++ EvLog lg levelno msg
                                :: logging.deliveries st1 lg levelno msg) st1)
         ∧ (EvEmit h levelno msg ∈ logging.deliveries st1 lg levelno msg
            ↔ py_level (logging.lookup_logger st lg) <= levelno
              ∧ level <= levelno)
         ∧ ∀ h', h' ≠ h →
             (EvEmit h' levelno msg ∈ logging.deliveries st1 lg levelno msg
              ↔ EvEmit h' levelno msg ∈ logging.deliveries st lg levelno msg))
        [(Logger.debug, Logger.DEBUG); (Logger.info, Logger.INFO);
         (Logger.warn, Logger.WARNING); (Logger.warning, Logger.WARNING);
         (Logger.error, Logger.ERROR); (Logger.critical, Logger.CRITICAL)].
Proof.
  intros Hk Hhd Hin.
  set (st1 := set_hheap (<[h := mkHandler (h_target hd) level (h_formatter hd)
                                          (h_open hd)]> (hheap st)) st).
  assert (Logger.set_handler_level self k level st = (Ok tt, st1)) as Hrun.
  { unfold Logger.set_handler_level.
    erewrite bind_Ok; [|exact (handler_exists_Ok _ _ _ _ k Hself Hhandlers)].
    rewrite bool_decide_eq_true_2 by eauto.
    erewrite bind_Ok;
      [|unfold Logger.handlers_getitem; step_attr; rewrite Hk; reflexivity].
    unfold logging.Handler_setLevel, logging.update_handler.
    by rewrite Hhd. }
  assert (∀ levelno,
            (EvEmit h levelno msg ∈ logging.deliveries st1 lg levelno msg
             ↔ py_level (logging.lookup_logger st lg) <= levelno
               ∧ level <= levelno)
            ∧ ∀ h', h' ≠ h →
                (EvEmit h' levelno msg ∈ logging.deliveries st1 lg levelno msg
                 ↔ EvEmit h' levelno msg
                     ∈ logging.deliveries st lg levelno msg)) as Hemit.
  { intros levelno. split.
    - rewrite emit_in_deliveries.
      change (logging.lookup_logger st1 lg) with (logging.lookup_logger st lg).
      change (hheap st1) with (<[h := mkHandler (h_target hd) level
                                       (h_formatter hd) (h_open hd)]> (hheap st)).
      rewrite lookup_insert_eq. split.
      + intros (Hlv & _ & hd' & [= <-] & Hle). done.
      + intros [Hlv Hle]. split; [done|]. split; [done|]. eauto.
    - intros h' Hne. rewrite !emit_in_deliveries.
      change (logging.lookup_logger st1 lg) with (logging.lookup_logger st lg).
      change (hheap st1) with (<[h := mkHandler (h_target hd) level
                                       (h_formatter hd) (h_open hd)]> (hheap st)).
      by rewrite lookup_insert_ne. }
  exists st1. split; [exact Hrun|].
  repeat (constructor; [split; [by apply log_method_eval|apply Hemit]|]).
  constructor.
Qed.

End Levels.

(** ** Run identifiers as directory names *)

(** X13. The run identifier [compose_global_run_id] builds is the stamp,
    an underscore and the run name, 18 characters before the name; it can
    name a single directory exactly when the run name holds no path
    separator. *)
Theorem X13_run_id_is_component_iff_run_name_is
    (st : State) (run_name : string) :
  ∃ rid st',
    utils.compose_global_run_id run_name st = (Ok rid, st')
    ∧ rid = datetime.strftime_Ymd (clock st (ticks st)) +:+ "_"
            +:+ datetime.strftime_HMS (clock st (S (ticks st))) +:+ "_"
            +:+ run_name
    ∧ String.length rid = (18 + String.length run_name)%nat
    ∧ Path.component rid = Path.sep_free run_name
    ∧ ticks st' = S (S (ticks st)).
Proof.
  eexists _, _. split; [reflexivity|]. split.
  { by rewrite !append_assoc. }
  split_and!.
  - reflexivity.
  - unfold datetime.strftime_Ymd, datetime.strftime_HMS, datetime.pad4,
      datetime.pad2, Path.component.
    rewrite !append_cons. simpl. by rewrite !digit_not_sep.
  - reflexivity.
Qed.


(** ** What [add_file_handler] leaves behind, step by step *)

Section FileHandlerSteps.

Context (st : State) (self : ref) (o : LoggerObj).
Context (lg nm base rid : string) (hs : gmap string href).
Hypothesis Hself : heap st !! self = Some o.
Hypothesis Hlogger : logger o = Some lg.
Hypothesis Hname : name o = Some nm.
Hypothesis Hhandlers : handlers o = Some hs.
Hypothesis Hbase : log_file_defaullt_dir o = Some base.
Hypothesis Hrid : cls_run_id st = Some rid.

(** [add_file_handler] for a new handler name, in each of its five
    outcomes: the date directory cannot be made, the run directory cannot
    be made, the file cannot be opened, the format is refused, or the
    handler is added. *)
Lemma add_file_handler_fresh_steps (h : string) (level : Z) (format : string) :
  hs !! h = None →
  let date := datetime.strftime_Ymd (clock st (ticks st)) in
  let ddir := layout_date_dir base date in
  let rdir := layout_run_dir base date rid in
  let path := layout_file base date rid h in
  let hnew := fresh (dom (hheap st)) in
  let msg := "File handler " +:+ h +:+ " added to logger " +:+ nm
             +:+ " with path: " +:+ path in
  let s1 := set_heap (<[self := mkLoggerObj (logger o) (_initialized o) (handlers o)
                                  (name o) (log_file_defaullt_dir o) (Some ddir)
                                  (run_dir o)]> (heap st))
                     (set_ticks (S (ticks st)) st) in
  let s2 := set_heap (<[self := mkLoggerObj (logger o) (_initialized o) (handlers o)
                                  (name o) (log_file_defaullt_dir o) (Some ddir)
                                  (Some rdir)]> (heap st))
                     (set_ticks (S (ticks st)) st) in
  match FS.ensure_dir (fs st) (Path.resolve ddir) with
  | Raise e => Logger.add_file_handler self h level format st = (Raise e, s1)
  | Ok m1 =>
    match FS.ensure_dir m1 (Path.resolve rdir) with
    | Raise e =>
        Logger.add_file_handler self h level format st = (Raise e, set_fs m1 s2)
    | Ok m2 =>
      match FS.open_ m2 (Path.resolve path) "a" with
      | Raise e =>
          Logger.add_file_handler self h level format st
          = (Raise e, set_fs m2 s2)
      | Ok m3 =>
        if logging.valid_format format then
        ∃ st', Logger.add_file_handler self h level format st = (Ok tt, st')
          ∧ fs st' = m3
          ∧ hheap st' = <[hnew := mkHandler (FileTarget path "a" "utf-8") level
                                    (Some format) true]> (hheap st)
          ∧ py_handlers (logging.lookup_logger st' lg)
            = (if bool_decide (hnew ∈ py_handlers (logging.lookup_logger st lg))
               then py_handlers (logging.lookup_logger st lg)
               else py_handlers (logging.lookup_logger st lg) ++ [hnew])
          ∧ py_level (logging.lookup_logger st' lg)
            = py_level (logging.lookup_logger st lg)
          ∧ trace st' = trace st ++ EvLog lg logging.DEBUG msg
                          :: logging.deliveries st' lg logging.DEBUG msg
        else
        ∃ st', Logger.add_file_handler self h level format st
               = (Raise ValueError, st')
      end
    end
  end.
Proof.
  intros Hh. cbv zeta.
  unfold Logger.add_file_handler.
  step_with ltac:(by eapply handler_exists_Ok).
  rewrite Hh, bool_decide_eq_false_2 by by intros [??].
  step_with ltac:(unfold Logger.run_id, Logger._get_run_id, bind, gets;
                  rewrite Hrid; reflexivity).
  rewrite (create_run_id_dir_then self base _ st o rid Hself Hbase Hrid).
  cbv zeta.
  destruct (FS.ensure_dir (fs st) _) as [m1|e]; [|done].
  destruct (FS.ensure_dir m1 _) as [m2|e]; [|done].
  unfold layout_file.
  destruct (FS.open_ m2 _ "a") as [m3|e] eqn:Hopen;
    [destruct (logging.valid_format format) eqn:Hvalid|];
    unfold bind at 1; rewrite FileHandler_eval; simpl; rewrite Hopen;
    [|unfold logging.setFormatter; rewrite Hvalid; eexists; reflexivity
     |done].
  unfold logging.setFormatter, logging.Handler_setLevel. rewrite Hvalid.
  step_with ltac:(apply update_handler_Ok; simpl; apply lookup_insert_eq).
  step_with ltac:(apply update_handler_Ok; simpl; apply lookup_insert_eq).
  unfold Logger.handlers_setitem.
  step_with ltac:(step_attr; unfold Obj.set_handlers; apply update_Ok; heap_lookup).
  step_attr.
  match goal with
  | |- context [bind (logging.addHandler ?l ?x) _ ?s] =>
      destruct (addHandler_appends l x s)
        as (s' & Hadd & Hpy & Hlv & _ & Hheap & Hhheap & Hfs & Hinst & Htrace & Hcls)
  end.
  step_with ltac:(exact Hadd).
  erewrite bind_Ok; [|eapply getattr_Ok; [rewrite Hheap; heap_lookup|exact Hname]].
  unfold Logger.debug.
  erewrite logger_log_Ok; [| rewrite Hheap; heap_lookup | exact Hlogger | reflexivity].
  eexists. split; [reflexivity|]. simpl.
  rewrite Hfs, Hhheap, Htrace. simpl.
  rewrite !insert_insert_eq.
  by split_and!.
Qed.

(** X14. A file handler is told of its own addition.  When
    [add_file_handler] has added a handler under a new name, the trace has
    grown by exactly one record, logged at [DEBUG] on the Logger's logger
    after the handler was attached, with the text [File handler <name>
    added to logger <logger name> with path: <file>].  The new handler
    receives that record exactly when the logger's level and the handler's
    own level are at most [DEBUG]; with the default level [INFO] it never
    does.  The handlers that were attached before receive it as they would
    have received any [DEBUG] record before the call. *)
Theorem X14_file_handler_is_told_of_its_addition
    (h : string) (level : Z) (format : string) (st' : State) :
  hs !! h = None →
  Forall (λ x, is_Some (hheap st !! x))
         (py_handlers (logging.lookup_logger st lg)) →
  Logger.add_file_handler self h level format st = (Ok tt, st') →
  let date := datetime.strftime_Ymd (clock st (ticks st)) in
  let hnew := fresh (dom (hheap st)) in
  let msg := "File handler " +:+ h +:+ " added to logger " +:+ nm
             +:+ " with path: " +:+ layout_file base date rid h in
  trace st' = trace st ++ EvLog lg logging.DEBUG msg
                :: logging.deliveries st' lg logging.DEBUG msg
  ∧ (EvEmit hnew logging.DEBUG msg ∈ logging.deliveries st' lg logging.DEBUG msg
     ↔ py_level (logging.lookup_logger st lg) <= logging.DEBUG
       ∧ level <= logging.DEBUG)
  ∧ (∀ h0, h0 ≠ hnew →
       (EvEmit h0 logging.DEBUG msg
          ∈ logging.deliveries st' lg logging.DEBUG msg
        ↔ EvEmit h0 logging.DEBUG msg
            ∈ logging.deliveries st lg logging.DEBUG msg)).
Proof.
  intros Hh Hlive Hrun. cbv zeta.
  pose proof (add_file_handler_fresh_steps h level format Hh) as Hsteps.
  cbv zeta in Hsteps.
  destruct (FS.ensure_dir (fs st) _) as [m1|e]; [|congruence].
  destruct (FS.ensure_dir m1 _) as [m2|e]; [|congruence].
  destruct (FS.open_ m2 _ "a") as [m3|e]; [|congruence].
  destruct (logging.valid_format format);
    [|destruct Hsteps as [st'' Hbad]; congruence].
  destruct Hsteps as (st'' & Hrun' & _ & Hhheap & Hpy & Hlv & Htrace).
  assert (st'' = st') as -> by congruence.
  set (hnew := fresh (dom (hheap st))) in *.
  assert (hnew ∉ py_handlers (logging.lookup_logger st lg)) as Hnew.
  { intros Hin. rewrite Forall_forall in Hlive.
    apply Hlive in Hin. apply elem_of_dom in Hin.
    by apply is_fresh in Hin. }
  rewrite bool_decide_eq_false_2 in Hpy by done.
  split; [done|]. split.
  - rewrite emit_in_deliveries, Hlv, Hpy, Hhheap, lookup_insert_eq. split.
    + intros (Hl & _ & hd & [= <-] & Hle). done.
    + intros [Hl Hle]. split; [done|]. split.
      * apply elem_of_app. right. by left.
      * eauto.
  - intros h0 Hne. rewrite !emit_in_deliveries, Hlv, Hpy, Hhheap.
    rewrite lookup_insert_ne by done.
    rewrite elem_of_app, list_elem_of_singleton. tauto.
Qed.


End FileHandlerSteps.

(** ** What no method of the class does *)

Section Respecting.

Context (R : State → State → Prop) `{!PreOrder R}.

Lemma respects_same {A} (m : M A) : (∀ s, snd (m s) = s) → respects R m.
Proof. intros H s. by rewrite H. Qed.

Lemma respects_bind {A B} (m : M A) (k : A → M B) :
  respects R m → (∀ a, respects R (k a)) → respects R (bind m k).
Proof.
  intros Hm Hk s. unfold bind. specialize (Hm s).
  destruct (m s) as [[a|e] s']; simpl in *; [|done].
  etrans; [exact Hm|apply Hk].
Qed.

Lemma respects_ret {A} (a : A) : respects R (ret a).
Proof. by apply respects_same. Qed.

Lemma respects_raise {A} (e : exn) : respects R (raise e : M A).
Proof. by apply respects_same. Qed.

Lemma respects_gets {A} (f : State → A) : respects R (gets f).
Proof. by apply respects_same. Qed.

Lemma respects_lift_opt {A} (e : exn) (x : option A) :
  respects R (lift_opt e x).
Proof. destruct x; by apply respects_same. Qed.

Lemma respects_when (c : bool) (body : M unit) :
  respects R body → respects R (when c body).
Proof. destruct c; [done|]. intros _. by apply respects_same. Qed.

Lemma respects_for_each {A} (l : list A) (body : A → M unit) :
  (∀ a, respects R (body a)) → respects R (for_each l body).
Proof.
  intros Hbody. induction l as [|x l IH]; simpl.
  - by apply respects_same.
  - by apply respects_bind.
Qed.

Lemma respects_deref (r : ref) : respects R (Obj.deref r).
Proof.
  apply respects_same. intros s. unfold Obj.deref.
  by destruct (heap s !! r).
Qed.

Lemma respects_getattr {A} attr (proj : LoggerObj → option A) (r : ref) :
  respects R (Obj.getattr attr proj r).
Proof.
  unfold Obj.getattr. apply respects_bind; [apply respects_deref|].
  intros o. apply respects_lift_opt.
Qed.

Lemma respects_listdir (p : string) : respects R (os.listdir p).
Proof.
  apply respects_same. intros s. unfold os.listdir.
  by destruct (FS.listdir _ _).
Qed.

Lemma respects_calls (cs : list Call) (s : State) :
  (∀ c s', In c cs → R s' (after_call c s')) → R s (after_calls cs s).
Proof.
  revert s. induction cs as [|c cs IH]; intros s Hc; simpl; [done|].
  etrans; [apply Hc; by left|]. apply IH. intros c' s' Hin. apply Hc.
  by right.
Qed.

End Respecting.

(** The head of an application. *)
Ltac head_of t :=
  match t with
  | ?f _ => head_of f
  | _ => t
  end.

(** One step through the body of a method: the step itself where it is a
    step of the monad, and the definition of the callee otherwise. *)
Ltac walk_step :=
  match goal with
  | |- respects _ (bind _ _) => apply respects_bind; [apply _| |intros ?]
  | |- respects _ (ret _) => apply respects_ret; apply _
  | |- respects _ (raise _) => apply respects_raise; apply _
  | |- respects _ (gets _) => apply respects_gets; apply _
  | |- respects _ (lift_opt _ _) => apply respects_lift_opt; apply _
  | |- respects _ (when _ _) => apply respects_when; [apply _|]
  | |- respects _ (for_each _ _) =>
      apply respects_for_each; [apply _|intros ?]
  | |- respects _ (Obj.getattr _ _ _) => apply respects_getattr; apply _
  | |- respects _ (Obj.deref _) => apply respects_deref; apply _
  | |- respects _ (os.listdir _) => apply respects_listdir; apply _
  | |- respects _ (if ?b then _ else _) => destruct b
  | |- respects _ (match ?x with _ => _ end) => destruct x
  | |- respects _ (let _ := _ in _) => cbv zeta
  | |- respects _ ?m => let h := head_of m in unfold h
  end.

Section Evolving.

Lemma evolves_refl (s : State) : evolves s s.
Proof.
  unfold evolves. split_and!; try done.
  - intros r o Hr. eauto.
  - intros h hd Hh. eauto.
  - intros n r Hn. by left.
  - intros r Hnone [o Hr]. congruence.
Qed.

Lemma evolves_trans (s1 s2 s3 : State) :
  evolves s1 s2 → evolves s2 s3 → evolves s1 s3.
Proof.
  intros (Ho1 & Hh1 & Hc1 & Ht1 & Hr1 & Hi1 & Hm1)
    (Ho2 & Hh2 & Hc2 & Ht2 & Hr2 & Hi2 & Hm2).
  unfold evolves. split_and!.
  - intros r o Hr. destruct (Ho1 r o Hr) as (o' & Hr' & Hl').
    destruct (Ho2 r o' Hr') as (o'' & Hr'' & Hl''). eauto.
  - intros h hd Hh. destruct (Hh1 h hd Hh) as (hd' & Hh' & Ht' & Hop').
    destruct (Hh2 h hd' Hh') as (hd'' & Hh'' & Ht'' & Hop'').
    exists hd''. split; [done|]. split; congruence.
  - congruence.
  - by etrans.
  - auto.
  - intros n r Hn. destruct (Hi2 n r Hn) as [Hn2|(Hnone & o' & Ho' & Hl')].
    + destruct (Hi1 n r Hn2) as [?|(Hnone & o' & Ho' & Hl')]; [by left|].
      right. split; [done|].
      destruct (Ho2 r o' Ho') as (o'' & Ho'' & Hl''). eauto.
    + right. split; [|eauto].
      destruct (heap s1 !! r) as [o1|] eqn:Hr1'; [|done].
      destruct (Ho1 r o1 Hr1') as (o2 & Hr2' & _). congruence.
  - intros r Hnone Hsome. destruct (heap s2 !! r) as [o2|] eqn:Hr2'.
    + apply Hr2, (Hm1 r); eauto.
    + by apply (Hm2 r).
Qed.

End Evolving.

#[global] Instance evolves_preorder : PreOrder evolves.
Proof. split; [exact evolves_refl|exact evolves_trans]. Qed.

#[global] Instance files_kept_preorder : PreOrder files_kept.
Proof.
  split.
  - intros s. unfold files_kept. done.
  - intros s1 s2 s3. unfold files_kept. intros. by etrans.
Qed.

Section EvolvingSteps.

(** A step that touches neither the objects nor the registry. *)
Lemma evolves_frame (s s' : State) :
  heap s' = heap s → hheap s' = hheap s → cwd s' = cwd s →
  instances s' = instances s → trace s `prefix_of` trace s' →
  (is_Some (cls_run_id s) → is_Some (cls_run_id s')) →
  evolves s s'.
Proof.
  intros Hheap Hhheap Hcwd Hinst Htrace Hrid. unfold evolves.
  rewrite Hheap, Hhheap, Hinst. split_and!; try done.
  - intros r o Hr. eauto.
  - intros h hd Hh. eauto.
  - intros n r Hn. by left.
  - intros r Hnone [o Hr]. congruence.
Qed.

Lemma evolving_set_run_id (rid : string) :
  respects evolves (modify (set_cls_run_id (Some rid))).
Proof. intros s. apply evolves_frame; simpl; eauto. Qed.

Lemma evolving_now : respects evolves datetime.now.
Proof. intros s. by apply evolves_frame. Qed.

Lemma evolving_fs_step op : respects evolves (fs_step op).
Proof.
  intros s. unfold fs_step. destruct (op (fs s)); by apply evolves_frame.
Qed.

Lemma evolving_store_logger (key : string) (l : PyLogger) :
  respects evolves (logging.store_logger key l).
Proof. intros s. by apply evolves_frame. Qed.

Lemma evolving_log (lg : string) (levelno : Z) (msg : string) :
  respects evolves (logging.log lg levelno msg).
Proof.
  intros s. apply evolves_frame; simpl; try done. by apply prefix_app_r.
Qed.

Lemma evolving_new_handler (hd : Handler) :
  respects evolves (logging.new_handler hd).
Proof.
  intros s. unfold logging.new_handler, evolves. simpl. split_and!; try done.
  - intros r o Hr. eauto.
  - intros h hd' Hh. exists hd'. split; [|done].
    rewrite lookup_insert_ne; [done|]. intros <-.
    assert (fresh (dom (hheap s)) ∈ dom (hheap s)) as Hin.
    { apply elem_of_dom. eauto. }
    by apply is_fresh in Hin.
  - intros n r Hn. by left.
  - intros r Hnone [o Hr]. congruence.
Qed.

(** [setFormatter] and [setLevel] leave the stream of a handler alone. *)
Lemma evolving_update_handler (h : href) (f : Handler → Handler) :
  (∀ hd, h_target (f hd) = h_target hd ∧ h_open (f hd) = h_open hd) →
  respects evolves (logging.update_handler h f).
Proof.
  intros Hf s. unfold logging.update_handler.
  destruct (hheap s !! h) as [hd|] eqn:Hh; [|apply evolves_refl].
  unfold evolves. simpl. split_and!; try done.
  - intros r o Hr. eauto.
  - intros h' hd' Hh'. destruct (decide (h' = h)) as [->|Hne].
    + rewrite lookup_insert_eq. exists (f hd). split; [done|].
      assert (hd' = hd) as -> by congruence. apply Hf.
    + rewrite lookup_insert_ne by done. eauto.
  - intros n r Hn. by left.
  - intros r Hnone [o Hr]. congruence.
Qed.

(** Assigning an attribute other than [logger]. *)
Lemma evolving_update (r : ref) (f : LoggerObj → LoggerObj) :
  (∀ o, logger (f o) = logger o) →
  respects evolves (Obj.update r f).
Proof.
  intros Hf s. unfold Obj.update, bind, Obj.deref.
  destruct (heap s !! r) as [o|] eqn:Hr; [|apply evolves_refl].
  unfold evolves. simpl. split_and!; try done.
  - intros r' o' Hr'. destruct (decide (r' = r)) as [->|Hne].
    + rewrite lookup_insert_eq. exists (f o). split; [done|].
      intros lg Hlg. rewrite Hf. congruence.
    + rewrite lookup_insert_ne by done. eauto.
  - intros h hd Hh. eauto.
  - intros n r' Hn. by left.
  - intros r' Hnone [o' Hr']. destruct (decide (r' = r)) as [->|Hne].
    + congruence.
    + rewrite lookup_insert_ne in Hr' by done. congruence.
Qed.

Lemma evolving_unregister (n : string) :
  respects evolves
    (modify (fun st => set_instances (delete n (instances st)) st)).
Proof.
  intros s. unfold evolves. simpl. split_and!; try done.
  - intros r o Hr. eauto.
  - intros h hd Hh. eauto.
  - intros n' r Hn'. left. by apply lookup_delete_Some in Hn' as [_ ?].
  - intros r Hnone [o Hr]. congruence.
Qed.

(** [__new__]: the one place where an object is made, given its logger
    and registered. *)
Lemma evolving_new (n d : string) : respects evolves (Logger.__new__ n d).
Proof.
  intros s. destruct (instances s !! n) as [r|] eqn:Hn.
  - unfold Logger.__new__, bind, gets. rewrite Hn. apply evolves_refl.
  - destruct (new_fresh_eval n d s Hn)
      as (s0 & Hrun & Hheap & Hinst & Hrid & _ & _ & Hhheap & _ & Hcwd & Htrace).
    rewrite Hrun. simpl. unfold evolves.
    rewrite Hheap, Hinst, Hhheap, Hcwd, Htrace, Hrid. split_and!; try done.
    + intros r o Hr. exists o. split; [|done].
      rewrite lookup_insert_ne; [done|]. intros <-.
      assert (fresh (dom (heap s)) ∈ dom (heap s)) as Hin.
      { apply elem_of_dom. eauto. }
      by apply is_fresh in Hin.
    + intros h hd Hh. eauto.
    + intros n' r Hn'. destruct (decide (n' = n)) as [->|Hne].
      * rewrite lookup_insert_eq in Hn'. injection Hn' as <-. right. split.
        { apply not_elem_of_dom, is_fresh. }
        eexists. split; [apply lookup_insert_eq|done].
      * rewrite lookup_insert_ne in Hn' by done. by left.
Qed.

End EvolvingSteps.

(** Through the body of a method, for [evolves]. *)
Ltac evolving :=
  repeat first
    [ match goal with
      | |- respects evolves (Logger.__new__ _ _) => apply evolving_new
      | |- respects evolves (Obj.update _ _) =>
          apply evolving_update; intros ?; reflexivity
      | |- respects evolves (logging.update_handler _ _) =>
          apply evolving_update_handler; intros ?; split; reflexivity
      | |- respects evolves (logging.new_handler _) => apply evolving_new_handler
      | |- respects evolves (logging.log _ _ _) => apply evolving_log
      | |- respects evolves (logging.store_logger _ _) =>
          apply evolving_store_logger
      | |- respects evolves (fs_step _) => apply evolving_fs_step
      | |- respects evolves datetime.now => apply evolving_now
      | |- respects evolves (modify (set_cls_run_id (Some _))) =>
          apply evolving_set_run_id
      | |- respects evolves (modify (fun st => set_instances (delete _ _) st)) =>
          apply evolving_unregister
      end
    | walk_step ].

Section EvolvingCalls.

Lemma evolving_call (c : Call) (s : State) : evolves s (after_call c s).
Proof.
  destruct c; cbv beta iota delta [after_call];
    match goal with
    | |- evolves _ (snd (?m _)) => revert s; change (respects evolves m)
    end;
    evolving.
Qed.

Lemma registry_ok_evolves (s s' : State) :
  registry_ok s → evolves s s' → registry_ok s'.
Proof.
  intros Hok (Ho & _ & _ & _ & _ & Hi & _) n r Hn.
  destruct (Hi n r Hn) as [Hn0|(_ & o' & Ho' & Hl')]; [|eauto].
  destruct (Hok n r Hn0) as (o & Hr & Hl).
  destruct (Ho r o Hr) as (o' & Hr' & Hl'). eauto.
Qed.

End EvolvingCalls.

(** X16. Whatever methods of the class are called, in whatever order and
    whether they return or raise: every Logger object stays and keeps its
    logger, every handler object stays, keeps its target and is never
    closed, the current directory is not changed, the trace only grows, a
    run identifier that is set stays set, a name is registered only to
    the object it was registered to before or to an object made since,
    whose logger is the one of that name, and when an object was made the
    run identifier is set. *)
Theorem X16_calls_only_extend_the_state (cs : list Call) (s : State) :
  evolves s (after_calls cs s).
Proof.
  apply respects_calls; [apply _|]. intros c s' _. apply evolving_call.
Qed.

(** X17. The registry stays sound.  From a state in which every
    registered name refers to a Logger object whose logger is the one of
    that name (the state of a new process is one), any sequence of calls
    leads to such a state again.  In such a state [_del_logger] never
    raises and removes exactly the name it is given, and [get_logger]
    answers only objects whose [logger] attribute can be read. *)
Theorem X17_registry_stays_sound (cs : list Call) (s : State) :
  registry_ok s →
  let s' := after_calls cs s in
  registry_ok s'
  ∧ (∀ n, ∃ s'', Logger._del_logger n s' = (Ok tt, s'')
                 ∧ instances s'' = delete n (instances s'))
  ∧ (∀ n r, Logger.get_logger n s' = (Ok r, s') →
            Obj.getattr "logger" logger r s' = (Ok (logging.key_of n), s')).
Proof.
  intros Hok s'.
  assert (registry_ok s') as Hok'.
  { apply (registry_ok_evolves s); [done|].
    apply respects_calls; [apply _|]. intros c s0 _. apply evolving_call. }
  split; [done|]. split.
  - intros n. destruct (instances s' !! n) as [r|] eqn:Hn.
    + destruct (Hok' n r Hn) as (o & Hr & Hl).
      destruct (del_logger_registered n s' r o _ Hn Hr Hl)
        as (s'' & Hrun & Hinst & _). eauto.
    + exists s'. split; [by apply del_logger_unregistered|].
      by rewrite delete_id.
  - intros n r Hget. unfold Logger.get_logger, bind, gets in Hget.
    destruct (instances s' !! n) as [r'|] eqn:Hn; [|done].
    injection Hget as <-. destruct (Hok' n r' Hn) as (o & Hr & Hl).
    by eapply getattr_Ok.
Qed.

(** X20. Every Logger can read the run identifier.  Start from a state in
    which the run identifier is set if a Logger object exists (a new
    process holds no Logger object, so its state is one).  Then after any
    sequence of calls the run identifier is set as soon as a Logger object
    exists, and [run_id] on every Logger object returns it without
    raising. *)
Theorem X20_run_id_can_be_read_on_every_logger (cs : list Call) (s : State) :
  (∀ r, is_Some (heap s !! r) → is_Some (cls_run_id s)) →
  let s' := after_calls cs s in
  ∀ r, is_Some (heap s' !! r) →
       ∃ rid, cls_run_id s' = Some rid ∧ Logger.run_id r s' = (Ok rid, s').
Proof.
  intros Hset s'.
  assert (evolves s s') as (_ & _ & _ & _ & Hrid & _ & Hnew).
  { apply respects_calls; [apply _|]. intros c s0 _. apply evolving_call. }
  intros r Hr.
  assert (is_Some (cls_run_id s')) as [rid Hrid'].
  { destruct (heap s !! r) as [o|] eqn:Hr0.
    - apply Hrid, (Hset r). eauto.
    - by apply (Hnew r). }
  exists rid. split; [done|].
  unfold Logger.run_id, Logger._get_run_id, bind, gets. by rewrite Hrid'.
Qed.

(** ** What only the clearing methods do *)

Section KeepingFiles.

Lemma files_kept_same {A} (m : M A) :
  (∀ s, fs (snd (m s)) = fs s) → respects files_kept m.
Proof. intros H s. unfold files_kept. by rewrite H. Qed.

Lemma files_kept_fs_step op :
  (∀ m m', op m = Ok m' → m ⊆ m') → respects files_kept (fs_step op).
Proof.
  intros Hop s. unfold fs_step, files_kept.
  destruct (op (fs s)) as [m'|e] eqn:Hm; simpl; [by apply Hop|done].
Qed.

(** [os.makedirs] only adds directories. *)
Lemma makedirs_subseteq (m m' : gmap (list string) node) (p : list string) :
  FS.makedirs m p = Ok m' → m ⊆ m'.
Proof.
  unfold FS.makedirs. destruct (FS.entry_exists m p); [done|].
  destruct (existsb _ _); [done|]. intros [= <-].
  apply map_subseteq_spec. intros q n Hq. by rewrite fold_mkdir_lookup, Hq.
Qed.

(** Opening for appending only adds an empty file. *)
Lemma open_append_subseteq (m m' : gmap (list string) node) (p : list string) :
  FS.open_ m p "a" = Ok m' → m ⊆ m'.
Proof.
  intros (_ & _ & [[-> _]|[Hnone ->]])%open_append_inv; [done|].
  by apply insert_subseteq.
Qed.

Lemma files_kept_update_handler (h : href) (f : Handler → Handler) :
  respects files_kept (logging.update_handler h f).
Proof.
  apply files_kept_same. intros s. unfold logging.update_handler.
  by destruct (hheap s !! h).
Qed.

End KeepingFiles.

(** Through the body of a method, for [files_kept]. *)
Ltac keeping_files :=
  repeat first
    [ match goal with
      | |- respects files_kept (fs_step (fun m => FS.makedirs m _)) =>
          apply files_kept_fs_step; intros ? ?; apply makedirs_subseteq
      | |- respects files_kept (fs_step (fun m => FS.open_ m _ "a")) =>
          apply files_kept_fs_step; intros ? ?; apply open_append_subseteq
      | |- respects files_kept (logging.update_handler _ _) =>
          apply files_kept_update_handler
      | |- respects files_kept (modify _) =>
          apply files_kept_same; intros ?; reflexivity
      | |- respects files_kept Obj.new =>
          apply files_kept_same; intros ?; reflexivity
      | |- respects files_kept datetime.now =>
          apply files_kept_same; intros ?; reflexivity
      | |- respects files_kept (logging.log _ _ _) =>
          apply files_kept_same; intros ?; reflexivity
      | |- respects files_kept (logging.new_handler _) =>
          apply files_kept_same; intros ?; reflexivity
      end
    | walk_step ].

Section KeepingFilesCalls.

Lemma files_kept_call (c : Call) (s : State) :
  clears c = false → files_kept s (after_call c s).
Proof.
  intros Hc. destruct c; try discriminate Hc;
    cbv beta iota delta [after_call];
    match goal with
    | |- files_kept _ (snd (?m _)) => revert s; change (respects files_kept m)
    end;
    keeping_files.
Qed.

End KeepingFilesCalls.

(** X18. Only the two clearing methods take anything away from the file
    system.  Through any sequence of calls without [clear_todays_logs] and
    [clear_all_logs], returning or raising, every entry stays what it is:
    no directory or file is removed or replaced, and a log file that is
    already there is opened for appending, never emptied.  (What the
    handlers of [logging] write into the files is not part of the state.) *)
Theorem X18_only_clearing_removes_entries (cs : list Call) (s : State) :
  Forall (λ c, clears c = false) cs →
  ∀ q n, fs s !! q = Some n → fs (after_calls cs s) !! q = Some n.
Proof.
  intros Hcs.
  assert (files_kept s (after_calls cs s)) as Hkept.
  { apply respects_calls; [apply _|]. intros c s' Hin.
    apply files_kept_call. rewrite Forall_forall in Hcs.
    by apply Hcs, list_elem_of_In. }
  intros q n Hq. unfold files_kept in Hkept.
  by eapply lookup_weaken.
Qed.

(** ** The file system stays a tree *)

Section TreeSteps.

Lemma tree_kept_same {A} (m : M A) :
  (∀ s, fs (snd (m s)) = fs s) → respects tree_kept m.
Proof. intros H s. unfold tree_kept. by rewrite H. Qed.

Lemma tree_kept_fs_step op :
  (∀ m m', op m = Ok m' → FS.well_formed m = true → FS.well_formed m' = true) →
  respects tree_kept (fs_step op).
Proof.
  intros Hop s. unfold fs_step, tree_kept.
  destruct (op (fs s)) as [m'|e] eqn:Hm; simpl; [by apply Hop|done].
Qed.

Lemma tree_kept_update_handler (h : href) (f : Handler → Handler) :
  respects tree_kept (logging.update_handler h f).
Proof.
  apply tree_kept_same. intros s. unfold logging.update_handler.
  by destruct (hheap s !! h).
Qed.

End TreeSteps.

#[global] Instance tree_kept_preorder : PreOrder tree_kept.
Proof.
  split.
  - intros s Hwf. exact Hwf.
  - intros s1 s2 s3 H1 H2 Hwf. apply H2, H1, Hwf.
Qed.

(** Through the body of a method, for [tree_kept]. *)
Ltac keeping_tree :=
  repeat first
    [ match goal with
      | |- respects tree_kept (fs_step (fun m => FS.makedirs m (Path.resolve _))) =>
          apply tree_kept_fs_step; intros ? ?;
          apply makedirs_well_formed, resolve_components
      | |- respects tree_kept (fs_step (fun m => FS.open_ m (Path.resolve _) "a")) =>
          apply tree_kept_fs_step; intros ? ?;
          apply open_well_formed, resolve_components
      | |- respects tree_kept (fs_step (fun m => FS.rmtree m _)) =>
          apply tree_kept_fs_step; intros ? ?; apply rmtree_well_formed
      | |- respects tree_kept (fs_step (fun m => FS.remove m _)) =>
          apply tree_kept_fs_step; intros ? ?; apply remove_well_formed
      | |- respects tree_kept (logging.update_handler _ _) =>
          apply tree_kept_update_handler
      | |- respects tree_kept (modify _) =>
          apply tree_kept_same; intros ?; reflexivity
      | |- respects tree_kept Obj.new =>
          apply tree_kept_same; intros ?; reflexivity
      | |- respects tree_kept datetime.now =>
          apply tree_kept_same; intros ?; reflexivity
      | |- respects tree_kept (logging.log _ _ _) =>
          apply tree_kept_same; intros ?; reflexivity
      | |- respects tree_kept (logging.new_handler _) =>
          apply tree_kept_same; intros ?; reflexivity
      end
    | walk_step ].

Section TreeCalls.

Lemma tree_kept_call (c : Call) (s : State) : tree_kept s (after_call c s).
Proof.
  destruct c; cbv beta iota delta [after_call];
    match goal with
    | |- tree_kept _ (snd (?m _)) => revert s; change (respects tree_kept m)
    end;
    keeping_tree.
Qed.

End TreeCalls.

(** X19. The methods of the class keep the file system a tree.  When
    every entry is named by path components and stands below directories
    only, the same holds after any sequence of calls, returning or
    raising: directories are made outermost first and only where no
    regular file is in the way, a log file is opened only inside a
    directory, and the clearing methods remove a directory together with
    all it holds. *)
Theorem X19_calls_keep_the_file_system_a_tree (cs : list Call) (s : State) :
  FS.well_formed (fs s) = true → FS.well_formed (fs (after_calls cs s)) = true.
Proof.
  revert s. induction cs as [|c cs IH]; intros s Hwf; simpl; [done|].
  apply IH. by apply tree_kept_call.
Qed.

(** ** The further properties at concrete runs *)

(** X1 at a run: the first console handler ["con"] of Logger [a]. *)
Lemma X1_witness_first_console_handler :
  let st := Demo.one_logger in
  let self := 0%nat in
  let lg := "a" in
  let hs : gmap string href := ∅ in
  let h := "con" in
  let level := Logger.INFO in
  let format := utils.FORMAT_BASIC in
  ∃ st' hnew,
    Logger.add_console_handler self h level format st = (Ok tt, st')
    ∧ hheap st !! hnew = None
    ∧ hheap st' = <[hnew := mkHandler Console level (Some format) true]>
                    (hheap st)
    ∧ handlers_of st' self = Some (<[h := hnew]> hs)
    ∧ py_handlers (logging.lookup_logger st' lg)
      = py_handlers (logging.lookup_logger st lg) ++ [hnew]
    ∧ (∀ lg', lg' ≠ lg →
         logging.lookup_logger st' lg' = logging.lookup_logger st lg')
    ∧ (∀ r, r ≠ self → heap st' !! r = heap st !! r)
    ∧ fs st' = fs st ∧ instances st' = instances st ∧ trace st' = trace st.
Proof.
  assert (heap Demo.one_logger !! 0%nat = Some Demo.logger_a) as H1
    by (vm_compute; reflexivity).
  assert (Forall (λ x, is_Some (hheap Demo.one_logger !! x))
            (py_handlers (logging.lookup_logger Demo.one_logger "a"))) as H2
    by (vm_compute; constructor).
  assert ((∅ : gmap string href) !! "con" = None) as H3
    by (vm_compute; reflexivity).
  assert (logging.valid_format utils.FORMAT_BASIC = true) as H4
    by (vm_compute; reflexivity).
  cbv zeta.
  exact (X1_add_console_handler_registers_new_handler
           Demo.one_logger 0%nat Demo.logger_a "a" ∅ H1 eq_refl eq_refl H2
           "con" Logger.INFO utils.FORMAT_BASIC H3 H4).
Defined.

(** X2 at a run: ["con"] is added to Logger [a] and removed again. *)
Lemma X2_witness_add_then_remove :
  let st := Demo.one_logger in
  let self := 0%nat in
  let h := "con" in
  let level := Logger.INFO in
  let format := utils.FORMAT_BASIC in
  ∃ st1 st2 hnew,
    Logger.add_console_handler self h level format st = (Ok tt, st1)
    ∧ Logger.remove_handler self h st1 = (Ok tt, st2)
    ∧ heap st2 = heap st
    ∧ (∀ lg', logging.lookup_logger st2 lg' = logging.lookup_logger st lg')
    ∧ fs st2 = fs st ∧ instances st2 = instances st ∧ trace st2 = trace st
    ∧ hheap st !! hnew = None
    ∧ hheap st2 = <[hnew := mkHandler Console level (Some format) true]>
                    (hheap st).
Proof.
  assert (heap Demo.one_logger !! 0%nat = Some Demo.logger_a) as H1
    by (vm_compute; reflexivity).
  assert (Forall (λ x, is_Some (hheap Demo.one_logger !! x))
            (py_handlers (logging.lookup_logger Demo.one_logger "a"))) as H2
    by (vm_compute; constructor).
  assert ((∅ : gmap string href) !! "con" = None) as H3
    by (vm_compute; reflexivity).
  assert (logging.valid_format utils.FORMAT_BASIC = true) as H4
    by (vm_compute; reflexivity).
  cbv zeta.
  exact (X2_add_then_remove_console_handler_restores_logger
           Demo.one_logger 0%nat Demo.logger_a "a" ∅ H1 eq_refl eq_refl H2
           "con" Logger.INFO utils.FORMAT_BASIC H3 H4).
Defined.

(** X3 at a run: [b.join_handler("a", "main")] with two Loggers that each
    hold a console handler ["main"], then [b.set_handler_level("main",
    DEBUG)]: the level of the handler of [a] changes. *)
Lemma X3_witness_joined_main :
  let st := Demo.two_loggers in
  let self := 1%nat in
  let r' := 0%nat in
  let lg := "b" in
  let hs : gmap string href := {[ "main" := 1%nat ]} in
  let hs' : gmap string href := {[ "main" := 0%nat ]} in
  let k := "main" in
  let h' := 0%nat in
  let hd := Demo.console_handler in
  let level := Logger.DEBUG in
  ∃ st1 st2,
    Logger.join_handler self "a" k st = (Ok tt, st1)
    ∧ hheap st1 = hheap st
    ∧ handlers_of st1 self = Some (<[k := h']> hs)
    ∧ handlers_of st1 r' = Some hs'
    ∧ h' ∈ py_handlers (logging.lookup_logger st1 lg)
    ∧ Logger.set_handler_level self k level st1 = (Ok tt, st2)
    ∧ handlers_of st2 self ≫= (.!! k) = Some h'
    ∧ handlers_of st2 r' ≫= (.!! k) = Some h'
    ∧ hheap st2 = <[h' := mkHandler (h_target hd) level (h_formatter hd)
                                    (h_open hd)]> (hheap st).
Proof.
  assert (heap Demo.two_loggers !! 1%nat = Some Demo.logger_b_main) as H1
    by (vm_compute; reflexivity).
  assert (instances Demo.two_loggers !! "a" = Some 0%nat) as H2
    by (vm_compute; reflexivity).
  assert (heap Demo.two_loggers !! 0%nat = Some Demo.logger_a_main) as H3
    by (vm_compute; reflexivity).
  assert (({[ "main" := 0%nat ]} : gmap string href) !! "main" = Some 0%nat)
    as H4 by (vm_compute; reflexivity).
  assert (hheap Demo.two_loggers !! 0%nat = Some Demo.console_handler) as H5
    by (vm_compute; reflexivity).
  assert (1%nat ≠ 0%nat) as H6 by (intros H; discriminate H).
  cbv zeta.
  exact (X3_joined_handler_is_one_shared_object
           Demo.two_loggers 1%nat Demo.logger_b_main "b" {[ "main" := 1%nat ]}
           H1 eq_refl eq_refl "a" "main" 0%nat Demo.logger_a_main
           {[ "main" := 0%nat ]} 0%nat Demo.console_handler Logger.DEBUG
           H2 H3 eq_refl H4 H5 H6).
Defined.


(** X5 at a run: the first Logger of the process makes the identifier. *)
Lemma X5_witness_first_logger :
  let n := "a" in
  let d := "logs" in
  let st := Demo.boot in
  cls_run_id (snd (Logger.__call__ n d st)) = Some (run_id_after_new st)
  ∧ (∀ rid, cls_run_id st = Some rid →
            cls_run_id (snd (Logger.__call__ n d st)) = Some rid)
  ∧ (cls_run_id st = None →
     run_id_after_new st
     = datetime.strftime_Ymd (clock st (ticks st)) +:+ "_"
       +:+ datetime.strftime_HMS (clock st (S (ticks st)))
     ∧ Path.component (run_id_after_new st) = true
     ∧ String.length (run_id_after_new st) = 17%nat).
Proof.
  assert (instances Demo.boot !! "a" = None) as H1
    by (vm_compute; reflexivity).
  cbv zeta.
  exact (X5_run_id_is_generated_once "a" "logs" Demo.boot H1).
Defined.




(** X9 at a run: Logger [a] has written to its file ["main"]; the date
    directory goes with the run directory and the log file in it. *)
Lemma X9_witness_date_directory_removed :
  let st := Demo.with_file in
  let d := "/srv/logs/2026-11-03" in
  ∃ st',
    Logger.clear_todays_logs 0 st = (Ok tt, st')
    ∧ (∀ q, fs st' !! q
            = if bool_decide (Path.resolve d `prefix_of` q)
              then None else fs st !! q)
    ∧ heap st' = heap st ∧ hheap st' = hheap st
    ∧ py_loggers st' = py_loggers st ∧ instances st' = instances st
    ∧ trace st' = trace st.
Proof.
  assert (heap Demo.with_file !! 0%nat = Some Demo.logger_a_file) as H1
    by (vm_compute; reflexivity).
  assert (fs Demo.with_file !! Path.resolve "/srv/logs/2026-11-03" = Some Dir)
    as H2 by (vm_compute; reflexivity).
  assert (Path.normalized "/srv/logs/2026-11-03" = true) as H3
    by (vm_compute; reflexivity).
  assert (Path.len "/srv/logs/2026-11-03" < Path.PATH_MAX) as H4
    by (vm_compute; reflexivity).
  assert (FS.well_named (fs Demo.with_file) = true) as H5
    by (vm_compute; reflexivity).
  pose proof (X9_clear_todays_logs_removes_date_directory
                Demo.with_file 0%nat Demo.logger_a_file "/srv/logs/2026-11-03"
                H1 eq_refl H3 H4 H5) as W.
  rewrite H2 in W. cbv zeta. exact W.
Defined.

(** X10 at a run: Logger [a] has written to its file ["main"]; everything
    below [/srv/logs] goes. *)
Lemma X10_witness_base_directory_emptied :
  let st := Demo.with_file in
  let base := "/srv/logs" in
  ∃ m, Logger.clear_all_logs 0 st = (Ok tt, set_fs m st)
       ∧ ∀ q, m !! q
              = if bool_decide (Path.resolve base `prefix_of` q
                                ∧ q ≠ Path.resolve base)
                then None else fs st !! q.
Proof.
  assert (heap Demo.with_file !! 0%nat = Some Demo.logger_a_file) as H1
    by (vm_compute; reflexivity).
  assert (FS.well_formed (fs Demo.with_file) = true) as H2
    by (vm_compute; reflexivity).
  assert (FS.is_dir (fs Demo.with_file) (Path.resolve "/srv/logs") = true)
    as H3 by (vm_compute; reflexivity).
  assert (Path.normalized "/srv/logs" = true) as H4
    by (vm_compute; reflexivity).
  assert (Path.len "/srv/logs" + 1 + Path.NAME_MAX < Path.PATH_MAX) as H5
    by (vm_compute; reflexivity).
  assert (FS.well_named (fs Demo.with_file) = true) as H6
    by (vm_compute; reflexivity).
  pose proof (X10_clear_all_logs_empties_base_directory
                Demo.with_file 0%nat Demo.logger_a_file "/srv/logs"
                H1 eq_refl H2 H4 H5 H6) as W.
  rewrite H3 in W. cbv zeta. exact W.
Defined.

(** X11 at a run: the Loggers of the names ["root"] and [""] are both on
    the root logger and both hold the console handler ["main"]; the second
    removes it, and the root logger has lost it for the first as well. *)
Lemma X11_witness_shared_handler_removed_from_one :
  let st := Demo.on_root in
  let self := 1%nat in
  let r' := 0%nat in
  let hs : gmap string href := {[ "main" := 0%nat ]} in
  let k := "main" in
  let h := 0%nat in
  let lg := "root" in
  let lg' := "root" in
  ∃ st', Logger.remove_handler self k st = (Ok tt, st')
    ∧ handlers_of st' self = Some (delete k hs)
    ∧ handlers_of st' r' ≫= (.!! k) = Some h
    ∧ (h ∉ py_handlers (logging.lookup_logger st' lg))
    ∧ (h ∈ py_handlers (logging.lookup_logger st' lg') ↔ lg' ≠ lg)
    ∧ (lg' ≠ lg → logging.lookup_logger st' lg' = logging.lookup_logger st lg')
    ∧ hheap st' = hheap st
    ∧ (∀ r, r ≠ self → heap st' !! r = heap st !! r).
Proof.
  assert (heap Demo.on_root !! 1%nat = Some Demo.logger_empty) as H1
    by (vm_compute; reflexivity).
  assert (({[ "main" := 0%nat ]} : gmap string href) !! "main" = Some 0%nat)
    as H2 by (vm_compute; reflexivity).
  assert (0%nat ≠ 1%nat) as H3 by (intros H; discriminate H).
  assert (heap Demo.on_root !! 0%nat = Some Demo.logger_root) as H4
    by (vm_compute; reflexivity).
  assert (0%nat ∈ py_handlers (logging.lookup_logger Demo.on_root "root"))
    as H5 by (vm_compute; constructor).
  assert (NoDup (py_handlers (logging.lookup_logger Demo.on_root "root")))
    as H6 by (vm_compute; apply NoDup_singleton).
  cbv zeta.
  exact (X11_remove_handler_leaves_other_logger_attached
           Demo.on_root 1%nat Demo.logger_empty "root" {[ "main" := 0%nat ]}
           H1 eq_refl eq_refl "main" "main" 0%nat 0%nat Demo.logger_root
           "root" {[ "main" := 0%nat ]} H2 H3 H4 eq_refl eq_refl H2 H5 H6).
Defined.

(** X12 at a run: the console handler ["con"] of Logger [a] is set to
    [ERROR]. *)
Lemma X12_witness_console_at_error :
  let st := Demo.with_console in
  let self := 0%nat in
  let lg := "a" in
  let k := "con" in
  let h := 0%nat in
  let level := Logger.ERROR in
  let msg := "hello" in
  ∃ st1,
    Logger.set_handler_level self k level st = (Ok tt, st1)
    ∧ Forall (λ '(method, levelno),
         method self msg st1
         = (Ok tt, set_trace (trace st1 ++ EvLog lg levelno msg
                                :: logging.deliveries st1 lg levelno msg) st1)
         ∧ (EvEmit h levelno msg ∈ logging.deliveries st1 lg levelno msg
            ↔ py_level (logging.lookup_logger st lg) <= levelno
              ∧ level <= levelno)
         ∧ ∀ h', h' ≠ h →
             (EvEmit h' levelno msg ∈ logging.deliveries st1 lg levelno msg
              ↔ EvEmit h' levelno msg ∈ logging.deliveries st lg levelno msg))
        [(Logger.debug, Logger.DEBUG); (Logger.info, Logger.INFO);
         (Logger.warn, Logger.WARNING); (Logger.warning, Logger.WARNING);
         (Logger.error, Logger.ERROR); (Logger.critical, Logger.CRITICAL)].
Proof.
  assert (heap Demo.with_console !! 0%nat = Some Demo.logger_a_console) as H1
    by (vm_compute; reflexivity).
  assert (({[ "con" := 0%nat ]} : gmap string href) !! "con" = Some 0%nat)
    as H2 by (vm_compute; reflexivity).
  assert (hheap Demo.with_console !! 0%nat = Some Demo.console_handler) as H3
    by (vm_compute; reflexivity).
  assert (0%nat ∈ py_handlers (logging.lookup_logger Demo.with_console "a"))
    as H4 by (vm_compute; constructor).
  cbv zeta.
  exact (X12_handler_level_decides_delivery
           Demo.with_console 0%nat Demo.logger_a_console "a"
           {[ "con" := 0%nat ]} H1 eq_refl eq_refl "con" 0%nat
           Demo.console_handler Logger.ERROR "hello" H2 H3 H4).
Defined.

(** X14 at a run: the file handler ["main"] of Logger [a], made at
    [DEBUG]. *)
Lemma X14_witness_main_is_told :
  let st := Demo.one_logger in
  let st' := Demo.with_file in
  let lg := "a" in
  let nm := "a" in
  let base := "/srv/logs" in
  let rid := "2026-11-03_101501" in
  let h := "main" in
  let level := Logger.DEBUG in
  let date := datetime.strftime_Ymd (clock st (ticks st)) in
  let hnew := fresh (dom (hheap st)) in
  let msg := "File handler " +:+ h +:+ " added to logger " +:+ nm
             +:+ " with path: " +:+ layout_file base date rid h in
  trace st' = trace st ++ EvLog lg logging.DEBUG msg
                :: logging.deliveries st' lg logging.DEBUG msg
  ∧ (EvEmit hnew logging.DEBUG msg ∈ logging.deliveries st' lg logging.DEBUG msg
     ↔ py_level (logging.lookup_logger st lg) <= logging.DEBUG
       ∧ level <= logging.DEBUG)
  ∧ (∀ h0, h0 ≠ hnew →
       (EvEmit h0 logging.DEBUG msg
          ∈ logging.deliveries st' lg logging.DEBUG msg
        ↔ EvEmit h0 logging.DEBUG msg
            ∈ logging.deliveries st lg logging.DEBUG msg)).
Proof.
  assert (heap Demo.one_logger !! 0%nat = Some Demo.logger_a) as H1
    by (vm_compute; reflexivity).
  assert (cls_run_id Demo.one_logger = Some "2026-11-03_101501") as H2
    by (vm_compute; reflexivity).
  assert ((∅ : gmap string href) !! "main" = None) as H3
    by (vm_compute; reflexivity).
  assert (Forall (λ x, is_Some (hheap Demo.one_logger !! x))
            (py_handlers (logging.lookup_logger Demo.one_logger "a"))) as H4
    by (vm_compute; constructor).
  assert (Logger.add_file_handler 0%nat "main" Logger.DEBUG utils.FORMAT_BASIC
            Demo.one_logger = (Ok tt, Demo.with_file)) as H5
    by (vm_compute; reflexivity).
  cbv zeta.
  exact (X14_file_handler_is_told_of_its_addition
           Demo.one_logger 0%nat Demo.logger_a "a" "a" "/srv/logs"
           "2026-11-03_101501" ∅ H1 eq_refl eq_refl eq_refl eq_refl H2
           "main" Logger.DEBUG utils.FORMAT_BASIC Demo.with_file H3 H4 H5).
Defined.


(** X17 at a run: a new process makes Logger [a], gives it a console
    handler, deletes it and makes Logger [b]. *)
Lemma X17_witness_new_process :
  let s' := after_calls
              [CLogger "a" "logs";
               CAddConsoleHandler 0 "con" Logger.INFO utils.FORMAT_BASIC;
               CDelLogger "a"; CLogger "b" "logs"] Demo.boot in
  registry_ok s'
  ∧ (∀ n, ∃ s'', Logger._del_logger n s' = (Ok tt, s'')
                 ∧ instances s'' = delete n (instances s'))
  ∧ (∀ n r, Logger.get_logger n s' = (Ok r, s') →
            Obj.getattr "logger" logger r s' = (Ok (logging.key_of n), s')).
Proof.
  assert (registry_ok Demo.boot) as H1.
  { intros n r H. change (instances Demo.boot) with (∅ : gmap string ref) in H.
    by rewrite lookup_empty in H. }
  exact (X17_registry_stays_sound
           [CLogger "a" "logs";
            CAddConsoleHandler 0 "con" Logger.INFO utils.FORMAT_BASIC;
            CDelLogger "a"; CLogger "b" "logs"] Demo.boot H1).
Defined.

(** X18 at a run: a new process makes Logger [a], gives it a file handler
    and logs through it; the directory [/srv] it started in is still
    there. *)
Lemma X18_witness_logging_run :
  fs (after_calls
        [CLogger "a" "logs";
         CAddFileHandler 0 "main" Logger.DEBUG utils.FORMAT_BASIC;
         CDebug 0 "hello"] Demo.boot) !! ["srv"] = Some Dir.
Proof.
  assert (Forall (λ c, clears c = false)
            [CLogger "a" "logs";
             CAddFileHandler 0 "main" Logger.DEBUG utils.FORMAT_BASIC;
             CDebug 0 "hello"]) as H1 by (repeat constructor).
  assert (fs Demo.boot !! ["srv"] = Some Dir) as H2
    by (vm_compute; reflexivity).
  exact (X18_only_clearing_removes_entries _ Demo.boot H1 ["srv"] Dir H2).
Defined.

(** X19 at a run: a new process makes Logger [a], gives it a file handler
    and clears the base directory. *)
Lemma X19_witness_cleared_run :
  FS.well_formed
    (fs (after_calls
           [CLogger "a" "logs";
            CAddFileHandler 0 "main" Logger.DEBUG utils.FORMAT_BASIC;
            CClearAllLogs 0] Demo.boot)) = true.
Proof.
  assert (FS.well_formed (fs Demo.boot) = true) as H1
    by (vm_compute; reflexivity).
  exact (X19_calls_keep_the_file_system_a_tree
           [CLogger "a" "logs";
            CAddFileHandler 0 "main" Logger.DEBUG utils.FORMAT_BASIC;
            CClearAllLogs 0] Demo.boot H1).
Defined.

(** X20 at a run: a new process makes Logger [a]; its [run_id] is the
    stamp made then. *)
Lemma X20_witness_first_logger_reads_run_id :
  let s' := after_calls [CLogger "a" "logs"] Demo.boot in
  ∃ rid, cls_run_id s' = Some rid ∧ Logger.run_id 0 s' = (Ok rid, s').
Proof.
  assert (∀ r, is_Some (heap Demo.boot !! r) → is_Some (cls_run_id Demo.boot))
    as H1.
  { intros r [o Hr]. change (heap Demo.boot) with (∅ : gmap ref LoggerObj) in Hr.
    by rewrite lookup_empty in Hr. }
  assert (is_Some (heap (after_calls [CLogger "a" "logs"] Demo.boot) !! 0%nat))
    as H2 by (eexists; vm_compute; reflexivity).
  exact (X20_run_id_can_be_read_on_every_logger
           [CLogger "a" "logs"] Demo.boot H1 0%nat H2).
Defined.
